(** * Network Policy Manager (controller.py): authorization and flow
      orchestration, embedded as pure functions over an explicit
      controller state.

    Conventions of the embedding.
    - Python [str] values are [string]s of ASCII characters; [lower],
      [upper], [strip] act on the ASCII range (the only range the catalog
      and the controller's identifiers use).
    - The three catalog dictionaries are insertion-ordered association
      lists (their iteration order is observable: first authorizing course,
      export order).  The two connection tables are [gmap]s: only presence
      and contents of a key are ever observed by the claims.
    - Every HTTP call is an input: the reply the controller gave (or the
      fact that the call raised) is passed to the function that makes the
      call.  [uuid.uuid4()] is an input as well.
    - [print] calls are diagnostics only and are not modelled. *)

From Stdlib Require Import ZArith String Ascii List Bool Lia.
From Stdlib Require Import DecimalString DecimalZ DecimalPos.
From stdpp Require Import base option list gmap strings.

Local Open Scope string_scope.
Local Open Scope Z_scope.
Local Open Scope list_scope.

(* ===================================================================== *)
(** ** Python values and string operations                                *)
(* ===================================================================== *)

Module Py.

(** A dynamically typed scalar as [yaml.safe_load] produces it. *)
Inductive value :=
| VStr (s : string)
| VInt (z : Z)
| VNone.

Definition is_upper (c : ascii) : bool :=
  (65 <=? nat_of_ascii c)%nat && (nat_of_ascii c <=? 90)%nat.

Definition is_lower (c : ascii) : bool :=
  (97 <=? nat_of_ascii c)%nat && (nat_of_ascii c <=? 122)%nat.

Definition lower_char (c : ascii) : ascii :=
  if is_upper c then ascii_of_nat (nat_of_ascii c + 32) else c.

Definition upper_char (c : ascii) : ascii :=
  if is_lower c then ascii_of_nat (nat_of_ascii c - 32) else c.

Fixpoint map_chars (f : ascii -> ascii) (s : string) : string :=
  match s with
  | EmptyString => EmptyString
  | String c s' => String (f c) (map_chars f s')
  end.

(** [s.lower()] and [s.upper()]. *)
Definition lower : string -> string := map_chars lower_char.
Definition upper : string -> string := map_chars upper_char.

(** [s.replace(c, '')] for a one-character [c]: every occurrence goes. *)
Fixpoint replace_empty (c : ascii) (s : string) : string :=
  match s with
  | EmptyString => EmptyString
  | String a s' =>
      if Ascii.eqb a c then replace_empty c s'
      else String a (replace_empty c s')
  end.

(** [c.isspace()] on ASCII: TAB, LF, VT, FF, CR, FS, GS, RS, US, SPACE. *)
Definition isspace (c : ascii) : bool :=
  let n := nat_of_ascii c in
  ((9 <=? n)%nat && (n <=? 13)%nat) || ((28 <=? n)%nat && (n <=? 32)%nat).

Fixpoint lstrip (s : string) : string :=
  match s with
  | EmptyString => EmptyString
  | String c s' => if isspace c then lstrip s' else s
  end.

Definition rstrip (s : string) : string :=
  String.rev (lstrip (String.rev s)).

(** [s.strip()]. *)
Definition strip (s : string) : string := rstrip (lstrip s).

Fixpoint startswith (p s : string) : bool :=
  match p, s with
  | EmptyString, _ => true
  | String _ _, EmptyString => false
  | String a p', String b s' => Ascii.eqb a b && startswith p' s'
  end.

(** [needle in hay] on two strings: substring test. *)
Fixpoint contains (needle hay : string) : bool :=
  startswith needle hay ||
  match hay with
  | EmptyString => false
  | String _ hay' => contains needle hay'
  end.

(** [str(z)] for an integer. *)
Definition str_int (z : Z) : string := NilZero.string_of_int (Z.to_int z).

(** [str(v)]. *)
Definition str (v : value) : string :=
  match v with
  | VStr s => s
  | VInt z => str_int z
  | VNone => "None"
  end.

(** [v.upper()]: raises [AttributeError] (here [None]) unless [v] is a
    string. *)
Definition upper_method (v : value) : option string :=
  match v with
  | VStr s => Some (upper s)
  | _ => None
  end.

(** Truthiness, [bool(x)], of a string and of an integer. *)
Definition truthy_str (s : string) : bool :=
  match s with EmptyString => false | _ => true end.
Definition truthy_int (z : Z) : bool := negb (z =? 0).

(** [x in l] for a list of strings. *)
Definition mem (x : string) (l : list string) : bool :=
  existsb (String.eqb x) l.

End Py.

(* ===================================================================== *)
(** ** Insertion-ordered dictionaries                                     *)
(* ===================================================================== *)

Module Dict.
Section Dict.
Context {V : Type}.

(** [d[k]] / [d.get(k)]. *)
Fixpoint get (k : string) (d : list (string * V)) : option V :=
  match d with
  | [] => None
  | (k', v) :: d' => if String.eqb k k' then Some v else get k d'
  end.

(** [k in d]. *)
Definition has (k : string) (d : list (string * V)) : bool :=
  match get k d with Some _ => true | None => false end.

(** [d[k] = v]: an existing key keeps its position, a new one goes
    last. *)
Fixpoint set (k : string) (v : V) (d : list (string * V))
  : list (string * V) :=
  match d with
  | [] => [(k, v)]
  | (k', v') :: d' =>
      if String.eqb k k' then (k, v) :: d' else (k', v') :: set k v d'
  end.

Definition keys (d : list (string * V)) : list string := map fst d.
Definition values (d : list (string * V)) : list V := map snd d.
End Dict.
End Dict.

(* ===================================================================== *)
(** ** Catalog classes                                                    *)
(* ===================================================================== *)

Record Alumno := mkAlumno {
  alumno_nombre : string;
  alumno_codigo : string;
  alumno_mac : string;
}.

(** [protocolo] is whatever the YAML document holds: [build_route] calls
    [.upper()] on it inside its [try], which is the one place where an
    install can raise. *)
Record Servicio := mkServicio {
  servicio_nombre : string;
  servicio_protocolo : Py.value;
  servicio_puerto : Z;
}.

Record Servidor := mkServidor {
  servidor_nombre : string;
  servidor_ip : string;
  servidor_servicios : list Servicio;
}.

Definition agregar_servicio (servicio : Servicio) (self : Servidor) : Servidor :=
  {| servidor_nombre := servidor_nombre self;
     servidor_ip := servidor_ip self;
     servidor_servicios := servidor_servicios self ++ [servicio] |}.

(** [curso_servidores] holds pairs (servidor, servicios_permitidos).  The
    server objects are never mutated once a course refers to them (services
    are appended before the server is stored), so the pair carries the
    server's value. *)
Record Curso := mkCurso {
  curso_codigo : string;
  curso_nombre : string;
  curso_estado : string;
  curso_alumnos : list string;
  curso_servidores : list (Servidor * list string);
}.

Definition agregar_alumno (codigo_alumno : string) (self : Curso) : Curso :=
  if negb (Py.mem codigo_alumno (curso_alumnos self)) then
    {| curso_codigo := curso_codigo self;
       curso_nombre := curso_nombre self;
       curso_estado := curso_estado self;
       curso_alumnos := curso_alumnos self ++ [codigo_alumno];
       curso_servidores := curso_servidores self |}
  else self.

(** [list.remove(x)]: drops the first occurrence. *)
Fixpoint list_remove (x : string) (l : list string) : list string :=
  match l with
  | [] => []
  | y :: l' => if String.eqb x y then l' else y :: list_remove x l'
  end.

Definition remover_alumno (codigo_alumno : string) (self : Curso) : Curso :=
  if Py.mem codigo_alumno (curso_alumnos self) then
    {| curso_codigo := curso_codigo self;
       curso_nombre := curso_nombre self;
       curso_estado := curso_estado self;
       curso_alumnos := list_remove codigo_alumno (curso_alumnos self);
       curso_servidores := curso_servidores self |}
  else self.

Definition agregar_servidor (servidor : Servidor)
    (servicios_permitidos : list string) (self : Curso) : Curso :=
  {| curso_codigo := curso_codigo self;
     curso_nombre := curso_nombre self;
     curso_estado := curso_estado self;
     curso_alumnos := curso_alumnos self;
     curso_servidores :=
       curso_servidores self ++ [(servidor, servicios_permitidos)] |}.

(** A path hop: (switch DPID, port). *)
Abbreviation hop := (string * Z)%type (only parsing).

Record Conexion := mkConexion {
  conexion_id : string;
  conexion_alumno : Alumno;
  conexion_servidor : Servidor;
  conexion_servicio : Servicio;
  conexion_ruta : list hop;
}.

(* ===================================================================== *)
(** ** Controller replies                                                 *)
(* ===================================================================== *)

(** Outcome of one [requests.get(url)] followed by the decoding of its
    body: the call raised ([Raised]), or it returned a status code and a
    body; [body = None] stands for a body on which [response.json()] or a
    field access raises.  The body is looked at only under status 200. *)
Inductive response (A : Type) :=
| Raised
| Reply (status_code : Z) (body : option A).
Arguments Raised {A}.
Arguments Reply {A} status_code body.

(** One entry of [/wm/device/]: its MAC list and its attachment points
    (switchDPID, port). *)
Record device := mkDevice {
  device_mac : list string;
  device_attachmentPoint : list (string * Z);
}.

(** What the controller answers during one [crear_conexion], in call
    order, and the identifier [uuid4] yields. *)
Record entorno := mkEntorno {
  nuevo_id : string;
  resp_alumno : response (list device);
  resp_servidor : response (list device);
  resp_ruta : response (list hop);
  resp_instalar : response (list device);
}.

(* ===================================================================== *)
(** ** Topology client                                                    *)
(* ===================================================================== *)

(** [mac.lower().replace(':', '').replace('-', '')]. *)
Definition normalizar_mac (mac : string) : string :=
  Py.replace_empty "-" (Py.replace_empty ":" (Py.lower mac)).

Definition mac_map : list (string * (string * Z)) :=
  [ ("aa:51:aa:ba:72:41", ("00:00:aa:51:aa:ba:72:41", 2));
    ("1a:74:72:3f:ef:44", ("00:00:1a:74:72:3f:ef:44", 2));
    ("fe:16:3e:2c:76:52", ("00:00:5e:c7:6e:c6:11:4c", 1));
    ("fa:16:3e:f4:1f:11", ("00:00:aa:51:aa:ba:72:41", 2));
    ("fe:16:3e:6c:cf:e4", ("00:00:f2:20:f9:45:4c:4e", 3));
    ("5e:c7:6e:c6:11:4c", ("00:00:5e:c7:6e:c6:11:4c", 2));
    ("fa:16:3e:cd:5b:bd", ("00:00:aa:51:aa:ba:72:41", 2));
    ("72:e0:80:7e:85:4c", ("00:00:72:e0:80:7e:85:4c", 2));
    ("fe:16:3e:d5:92:74", ("00:00:1a:74:72:3f:ef:44", 3));
    ("fa:16:3e:05:f4:08", ("00:00:5e:c7:6e:c6:11:4c", 1));
    ("fe:16:3e:ec:df:26", ("00:00:aa:51:aa:ba:72:41", 5));
    ("fa:16:3e:c4:a9:9d", ("00:00:f2:20:f9:45:4c:4e", 3));
    ("fa:16:3e:3f:1a:fd", ("00:00:5e:c7:6e:c6:11:4c", 3));
    ("fe:16:3e:84:34:52", ("00:00:5e:c7:6e:c6:11:4c", 3));
    ("fe:16:3e:dc:6e:fa", ("00:00:72:e0:80:7e:85:4c", 2));
    ("fa:16:3e:d6:a2:a3", ("00:00:1a:74:72:3f:ef:44", 3));
    ("fe:16:3e:d3:02:36", ("00:00:aa:51:aa:ba:72:41", 2));
    ("f2:20:f9:45:4c:4e", ("00:00:f2:20:f9:45:4c:4e", 3));
    ("fe:16:3e:8b:eb:df", ("00:00:72:e0:80:7e:85:4c", 2)) ].

(** The generic attachment point returned when nothing else matches. *)
Definition punto_generico : string * Z := ("00:00:5e:c7:6e:c6:11:4c", 3).

(** The [for device in devices] loop: the first device that lists the MAC
    and has a non-empty attachment-point list decides. *)
Fixpoint buscar_en_dispositivos (mac : string) (devices : list device)
  : option (string * Z) :=
  match devices with
  | [] => None
  | dev :: devices' =>
      if Py.mem (normalizar_mac mac) (map normalizar_mac (device_mac dev))
      then match device_attachmentPoint dev with
           | ap0 :: _ => Some ap0
           | [] => buscar_en_dispositivos mac devices'
           end
      else buscar_en_dispositivos mac devices'
  end.

(** The part of [get_attachment_point] inside its [try]: [Some] is the
    early [return dpid, port]; [None] is falling out of the [try] (not
    found, status other than 200, or an exception). *)
Definition consultar_controlador (r : response (list device)) (mac : string)
  : option (string * Z) :=
  match r with
  | Raised => None
  | Reply status_code body =>
      if status_code =? 200 then
        match body with
        | Some devices => buscar_en_dispositivos mac devices
        | None => None
        end
      else None
  end.

(** The [for mac_key, attachment in mac_map.items()] loop; the test is a
    substring test between the two normalized strings. *)
Fixpoint buscar_en_mac_map (mac_norm : string)
    (tabla : list (string * (string * Z))) : option (string * Z) :=
  match tabla with
  | [] => None
  | (mac_key, attachment) :: tabla' =>
      if Py.contains mac_norm (normalizar_mac mac_key) then Some attachment
      else buscar_en_mac_map mac_norm tabla'
  end.

Definition punto_simulado (mac : string) : string * Z :=
  match buscar_en_mac_map (normalizar_mac mac) mac_map with
  | Some attachment => attachment
  | None => punto_generico
  end.

Definition get_attachment_point (r : response (list device)) (mac : string)
  : string * Z :=
  match consultar_controlador r mac with
  | Some ap => ap
  | None => punto_simulado mac
  end.

(** The simulated route of [get_route]. *)
Definition ruta_simulada (src_dpid dst_dpid : string) (dst_port : Z)
  : list hop :=
  if String.eqb src_dpid dst_dpid then [(src_dpid, dst_port)]
  else [(src_dpid, 1); (dst_dpid, dst_port)].

Definition get_route (r : response (list hop))
    (src_dpid : string) (src_port : Z) (dst_dpid : string) (dst_port : Z)
  : list hop :=
  match r with
  | Raised => ruta_simulada src_dpid dst_dpid dst_port
  | Reply status_code body =>
      if status_code =? 200 then
        match body with
        | Some path => path
        | None => ruta_simulada src_dpid dst_dpid dst_port
        end
      else ruta_simulada src_dpid dst_dpid dst_port
  end.

(* ===================================================================== *)
(** ** Controller state                                                   *)
(* ===================================================================== *)

(** A flow descriptor as posted to the static flow pusher: the dictionary
    literal, key by key. *)
Definition flow_dict : Type := list (string * string).

(** An element of a [flujos_instalados] list: the list is appended both
    names (strings) and descriptors (dictionaries). *)
Inductive flow_entry :=
| FlowName (name : string)
| FlowDict (d : flow_dict).

(** The element is a rule identifier, [isinstance(f, str)]. *)
Definition es_nombre (f : flow_entry) : bool :=
  match f with FlowName _ => true | FlowDict _ => false end.

Record SDNController := mkSDNController {
  alumnos : list (string * Alumno);
  servidores : list (string * Servidor);
  cursos : list (string * Curso);
  conexiones : gmap string Conexion;
  conexion_flujos : gmap string (list flow_entry);
}.

Definition init : SDNController :=
  {| alumnos := []; servidores := []; cursos := [];
     conexiones := ∅; conexion_flujos := ∅ |}.

Definition con_conexiones (m : gmap string Conexion) (self : SDNController)
  : SDNController :=
  {| alumnos := alumnos self; servidores := servidores self;
     cursos := cursos self; conexiones := m;
     conexion_flujos := conexion_flujos self |}.

Definition con_flujos (m : gmap string (list flow_entry))
    (self : SDNController) : SDNController :=
  {| alumnos := alumnos self; servidores := servidores self;
     cursos := cursos self; conexiones := conexiones self;
     conexion_flujos := m |}.

Definition con_cursos (c : list (string * Curso)) (self : SDNController)
  : SDNController :=
  {| alumnos := alumnos self; servidores := servidores self;
     cursos := c; conexiones := conexiones self;
     conexion_flujos := conexion_flujos self |}.

Definition con_alumnos (a : list (string * Alumno)) (self : SDNController)
  : SDNController :=
  {| alumnos := a; servidores := servidores self;
     cursos := cursos self; conexiones := conexiones self;
     conexion_flujos := conexion_flujos self |}.

(* ===================================================================== *)
(** ** Flow orchestrator                                                  *)
(* ===================================================================== *)

(** The four f-strings that name the flows of a hop share one shape:
    prefix, connection id, switch, and two ports, joined by underscores. *)
Definition flow_name (prefijo id switch_dpid : string) (p q : Z) : string :=
  prefijo +:+ id +:+ "_" +:+ switch_dpid +:+ "_" +:+ Py.str_int p
          +:+ "_" +:+ Py.str_int q.

Definition flow_name_forward (id switch_dpid : string) (in_port out_port : Z) :=
  flow_name "flow_alumno_to_servidor_" id switch_dpid in_port out_port.
Definition flow_name_reverse (id switch_dpid : string) (in_port out_port : Z) :=
  flow_name "flow_servidor_to_alumno_" id switch_dpid out_port in_port.
Definition flow_name_arp_forward (id switch_dpid : string) (in_port out_port : Z) :=
  flow_name "flow_arp_alumno_to_servidor_" id switch_dpid in_port out_port.
Definition flow_name_arp_reverse (id switch_dpid : string) (in_port out_port : Z) :=
  flow_name "flow_arp_servidor_to_alumno_" id switch_dpid out_port in_port.

Definition flow_forward (conexion : Conexion) (es_tcp : bool)
    (switch_dpid : string) (in_port out_port : Z) : flow_dict :=
  [ ("switch", switch_dpid);
    ("name", flow_name_forward (conexion_id conexion) switch_dpid in_port out_port);
    ("cookie", "0");
    ("priority", "32768");
    ("in_port", Py.str_int in_port);
    ("eth_src", alumno_mac (conexion_alumno conexion));
    ("eth_type", "0x0800");
    ("ipv4_dst", servidor_ip (conexion_servidor conexion));
    ("ip_proto", if es_tcp then "6" else "17");
    (if es_tcp then "tcp_dst" else "udp_dst",
       Py.str_int (servicio_puerto (conexion_servicio conexion)));
    ("active", "true");
    ("actions", "output=" +:+ Py.str_int out_port) ].

Definition flow_reverse (conexion : Conexion) (es_tcp : bool)
    (switch_dpid : string) (in_port out_port : Z) : flow_dict :=
  [ ("switch", switch_dpid);
    ("name", flow_name_reverse (conexion_id conexion) switch_dpid in_port out_port);
    ("cookie", "0");
    ("priority", "32768");
    ("in_port", Py.str_int out_port);
    ("eth_dst", alumno_mac (conexion_alumno conexion));
    ("eth_type", "0x0800");
    ("ipv4_src", servidor_ip (conexion_servidor conexion));
    ("ip_proto", if es_tcp then "6" else "17");
    (if es_tcp then "tcp_src" else "udp_src",
       Py.str_int (servicio_puerto (conexion_servicio conexion)));
    ("active", "true");
    ("actions", "output=" +:+ Py.str_int in_port) ].

Definition flow_arp_forward (conexion : Conexion)
    (switch_dpid : string) (in_port out_port : Z) : flow_dict :=
  [ ("switch", switch_dpid);
    ("name", flow_name_arp_forward (conexion_id conexion) switch_dpid in_port out_port);
    ("cookie", "0");
    ("priority", "32768");
    ("in_port", Py.str_int in_port);
    ("eth_src", alumno_mac (conexion_alumno conexion));
    ("eth_type", "0x0806");
    ("active", "true");
    ("actions", "output=" +:+ Py.str_int out_port) ].

Definition flow_arp_reverse (conexion : Conexion)
    (switch_dpid : string) (in_port out_port : Z) : flow_dict :=
  [ ("switch", switch_dpid);
    ("name", flow_name_arp_reverse (conexion_id conexion) switch_dpid in_port out_port);
    ("cookie", "0");
    ("priority", "32768");
    ("in_port", Py.str_int out_port);
    ("eth_type", "0x0806");
    ("eth_dst", alumno_mac (conexion_alumno conexion));
    ("active", "true");
    ("actions", "output=" +:+ Py.str_int in_port) ].

(** The body of one loop iteration after [in_port] is known: the four
    descriptors are built (this is where [servicio_protocolo.upper()] may
    raise), then four elements are appended to [flujos_instalados]: the
    forward name, the reverse name, and for ARP the two descriptors
    [flow_arp_forward] and [flow_arp_reverse] themselves.  The POSTs are
    commented out in the source. *)
Definition flujos_del_salto (conexion : Conexion)
    (switch_dpid : string) (in_port out_port : Z) : option (list flow_entry) :=
  proto ← Py.upper_method (servicio_protocolo (conexion_servicio conexion));
  let es_tcp := String.eqb proto "TCP" in
  let _ := flow_forward conexion es_tcp switch_dpid in_port out_port in
  let _ := flow_reverse conexion es_tcp switch_dpid in_port out_port in
  Some [ FlowName (flow_name_forward (conexion_id conexion) switch_dpid in_port out_port);
         FlowName (flow_name_reverse (conexion_id conexion) switch_dpid in_port out_port);
         FlowDict (flow_arp_forward conexion switch_dpid in_port out_port);
         FlowDict (flow_arp_reverse conexion switch_dpid in_port out_port) ].

(** [in_port] of hop [i]: the student's port as the controller reports it
    now for the first hop, [ruta[i-1][1]] afterwards. *)
Definition puerto_de_entrada (r : response (list device)) (conexion : Conexion)
    (ruta : list hop) (i : nat) : option Z :=
  match i with
  | O => Some (snd (get_attachment_point r (alumno_mac (conexion_alumno conexion))))
  | S j => snd <$> ruta !! j
  end.

(** [for i, (switch_dpid, out_port) in enumerate(ruta)], from index [i]
    on; [None] is an exception leaving the loop. *)
Fixpoint instalar_saltos (r : response (list device)) (conexion : Conexion)
    (ruta : list hop) (i : nat) (pendientes : list hop)
    (flujos_instalados : list flow_entry) : option (list flow_entry) :=
  match pendientes with
  | [] => Some flujos_instalados
  | (switch_dpid, out_port) :: pendientes' =>
      in_port ← puerto_de_entrada r conexion ruta i;
      nuevos ← flujos_del_salto conexion switch_dpid in_port out_port;
      instalar_saltos r conexion ruta (S i) pendientes'
                      (flujos_instalados ++ nuevos)
  end.

Definition build_route (r : response (list device)) (ruta : list hop)
    (conexion : Conexion) (self : SDNController) : bool * SDNController :=
  match ruta with
  | [] => (false, self)
  | _ :: _ =>
      match instalar_saltos r conexion ruta 0 ruta [] with
      | Some flujos_instalados =>
          (true,
           con_flujos (<[conexion_id conexion := flujos_instalados]>
                         (conexion_flujos self)) self)
      | None => (false, self)
      end
  end.

(** The loop of [eliminar_flujos] only prints each element (the DELETE is
    commented out), so its [try] cannot raise. *)
Definition eliminar_flujos (id_conexion : string) (self : SDNController)
  : bool * SDNController :=
  match conexion_flujos self !! id_conexion with
  | None => (false, self)
  | Some flujos =>
      (true, con_flujos (delete id_conexion (conexion_flujos self)) self)
  end.

(* ===================================================================== *)
(** ** Policy check and connection lifecycle                              *)
(* ===================================================================== *)

(** [for svc in servidor.servicios: if svc.nombre.lower() ==
    nombre_servicio.lower(): ... break]. *)
Fixpoint buscar_servicio (nombre_servicio : string) (servicios : list Servicio)
  : option Servicio :=
  match servicios with
  | [] => None
  | svc :: servicios' =>
      if String.eqb (Py.lower (servicio_nombre svc)) (Py.lower nombre_servicio)
      then Some svc
      else buscar_servicio nombre_servicio servicios'
  end.

Definition permiso_cubre (servidor : Servidor) (servicio : Servicio)
    (par : Servidor * list string) : bool :=
  String.eqb (servidor_nombre (fst par)) (servidor_nombre servidor)
  && Py.mem (Py.lower (servicio_nombre servicio)) (map Py.lower (snd par)).

Definition curso_autoriza (codigo_alumno : string) (servidor : Servidor)
    (servicio : Servicio) (curso : Curso) : bool :=
  String.eqb (curso_estado curso) "DICTANDO"
  && Py.mem codigo_alumno (curso_alumnos curso)
  && existsb (permiso_cubre servidor servicio) (curso_servidores curso).

(** [for codigo_curso, curso in self.cursos.items()] with its [continue]s
    and [break]s: the first authorizing course, if any. *)
Fixpoint buscar_curso_autorizador (codigo_alumno : string) (servidor : Servidor)
    (servicio : Servicio) (cs : list (string * Curso)) : option Curso :=
  match cs with
  | [] => None
  | (_, curso) :: cs' =>
      if curso_autoriza codigo_alumno servidor servicio curso then Some curso
      else buscar_curso_autorizador codigo_alumno servidor servicio cs'
  end.

Definition servidor_mac : string := "fa:16:3e:6c:a0:7c".

Definition con_ruta (ruta : list hop) (c : Conexion) : Conexion :=
  {| conexion_id := conexion_id c; conexion_alumno := conexion_alumno c;
     conexion_servidor := conexion_servidor c;
     conexion_servicio := conexion_servicio c; conexion_ruta := ruta |}.

(** [del self.conexiones[id]]. *)
Definition descartar (id : string) (self : SDNController) : SDNController :=
  con_conexiones (delete id (conexiones self)) self.

(** [not alumno_dpid or not alumno_port], negated. *)
Definition punto_valido (ap : string * Z) : bool :=
  Py.truthy_str (fst ap) && Py.truthy_int (snd ap).

(** The [return] statement through which [crear_conexion] leaves, named
    after the message printed just before it. *)
Inductive salida :=
| SinAlumno          (* No se encontro ningun alumno con codigo ... *)
| SinServidor        (* No se encontro ningun servidor con nombre ... *)
| SinServicio        (* El servidor ... no ofrece el servicio ... *)
| NoAutorizado       (* El alumno ... no esta autorizado ... *)
| SinPuntoAlumno     (* No se pudo determinar el punto de conexion del alumno *)
| SinPuntoServidor   (* No se pudo determinar el punto de conexion del servidor *)
| SinRuta            (* No se pudo calcular una ruta ... *)
| SinFlujos          (* No se pudieron instalar los flujos necesarios *)
| Configurada.       (* Conexion ... configurada correctamente *)

(** The boolean each [return] carries. *)
Definition valor_devuelto (s : salida) : bool :=
  match s with Configurada => true | _ => false end.

Definition crear_conexion_salida (w : entorno)
    (codigo_alumno nombre_servidor nombre_servicio : string)
    (self : SDNController) : salida * SDNController :=
  match Dict.get codigo_alumno (alumnos self) with
  | None => (SinAlumno, self)
  | Some alumno =>
  match Dict.get nombre_servidor (servidores self) with
  | None => (SinServidor, self)
  | Some servidor =>
  match buscar_servicio nombre_servicio (servidor_servicios servidor) with
  | None => (SinServicio, self)
  | Some servicio =>
  match buscar_curso_autorizador codigo_alumno servidor servicio
                                 (cursos self) with
  | None => (NoAutorizado, self)
  | Some curso_autorizador =>
      let conexion := mkConexion (nuevo_id w) alumno servidor servicio [] in
      let id := conexion_id conexion in
      let self1 := con_conexiones (<[id := conexion]> (conexiones self)) self in
      let alumno_ap :=
        get_attachment_point (resp_alumno w) (alumno_mac alumno) in
      if negb (punto_valido alumno_ap) then (SinPuntoAlumno, descartar id self1)
      else
        let servidor_ap :=
          get_attachment_point (resp_servidor w) servidor_mac in
        if negb (punto_valido servidor_ap)
        then (SinPuntoServidor, descartar id self1)
        else
          let ruta := get_route (resp_ruta w) (fst alumno_ap) (snd alumno_ap)
                                (fst servidor_ap) (snd servidor_ap) in
          match ruta with
          | [] => (SinRuta, descartar id self1)
          | _ :: _ =>
              (* conexion.ruta = ruta: the registered object is updated *)
              let conexion' := con_ruta ruta conexion in
              let self2 :=
                con_conexiones (<[id := conexion']> (conexiones self1)) self1 in
              match build_route (resp_instalar w) ruta conexion' self2 with
              | (false, self3) => (SinFlujos, descartar id self3)
              | (true, self3) => (Configurada, self3)
              end
          end
  end end end end.

Definition crear_conexion (w : entorno)
    (codigo_alumno nombre_servidor nombre_servicio : string)
    (self : SDNController) : bool * SDNController :=
  let r := crear_conexion_salida w codigo_alumno nombre_servidor
                                 nombre_servicio self in
  (valor_devuelto (fst r), snd r).

Definition borrar_conexion (id_conexion : string) (self : SDNController)
  : bool * SDNController :=
  match conexiones self !! id_conexion with
  | None => (false, self)
  | Some conexion =>
      let self1 :=
        match conexion_flujos self !! id_conexion with
        | Some _ => snd (eliminar_flujos id_conexion self)
        | None => self
        end in
      (true, descartar id_conexion self1)
  end.

(** [crear_alumno] and [actualizar_curso], the catalog edits of the menu. *)
Definition crear_alumno (nombre codigo mac : string) (self : SDNController)
  : bool * SDNController :=
  if Dict.has codigo (alumnos self) then (false, self)
  else (true, con_alumnos (Dict.set codigo (mkAlumno nombre codigo mac)
                                    (alumnos self)) self).

(** A course object lives in [self.cursos] only, so mutating it is
    rewriting the value under its key. *)
Definition actualizar_curso (codigo_curso codigo_alumno accion : string)
    (self : SDNController) : bool * SDNController :=
  match Dict.get codigo_curso (cursos self) with
  | None => (false, self)
  | Some curso =>
      match Dict.get codigo_alumno (alumnos self) with
      | None => (false, self)
      | Some alumno =>
          if String.eqb (Py.lower accion) "agregar" then
            (true, con_cursos (Dict.set codigo_curso
                                 (agregar_alumno codigo_alumno curso)
                                 (cursos self)) self)
          else if String.eqb (Py.lower accion) "eliminar" then
            (true, con_cursos (Dict.set codigo_curso
                                 (remover_alumno codigo_alumno curso)
                                 (cursos self)) self)
          else (false, self)
      end
  end.

(* ===================================================================== *)
(** ** Listings                                                           *)
(* ===================================================================== *)

(** A listing is modelled by the lines it prints, one element per call of
    [print]. *)

(** [Curso.__str__]. *)
Definition Curso_str (self : Curso) : string :=
  "Curso: " +:+ curso_nombre self +:+ " (" +:+ curso_codigo self
            +:+ "), Estado: " +:+ curso_estado self.

(** The line feed that opens the headers of the listings. *)
Definition salto_de_linea : string := String (ascii_of_nat 10) "".

(** The inner loop of the filtered listing: the first grant for a server
    of that name whose permitted list holds the service name as it is
    written prints the course and [break]s. *)
Fixpoint lineas_del_curso (servicio_nom servidor_nom : string)
    (curso : Curso) (permisos : list (Servidor * list string)) : list string :=
  match permisos with
  | [] => []
  | (srv, servicios_permitidos) :: permisos' =>
      if String.eqb (servidor_nombre srv) servidor_nom
         && Py.mem servicio_nom servicios_permitidos
      then ["- " +:+ Curso_str curso]
      else lineas_del_curso servicio_nom servidor_nom curso permisos'
  end.

(** [listar_cursos]: the lines it prints.  The two arguments default to
    [None]; the filter applies when both are truthy. *)
Definition listar_cursos (servicio_nom servidor_nom : option string)
    (self : SDNController) : list string :=
  match servicio_nom, servidor_nom with
  | Some (String _ _ as servicio), Some (String _ _ as servidor) =>
      (salto_de_linea +:+ "Cursos que tienen acceso al servicio "
         +:+ servicio +:+ " en " +:+ servidor +:+ ":")
      :: flat_map (fun '(_, curso) =>
                     lineas_del_curso servicio servidor curso
                                      (curso_servidores curso))
                  (cursos self)
  | _, _ =>
      (salto_de_linea +:+ "Lista de todos los cursos:")
      :: map (fun '(_, curso) => "- " +:+ Curso_str curso) (cursos self)
  end.

(* ===================================================================== *)
(** ** Catalog documents: import and export                               *)
(* ===================================================================== *)

(** The YAML document after [yaml.safe_load], with the keys the importer
    reads.  A key the importer tests with [in] before reading is an
    [option]; member codes are untyped scalars (the importer applies
    [str(...).strip()] to them). *)
Record servicio_data := mkServicioData {
  sd_nombre : string;
  sd_protocolo : Py.value;
  sd_puerto : Z;
}.

Record servidor_data := mkServidorData {
  vd_nombre : string;
  vd_ip : string;
  vd_servicios : option (list servicio_data);
}.

Record alumno_data := mkAlumnoData {
  ad_nombre : string;
  ad_codigo : string;
  ad_mac : string;
}.

Record permiso_data := mkPermisoData {
  pd_nombre : string;
  pd_servicios_permitidos : list string;
}.

Record curso_data := mkCursoData {
  cd_codigo : string;
  cd_nombre : string;
  cd_estado : string;
  cd_alumnos : option (list Py.value);
  cd_servidores : option (list permiso_data);
}.

Record documento := mkDocumento {
  doc_servidores : option (list servidor_data);
  doc_alumnos : option (list alumno_data);
  doc_cursos : option (list curso_data);
}.

Definition importar_servidor (srv_data : servidor_data) : Servidor :=
  let servidor := mkServidor (vd_nombre srv_data) (vd_ip srv_data) [] in
  match vd_servicios srv_data with
  | Some servicios =>
      fold_left
        (fun servidor svc_data =>
           agregar_servicio
             (mkServicio (sd_nombre svc_data) (sd_protocolo svc_data)
                         (sd_puerto svc_data))
             servidor)
        servicios servidor
  | None => servidor
  end.

Definition importar_servidores (l : list servidor_data)
    (d : list (string * Servidor)) : list (string * Servidor) :=
  fold_left
    (fun d srv_data =>
       let servidor := importar_servidor srv_data in
       Dict.set (servidor_nombre servidor) servidor d)
    l d.

Definition importar_alumnos (l : list alumno_data)
    (d : list (string * Alumno)) : list (string * Alumno) :=
  fold_left
    (fun d alu_data =>
       let alumno := mkAlumno (ad_nombre alu_data) (ad_codigo alu_data)
                              (ad_mac alu_data) in
       Dict.set (alumno_codigo alumno) alumno d)
    l d.

Definition importar_curso (servs : list (string * Servidor))
    (cdata : curso_data) : Curso :=
  let curso := mkCurso (cd_codigo cdata) (cd_nombre cdata) (cd_estado cdata)
                       [] [] in
  let curso :=
    match cd_alumnos cdata with
    | Some ((_ :: _) as alumnos_lista) =>
        fold_left
          (fun curso codigo_alumno =>
             agregar_alumno (Py.strip (Py.str codigo_alumno)) curso)
          alumnos_lista curso
    | _ => curso
    end in
  match cd_servidores cdata with
  | Some permisos =>
      fold_left
        (fun curso srv_data =>
           match Dict.get (pd_nombre srv_data) servs with
           | Some servidor =>
               agregar_servidor servidor (pd_servicios_permitidos srv_data)
                                curso
           | None => curso
           end)
        permisos curso
  | None => curso
  end.

Definition importar_cursos (servs : list (string * Servidor))
    (l : list curso_data) (d : list (string * Curso))
  : list (string * Curso) :=
  fold_left
    (fun d cdata =>
       let curso := importar_curso servs cdata in
       Dict.set (curso_codigo curso) curso d)
    l d.

(** [importar_archivo] on the loaded document; [datos = None] is a file
    that cannot be opened or parsed (the [except] is reached before any
    table is cleared). *)
Definition importar_archivo (datos : option documento) (self : SDNController)
  : bool * SDNController :=
  match datos with
  | None => (false, self)
  | Some datos =>
      let servs :=
        match doc_servidores datos with
        | Some l => importar_servidores l []
        | None => []
        end in
      let alus :=
        match doc_alumnos datos with
        | Some l => importar_alumnos l []
        | None => []
        end in
      let curs :=
        match doc_cursos datos with
        | Some l => importar_cursos servs l []
        | None => []
        end in
      (true,
       {| alumnos := alus; servidores := servs; cursos := curs;
          conexiones := conexiones self;
          conexion_flujos := conexion_flujos self |})
  end.

(** The [datos] structure [exportar_archivo] hands to [yaml.dump]. *)
Definition exportar_archivo (self : SDNController) : documento :=
  {| doc_alumnos :=
       Some (map (fun '(_, alumno) =>
                    mkAlumnoData (alumno_nombre alumno) (alumno_codigo alumno)
                                 (alumno_mac alumno))
                 (alumnos self));
     doc_servidores :=
       Some (map (fun '(_, servidor) =>
                    mkServidorData
                      (servidor_nombre servidor) (servidor_ip servidor)
                      (Some (map (fun servicio =>
                                    mkServicioData
                                      (servicio_nombre servicio)
                                      (servicio_protocolo servicio)
                                      (servicio_puerto servicio))
                                 (servidor_servicios servidor))))
                 (servidores self));
     doc_cursos :=
       Some (map (fun '(_, curso) =>
                    mkCursoData
                      (curso_codigo curso) (curso_nombre curso)
                      (curso_estado curso)
                      (Some (map Py.VStr (curso_alumnos curso)))
                      (Some (map (fun '(srv, servicios_permitidos) =>
                                    mkPermisoData (servidor_nombre srv)
                                                  servicios_permitidos)
                                 (curso_servidores curso))))
                 (cursos self)) |}.

(* ===================================================================== *)
(** ** Top-level operations as a transition system                        *)
(* ===================================================================== *)

Inductive operacion :=
| OpCrearConexion (w : entorno)
    (codigo_alumno nombre_servidor nombre_servicio : string)
| OpBorrarConexion (id_conexion : string)
| OpImportarArchivo (datos : option documento)
| OpCrearAlumno (nombre codigo mac : string)
| OpActualizarCurso (codigo_curso codigo_alumno accion : string).

Definition ejecutar (op : operacion) (self : SDNController)
  : bool * SDNController :=
  match op with
  | OpCrearConexion w a s v => crear_conexion w a s v self
  | OpBorrarConexion id => borrar_conexion id self
  | OpImportarArchivo datos => importar_archivo datos self
  | OpCrearAlumno n c m => crear_alumno n c m self
  | OpActualizarCurso cc ca acc => actualizar_curso cc ca acc self
  end.

(** A premise on a step, not a fact of the code: the id that
    [Conexion.__init__] draws from [uuid4] for a new connection is not
    the id of a registered one.  The source takes it for granted and
    checks nothing. *)
Definition id_nuevo (op : operacion) (self : SDNController) : Prop :=
  match op with
  | OpCrearConexion w _ _ _ => conexiones self !! nuevo_id w = None
  | _ => True
  end.

(** The tables are in lockstep: same key set. *)
Definition en_paralelo (self : SDNController) : Prop :=
  dom (conexiones self) = dom (conexion_flujos self).

Definition correr (ops : list operacion) (self : SDNController)
  : SDNController :=
  fold_left (fun self op => snd (ejecutar op self)) ops self.

(** States between two top-level operations of a session. *)
Inductive alcanzable : SDNController -> Prop :=
| alcanzable_init : alcanzable init
| alcanzable_paso self op :
    alcanzable self -> id_nuevo op self ->
    alcanzable (snd (ejecutar op self)).

(** The exits of [crear_conexion] taken after
    [self.conexiones[conexion.id] = conexion]: each of them runs
    [del self.conexiones[conexion.id]] before it returns. *)
Definition registro_deshecho (s : salida) : bool :=
  match s with
  | SinPuntoAlumno | SinPuntoServidor | SinRuta | SinFlujos => true
  | _ => false
  end.

(** The operation is a [crear_conexion] whose connection draws the id of
    a registered one and which then fails after registering its own.
    Nothing in the source compares the eight characters
    [str(uuid.uuid4())[:8]] with the keys of [self.conexiones]. *)
Definition choque_fallido (op : operacion) (self : SDNController) : Prop :=
  match op with
  | OpCrearConexion w a s v =>
      is_Some (conexiones self !! nuevo_id w)
      /\ registro_deshecho (fst (crear_conexion_salida w a s v self)) = true
  | _ => False
  end.

(** No operation of the run, started in [self], is such a call. *)
Fixpoint sin_choque_fallido (ops : list operacion) (self : SDNController)
  : Prop :=
  match ops with
  | [] => True
  | op :: ops' =>
      ~ choque_fallido op self
      /\ sin_choque_fallido ops' (snd (ejecutar op self))
  end.

(* ===================================================================== *)
(** ** Vocabulary of the properties                                       *)
(* ===================================================================== *)

(** The controller call of [get_route] or [get_attachment_point] failed:
    it raised, answered with a status other than 200, or its body could
    not be decoded. *)
Definition llamada_fallida {A} (r : response A) : Prop :=
  match r with
  | Raised => True
  | Reply status_code body => status_code <> 200 \/ body = None
  end.

(** A course covers a request, in the words of the policy: the course is
    being taught ("DICTANDO"), the user is one of its members, and it has a
    grant for a server of that name whose permitted-service list contains
    the requested service name up to letter case. *)
Definition curso_cubre (codigo_alumno : string) (servidor : Servidor)
    (nombre_servicio : string) (curso : Curso) : Prop :=
  curso_estado curso = "DICTANDO"
  /\ codigo_alumno ∈ curso_alumnos curso
  /\ exists srv permitidos,
       (srv, permitidos) ∈ curso_servidores curso
       /\ servidor_nombre srv = servidor_nombre servidor
       /\ exists p, p ∈ permitidos /\ Py.lower p = Py.lower nombre_servicio.

(** The character [c] occurs in [s]. *)
Fixpoint tiene (c : ascii) (s : string) : bool :=
  match s with
  | EmptyString => false
  | String a s' => Ascii.eqb a c || tiene c s'
  end.

(** Documents the importer takes in without normalizing anything: every
    optional collection is present, names and codes are unique keys,
    member codes are strings without surrounding blanks and without
    repetition, and every grant names a server of the document. *)
#[global] Instance value_eq_dec : EqDecision Py.value.
Proof. solve_decision. Defined.

Definition codigo_limpio (v : Py.value) : bool :=
  match v with
  | Py.VStr s => String.eqb (Py.strip s) s
  | _ => false
  end.

Definition servidor_data_normal (v : servidor_data) : bool :=
  match vd_servicios v with Some _ => true | None => false end.

Definition curso_data_normal (nombres : list string) (c : curso_data) : bool :=
  match cd_alumnos c, cd_servidores c with
  | Some codigos, Some permisos =>
      forallb codigo_limpio codigos
      && bool_decide (NoDup codigos)
      && forallb (fun pd => Py.mem (pd_nombre pd) nombres) permisos
  | _, _ => false
  end.

Definition documento_normal (d : documento) : bool :=
  match doc_servidores d, doc_alumnos d, doc_cursos d with
  | Some ss, Some als, Some cs =>
      forallb servidor_data_normal ss
      && bool_decide (NoDup (map vd_nombre ss))
      && bool_decide (NoDup (map ad_codigo als))
      && bool_decide (NoDup (map cd_codigo cs))
      && forallb (curso_data_normal (map vd_nombre ss)) cs
  | _, _, _ => false
  end.

(** [crear_conexion] got past its policy part: it left through one of the
    exits that follow the registration of the connection. *)
Definition pasa_politica (s : salida) : bool :=
  match s with
  | SinAlumno | SinServidor | SinServicio | NoAutorizado => false
  | _ => true
  end.

(** A dictionary of named objects: no key is repeated and every object is
    stored under its own name. *)
Definition diccionario_coherente {V} (nombre : V -> string)
    (d : list (string * V)) : Prop :=
  NoDup (Dict.keys d) /\ forall k v, (k, v) ∈ d -> nombre v = k.

(** Keys are the codes and names of the objects stored under them, no key
    is repeated, no course lists a member twice, and every grant of a
    course holds a server of the catalog. *)
Definition catalogo_coherente (self : SDNController) : Prop :=
  NoDup (Dict.keys (alumnos self))
  /\ NoDup (Dict.keys (servidores self))
  /\ NoDup (Dict.keys (cursos self))
  /\ (forall k a, (k, a) ∈ alumnos self -> alumno_codigo a = k)
  /\ (forall k s, (k, s) ∈ servidores self -> servidor_nombre s = k)
  /\ (forall k c, (k, c) ∈ cursos self ->
        curso_codigo c = k
        /\ NoDup (curso_alumnos c)
        /\ forall srv sp, (srv, sp) ∈ curso_servidores c ->
             Dict.get (servidor_nombre srv) (servidores self) = Some srv).


(** No member code of any course has surrounding blanks. *)
Definition miembros_limpios (self : SDNController) : bool :=
  forallb (fun kc : string * Curso =>
             forallb (fun x => String.eqb (Py.strip x) x)
                     (curso_alumnos (snd kc)))
          (cursos self).

(** The course has a grant for a server of that name whose permitted list
    holds the service name verbatim. *)
Definition curso_listado (servicio_nom servidor_nom : string)
    (curso : Curso) : bool :=
  existsb (fun par : Servidor * list string =>
             String.eqb (servidor_nombre (fst par)) servidor_nom
             && Py.mem servicio_nom (snd par))
          (curso_servidores curso).

(* ===================================================================== *)
(** ** A small catalog and a few controller behaviours                    *)
(* ===================================================================== *)

Module Ejemplo.

Definition u1 : Alumno := mkAlumno "Ana" "U1" "aa:bb:cc:dd:ee:01".
Definition http : Servicio := mkServicio "HTTP" (Py.VStr "TCP") 80.
Definition ssh : Servicio := mkServicio "SSH" (Py.VStr "TCP") 22.
(** A service whose protocol the document gave as the number 6. *)
Definition dns : Servicio := mkServicio "DNS" (Py.VInt 6) 53.
Definition s1 : Servidor := mkServidor "S1" "10.0.0.3" [http; ssh; dns].
Definition c1 : Curso :=
  mkCurso "C1" "Redes" "DICTANDO" ["U1"] [(s1, ["http"; "dns"])].

Definition catalogo : SDNController :=
  {| alumnos := [("U1", u1)];
     servidores := [("S1", s1)];
     cursos := [("C1", c1)];
     conexiones := ∅;
     conexion_flujos := ∅ |}.

(** No controller is listening: every call raises. *)
Definition sin_controlador : entorno :=
  mkEntorno "1a2b3c4d" Raised Raised Raised Raised.

Definition sw1 : string := "00:00:00:00:00:00:00:01".

(** The controller knows the student's host, attached to port 0. *)
Definition dispositivos_puerto_0 : response (list device) :=
  Reply 200 (Some [mkDevice ["AA:BB:CC:DD:EE:01"] [(sw1, 0)]]).

Definition con_puerto_0 : entorno :=
  mkEntorno "1a2b3c4d" dispositivos_puerto_0 Raised Raised Raised.


Definition doc_catalogo : documento :=
  {| doc_servidores :=
       Some [mkServidorData "S1" "10.0.0.3"
               (Some [mkServicioData "HTTP" (Py.VStr "TCP") 80;
                      mkServicioData "SSH" (Py.VStr "TCP") 22])];
     doc_alumnos := Some [mkAlumnoData "Ana" "U1" "aa:bb:cc:dd:ee:01"];
     doc_cursos :=
       Some [mkCursoData "C1" "Redes" "DICTANDO" (Some [Py.VStr "U1"])
                         (Some [mkPermisoData "S1" ["HTTP"]])] |}.

(** The state after the catalog user opened HTTP on S1 offline. *)
Definition conectado : SDNController :=
  snd (crear_conexion sin_controlador "U1" "S1" "http" catalogo).

(** A session: load the catalog document, then open HTTP on S1. *)
Definition sesion : list operacion :=
  [ OpImportarArchivo (Some doc_catalogo);
    OpCrearConexion sin_controlador "U1" "S1" "http" ].

(** The session, followed by a second request whose connection draws the
    id of the open one and is configured as well. *)
Definition sesion_con_id_repetido : list operacion :=
  sesion ++ [OpCrearConexion sin_controlador "U1" "S1" "http"].

(** A second student, enrolled nowhere. *)
Definition u2 : Alumno := mkAlumno "Beto" "U2" "aa:bb:cc:dd:ee:02".

Definition catalogo_u2 : SDNController :=
  {| alumnos := [("U1", u1); ("U2", u2)];
     servidores := [("S1", s1)];
     cursos := [("C1", c1)];
     conexiones := ∅;
     conexion_flujos := ∅ |}.

(** The controller lists the student's host twice: first without any
    attachment point, then on port 4. *)
Definition sin_punto : device := mkDevice ["aa:bb:cc:dd:ee:01"] [].
Definition en_puerto_4 : device :=
  mkDevice ["AA-BB-CC-DD-EE-01"] [(sw1, 4)].

End Ejemplo.

(* ===================================================================== *)
(** * Properties                                                          *)
(* ===================================================================== *)

(** ** Membership and dictionary facts *)

Lemma mem_elem_of (x : string) (l : list string) :
  Py.mem x l = true <-> x ∈ l.
Proof.
  unfold Py.mem. rewrite existsb_exists. split.
  - intros (y & Hy & He). apply String.eqb_eq in He. subst y.
    by apply list_elem_of_In.
  - intros Hx. exists x. split; [by apply list_elem_of_In|].
    apply String.eqb_refl.
Qed.

Lemma mem_not_elem_of (x : string) (l : list string) :
  Py.mem x l = false <-> x ∉ l.
Proof.
  rewrite <- mem_elem_of. destruct (Py.mem x l); split; congruence.
Qed.

(** ** Course membership *)

(** C8. Adding a code that is already in the member list of a course
    leaves the course, hence its member list and its length, as they
    were. *)
Theorem agregar_alumno_idempotente (curso : Curso) (codigo_alumno : string) :
  codigo_alumno ∈ curso_alumnos curso ->
  agregar_alumno codigo_alumno curso = curso
  /\ curso_alumnos (agregar_alumno codigo_alumno curso) = curso_alumnos curso
  /\ length (curso_alumnos (agregar_alumno codigo_alumno curso))
     = length (curso_alumnos curso).
Proof.
  intros Hin. apply mem_elem_of in Hin.
  assert (Heq : agregar_alumno codigo_alumno curso = curso).
  { unfold agregar_alumno. by rewrite Hin. }
  by rewrite Heq.
Qed.

Lemma agregar_alumno_idempotente_witness :
  "U1" ∈ curso_alumnos Ejemplo.c1
  /\ length (curso_alumnos (agregar_alumno "U1" Ejemplo.c1)) = 1%nat.
Proof.
  split.
  - simpl. constructor.
  - apply (agregar_alumno_idempotente Ejemplo.c1 "U1"). simpl. constructor.
Defined.

(** ** Teardown *)

Lemma descartar_flujos (id : string) (self : SDNController) :
  conexion_flujos (descartar id self) = conexion_flujos self.
Proof. reflexivity. Qed.

Lemma descartar_lookup (id : string) (self : SDNController) :
  conexiones (descartar id self) !! id = None.
Proof. simpl. apply lookup_delete_eq. Qed.

Lemma eliminar_flujos_lookup (id : string) (self : SDNController) :
  conexion_flujos (snd (eliminar_flujos id self)) !! id = None.
Proof.
  unfold eliminar_flujos.
  destruct (conexion_flujos self !! id) eqn:E; simpl; [|done].
  apply lookup_delete_eq.
Qed.

(** C2. Tearing down a registered connection returns [True] and leaves
    its id in neither table.  The removal loop cannot fail in the source
    (it only prints), so there is no outcome in which the flow entry
    survives. *)
Theorem borrar_conexion_completo (id_conexion : string) (self : SDNController) :
  is_Some (conexiones self !! id_conexion) ->
  fst (borrar_conexion id_conexion self) = true
  /\ conexiones (snd (borrar_conexion id_conexion self)) !! id_conexion = None
  /\ conexion_flujos (snd (borrar_conexion id_conexion self)) !! id_conexion
     = None.
Proof.
  intros [conexion Hc]. unfold borrar_conexion. rewrite Hc. simpl.
  split; [done|]. split; [apply lookup_delete_eq|].
  destruct (conexion_flujos self !! id_conexion) eqn:Hf; [|done].
  apply eliminar_flujos_lookup.
Qed.

Lemma borrar_conexion_completo_witness :
  is_Some (conexiones Ejemplo.conectado !! "1a2b3c4d")
  /\ conexion_flujos (snd (borrar_conexion "1a2b3c4d" Ejemplo.conectado))
       !! "1a2b3c4d" = None.
Proof.
  split.
  - eexists. vm_compute. reflexivity.
  - apply (borrar_conexion_completo "1a2b3c4d" Ejemplo.conectado).
    eexists. vm_compute. reflexivity.
Defined.

(** C10. Asking to tear down an id that is not registered returns [False]
    and hands back the very same controller state. *)
Theorem borrar_conexion_desconocida (id_conexion : string) (self : SDNController) :
  conexiones self !! id_conexion = None ->
  borrar_conexion id_conexion self = (false, self).
Proof. intros Hc. unfold borrar_conexion. by rewrite Hc. Qed.

Lemma borrar_conexion_desconocida_witness :
  conexiones Ejemplo.conectado !! "ffffffff" = None
  /\ borrar_conexion "ffffffff" Ejemplo.conectado = (false, Ejemplo.conectado).
Proof.
  split.
  - vm_compute. reflexivity.
  - apply (borrar_conexion_desconocida "ffffffff" Ejemplo.conectado).
    vm_compute. reflexivity.
Defined.

(** ** Simulated route *)

Lemma get_route_fallida (r : response (list hop))
    (src_dpid : string) (src_port : Z) (dst_dpid : string) (dst_port : Z) :
  llamada_fallida r ->
  get_route r src_dpid src_port dst_dpid dst_port
  = ruta_simulada src_dpid dst_dpid dst_port.
Proof.
  destruct r as [|code body]; simpl; [done|].
  intros [Hne | ->].
  - apply Z.eqb_neq in Hne. by rewrite Hne.
  - by destruct (code =? 200).
Qed.

(** C6. When the controller call fails, [get_route] answers with the
    simulated path: the single hop (switch, destination port) if both ends
    sit on one switch, otherwise the source switch (leaving through port 1)
    followed by the destination switch (leaving through the destination
    port); the answer is never empty. *)
Theorem get_route_simulada (r : response (list hop))
    (src_dpid : string) (src_port : Z) (dst_dpid : string) (dst_port : Z) :
  llamada_fallida r ->
  (src_dpid = dst_dpid ->
   get_route r src_dpid src_port dst_dpid dst_port = [(dst_dpid, dst_port)])
  /\ (src_dpid <> dst_dpid ->
      get_route r src_dpid src_port dst_dpid dst_port
      = [(src_dpid, 1); (dst_dpid, dst_port)])
  /\ get_route r src_dpid src_port dst_dpid dst_port <> [].
Proof.
  intros Hf. rewrite (get_route_fallida _ _ _ _ _ Hf). unfold ruta_simulada.
  destruct (String.eqb_spec src_dpid dst_dpid) as [->|Hne];
    repeat split; try done.
Qed.

Lemma get_route_simulada_witness :
  llamada_fallida (Reply 503 (@None (list hop)))
  /\ get_route (Reply 503 None) "sw-a" 4 "sw-b" 7 <> [].
Proof.
  split.
  - simpl. left. lia.
  - apply (get_route_simulada (Reply 503 None) "sw-a" 4 "sw-b" 7).
    simpl. left. lia.
Defined.

(** ** Shape of the state [crear_conexion] leaves behind *)

Lemma build_route_false (r : response (list device)) (ruta : list hop)
    (conexion : Conexion) (self self' : SDNController) :
  build_route r ruta conexion self = (false, self') -> self' = self.
Proof.
  unfold build_route. destruct ruta as [|h ruta']; [congruence|].
  destruct (instalar_saltos _ _ _ _ _ _); congruence.
Qed.

Lemma build_route_true (r : response (list device)) (ruta : list hop)
    (conexion : Conexion) (self self' : SDNController) :
  build_route r ruta conexion self = (true, self') ->
  exists flujos,
    instalar_saltos r conexion ruta 0 ruta [] = Some flujos
    /\ self' = con_flujos (<[conexion_id conexion := flujos]>
                             (conexion_flujos self)) self.
Proof.
  unfold build_route. destruct ruta as [|h ruta']; [congruence|].
  destruct (instalar_saltos _ _ _ _ _ _) as [flujos|]; [|congruence].
  intros [= <-]. by exists flujos.
Qed.

(** What each exit of [crear_conexion] does to the state: the first four
    leave it alone, the next four have registered the connection and
    dropped it again, and the last one has registered the connection with
    its route and recorded the flows of [build_route] under its id. *)
Lemma crear_conexion_salida_estado (w : entorno)
    (codigo_alumno nombre_servidor nombre_servicio : string)
    (self : SDNController) :
  let r := crear_conexion_salida w codigo_alumno nombre_servidor
                                 nombre_servicio self in
  match fst r with
  | SinAlumno | SinServidor | SinServicio | NoAutorizado => snd r = self
  | SinPuntoAlumno | SinPuntoServidor | SinRuta | SinFlujos =>
      snd r = descartar (nuevo_id w) self
  | Configurada =>
      exists conexion flujos,
        conexion_id conexion = nuevo_id w
        /\ conexion_ruta conexion <> []
        /\ instalar_saltos (resp_instalar w) conexion
                           (conexion_ruta conexion) 0
                           (conexion_ruta conexion) [] = Some flujos
        /\ snd r =
           con_flujos (<[nuevo_id w := flujos]> (conexion_flujos self))
             (con_conexiones (<[nuevo_id w := conexion]> (conexiones self))
                             self)
  end.
Proof.
  unfold crear_conexion_salida.
  destruct (Dict.get codigo_alumno (alumnos self)) as [alumno|]; [|done].
  destruct (Dict.get nombre_servidor (servidores self)) as [servidor|]; [|done].
  destruct (buscar_servicio _ _) as [servicio|]; [|done].
  destruct (buscar_curso_autorizador _ _ _ _) as [curso|]; [|done].
  cbn zeta.
  assert (Hdrop : forall c,
    descartar (nuevo_id w)
      (con_conexiones (<[nuevo_id w := c]> (conexiones self)) self)
    = descartar (nuevo_id w) self).
  { intros c. unfold descartar, con_conexiones. simpl.
    by rewrite delete_insert_eq. }
  destruct (punto_valido (get_attachment_point (resp_alumno w) _));
    cbn [negb fst snd]; [|apply Hdrop].
  destruct (punto_valido (get_attachment_point (resp_servidor w) _));
    cbn [negb fst snd]; [|apply Hdrop].
  destruct (get_route _ _ _ _ _) as [|h ruta'] eqn:Hruta;
    cbn [fst snd]; [apply Hdrop|].
  destruct (build_route _ _ _ _) as [[|] self3] eqn:Hb; cbn [fst snd].
  - apply build_route_true in Hb as (flujos & Hi & ->).
    exists (con_ruta (h :: ruta')
              (mkConexion (nuevo_id w) alumno servidor servicio [])), flujos.
    split; [reflexivity|]. split; [done|].
    split; [exact Hi|]. simpl. unfold con_flujos, con_conexiones. simpl.
    by rewrite insert_insert_eq.
  - apply build_route_false in Hb as ->.
    unfold descartar, con_conexiones. simpl.
    by rewrite insert_insert_eq, delete_insert_eq.
Qed.

(** ** Failed installation *)

(** With a protocol that is a string no iteration of the loop raises. *)
Lemma instalar_saltos_con_protocolo (r : response (list device))
    (conexion : Conexion) (ruta : list hop) (proto : string) :
  Py.upper_method (servicio_protocolo (conexion_servicio conexion))
  = Some proto ->
  forall pendientes previos acc,
    ruta = previos ++ pendientes ->
    is_Some (instalar_saltos r conexion ruta (length previos) pendientes acc).
Proof.
  intros Hproto. induction pendientes as [|[sw out] pendientes IH];
    intros previos acc Hr; simpl; [by eexists|].
  assert (Hp : is_Some (puerto_de_entrada r conexion ruta (length previos))).
  { destruct previos as [|h previos] using rev_ind; simpl; [by eexists|].
    rewrite length_app, Nat.add_comm. simpl.
    rewrite Hr, <- app_assoc. simpl.
    rewrite list_lookup_middle by done. by eexists. }
  destruct Hp as [inp ->]. simpl.
  unfold flujos_del_salto. rewrite Hproto. simpl.
  replace (S (length previos)) with (length (previos ++ [(sw, out)]))
    by (rewrite length_app; simpl; lia).
  apply IH. by rewrite <- app_assoc.
Qed.

(** [build_route] fails on a non-empty route exactly when the protocol of
    the service is not a string, and then it fails in the first
    iteration, before any element is appended. *)
Lemma build_route_falla (r : response (list device)) (ruta : list hop)
    (conexion : Conexion) (self : SDNController) :
  ruta <> [] ->
  fst (build_route r ruta conexion self) = false <->
  Py.upper_method (servicio_protocolo (conexion_servicio conexion)) = None.
Proof.
  intros Hne. unfold build_route.
  destruct ruta as [|[sw out] ruta']; [done|]. split.
  - destruct (Py.upper_method _) as [proto|] eqn:Hproto; [|done].
    destruct (instalar_saltos_con_protocolo r conexion ((sw, out) :: ruta')
                proto Hproto ((sw, out) :: ruta') [] [] eq_refl) as [f Hf].
    cbn [length] in Hf. by rewrite Hf.
  - intros Hproto. cbn [instalar_saltos puerto_de_entrada].
    unfold flujos_del_salto. by rewrite Hproto.
Qed.

(** The failed-installation exit is taken only with a service whose
    protocol is not a string. *)
Lemma crear_conexion_salida_sin_flujos (w : entorno)
    (codigo_alumno nombre_servidor nombre_servicio : string)
    (self self' : SDNController) :
  crear_conexion_salida w codigo_alumno nombre_servidor nombre_servicio self
  = (SinFlujos, self') ->
  exists servidor servicio,
    Dict.get nombre_servidor (servidores self) = Some servidor
    /\ buscar_servicio nombre_servicio (servidor_servicios servidor)
       = Some servicio
    /\ Py.upper_method (servicio_protocolo servicio) = None.
Proof.
  unfold crear_conexion_salida.
  destruct (Dict.get codigo_alumno (alumnos self)) as [alumno|]; [|done].
  destruct (Dict.get nombre_servidor (servidores self)) as [servidor|];
    [|done].
  destruct (buscar_servicio _ _) as [servicio|] eqn:Hsvc; [|done].
  destruct (buscar_curso_autorizador _ _ _ _) as [curso|]; [|done].
  cbn zeta.
  destruct (punto_valido (get_attachment_point (resp_alumno w) _));
    cbn [negb]; [|done].
  destruct (punto_valido (get_attachment_point (resp_servidor w) _));
    cbn [negb]; [|done].
  destruct (get_route _ _ _ _ _) as [|h ruta'] eqn:Hruta; [done|].
  destruct (build_route _ _ _ _) as [[|] self3] eqn:Hb; [done|].
  intros _. exists servidor, servicio. split; [done|].
  split; [exact Hsvc|].
  assert (Hne : h :: ruta' <> []) by done.
  match type of Hb with
  | build_route ?r ?ruta ?c ?s = _ =>
      pose proof (proj1 (build_route_falla r ruta c s Hne)) as Hf
  end.
  rewrite Hb in Hf. exact (Hf eq_refl).
Qed.

(** C1, as the code has it.  When [crear_conexion] leaves through the
    failed-installation exit ([build_route] returned [False] on a
    non-empty route), it returns [False], the connection id is not
    registered, and the flow table is the one from before the call: no
    flow list is recorded under the id provided none was recorded under
    it before.  Nothing is removed, because nothing was recorded: the
    install fails only with a service whose protocol is not a string, and
    with such a service the body of an iteration, the first one included,
    raises before it appends anything. *)
Theorem crear_conexion_instalacion_fallida (w : entorno)
    (codigo_alumno nombre_servidor nombre_servicio : string)
    (self self' : SDNController) :
  crear_conexion_salida w codigo_alumno nombre_servidor nombre_servicio self
  = (SinFlujos, self') ->
  crear_conexion w codigo_alumno nombre_servidor nombre_servicio self
  = (false, self')
  /\ conexiones self' !! nuevo_id w = None
  /\ conexion_flujos self' = conexion_flujos self
  /\ (conexion_flujos self !! nuevo_id w = None ->
      conexion_flujos self' !! nuevo_id w = None)
  /\ exists servidor servicio,
       Dict.get nombre_servidor (servidores self) = Some servidor
       /\ buscar_servicio nombre_servicio (servidor_servicios servidor)
          = Some servicio
       /\ Py.upper_method (servicio_protocolo servicio) = None
       /\ forall conexion switch_dpid in_port out_port,
            conexion_servicio conexion = servicio ->
            flujos_del_salto conexion switch_dpid in_port out_port = None.
Proof.
  intros Hs.
  pose proof (crear_conexion_salida_estado w codigo_alumno nombre_servidor
                nombre_servicio self) as H.
  destruct (crear_conexion_salida_sin_flujos _ _ _ _ _ _ Hs)
    as (servidor & servicio & Hsrv & Hsvc & Hproto).
  unfold crear_conexion. rewrite Hs in *. simpl in H. subst self'.
  split; [done|]. split; [apply descartar_lookup|].
  split; [apply descartar_flujos|].
  split; [by rewrite descartar_flujos|].
  exists servidor, servicio. split; [exact Hsrv|]. split; [exact Hsvc|].
  split; [exact Hproto|].
  intros conexion switch_dpid in_port out_port Hc.
  unfold flujos_del_salto. by rewrite Hc, Hproto.
Qed.

Lemma crear_conexion_instalacion_fallida_witness :
  crear_conexion_salida Ejemplo.sin_controlador "U1" "S1" "dns"
                        Ejemplo.catalogo
  = (SinFlujos, descartar "1a2b3c4d" Ejemplo.catalogo)
  /\ conexiones (descartar "1a2b3c4d" Ejemplo.catalogo)
       !! nuevo_id Ejemplo.sin_controlador = None
  /\ conexion_flujos (descartar "1a2b3c4d" Ejemplo.catalogo)
       !! nuevo_id Ejemplo.sin_controlador = None.
Proof.
  assert (H1 : conexion_flujos Ejemplo.catalogo
                 !! nuevo_id Ejemplo.sin_controlador = None)
    by (vm_compute; reflexivity).
  assert (H2 : crear_conexion_salida Ejemplo.sin_controlador "U1" "S1" "dns"
                                     Ejemplo.catalogo
               = (SinFlujos, descartar "1a2b3c4d" Ejemplo.catalogo))
    by (vm_compute; reflexivity).
  split; [exact H2|].
  destruct (crear_conexion_instalacion_fallida Ejemplo.sin_controlador
              "U1" "S1" "dns" Ejemplo.catalogo _ H2)
    as (_ & Hreg & _ & Hflujos & _).
  split; [exact Hreg | exact (Hflujos H1)].
Defined.

(** C1 as stated fails when the eight characters drawn for the connection
    are the id of a registered one.  With HTTP open under "1a2b3c4d", the
    student asks for DNS, whose protocol the catalog gives as the number
    6, and the new connection draws "1a2b3c4d" again: the install fails,
    the registry entry under the id is deleted, and the four elements
    recorded for the open connection are still tracked under the id. *)
Lemma instalacion_fallida_con_id_repetido :
  let self := Ejemplo.conectado in
  let r := crear_conexion Ejemplo.sin_controlador "U1" "S1" "dns" self in
  is_Some (conexiones self !! "1a2b3c4d")
  /\ fst (crear_conexion_salida Ejemplo.sin_controlador "U1" "S1" "dns" self)
     = SinFlujos
  /\ fst r = false
  /\ conexiones (snd r) !! "1a2b3c4d" = None
  /\ conexion_flujos (snd r) !! "1a2b3c4d"
     = conexion_flujos self !! "1a2b3c4d"
  /\ exists flujos,
       conexion_flujos (snd r) !! "1a2b3c4d" = Some flujos
       /\ length flujos = 4%nat
       /\ flujos !! 0%nat
          = Some (FlowName
               "flow_alumno_to_servidor_1a2b3c4d_00:00:5e:c7:6e:c6:11:4c_3_3").
Proof.
  cbv zeta. split; [by vm_compute; eexists|].
  split; [vm_compute; reflexivity|].
  split; [vm_compute; reflexivity|].
  split; [vm_compute; reflexivity|].
  split; [vm_compute; reflexivity|].
  eexists. split; [vm_compute; reflexivity|]. by split.
Qed.

(** ** The two connection tables move together *)

Lemma en_paralelo_init : en_paralelo init.
Proof. unfold en_paralelo. simpl. by rewrite !dom_empty_L. Qed.

(** From a state with the tables in lockstep, [crear_conexion] leaves
    them in lockstep except in one case: the connection drew the id of a
    registered one, and the call failed after registering it. *)
Lemma crear_conexion_en_paralelo_sii (w : entorno)
    (codigo_alumno nombre_servidor nombre_servicio : string)
    (self : SDNController) :
  en_paralelo self ->
  en_paralelo (snd (crear_conexion w codigo_alumno nombre_servidor
                                   nombre_servicio self))
  <-> ~ (is_Some (conexiones self !! nuevo_id w)
         /\ registro_deshecho
              (fst (crear_conexion_salida w codigo_alumno nombre_servidor
                                          nombre_servicio self)) = true).
Proof.
  intros Hinv. unfold crear_conexion. cbn [snd].
  pose proof (crear_conexion_salida_estado w codigo_alumno nombre_servidor
                nombre_servicio self) as H. cbn zeta in H.
  assert (Hd : en_paralelo (descartar (nuevo_id w) self)
               <-> ~ is_Some (conexiones self !! nuevo_id w)).
  { unfold en_paralelo in *. unfold descartar. simpl.
    rewrite dom_delete_L, <- Hinv, <- elem_of_dom. split.
    - intros He Hin. rewrite <- He in Hin.
      apply elem_of_difference in Hin as [_ Hn]. apply Hn.
      by apply elem_of_singleton.
    - intros Hn. by apply difference_disjoint_L, disjoint_singleton_r. }
  destruct (fst (crear_conexion_salida _ _ _ _ _)); cbn [registro_deshecho];
    try (rewrite H; split; [by intros _ [_ ?] | by intros _]);
    try (rewrite H, Hd; split; [by intros Hn [? _] | by intros Hn ?; apply Hn]).
  destruct H as (conexion & flujos & _ & _ & _ & ->). split.
  - by intros _ [_ ?].
  - intros _. unfold en_paralelo in *. simpl. rewrite !dom_insert_L.
    by rewrite Hinv.
Qed.

Lemma borrar_conexion_en_paralelo (id_conexion : string)
    (self : SDNController) :
  en_paralelo self -> en_paralelo (snd (borrar_conexion id_conexion self)).
Proof.
  intros Hinv. unfold borrar_conexion.
  destruct (conexiones self !! id_conexion) as [c|] eqn:Hc; [|done].
  unfold en_paralelo in *. cbn [snd].
  destruct (conexion_flujos self !! id_conexion) as [f|] eqn:Hf.
  - unfold eliminar_flujos. rewrite Hf. simpl.
    rewrite !dom_delete_L. by rewrite Hinv.
  - simpl. rewrite <- (delete_id (conexion_flujos self) id_conexion Hf).
    rewrite !dom_delete_L. by rewrite Hinv.
Qed.

Lemma ejecutar_en_paralelo_sii (op : operacion) (self : SDNController) :
  en_paralelo self ->
  en_paralelo (snd (ejecutar op self)) <-> ~ choque_fallido op self.
Proof.
  intros Hinv.
  destruct op as [w a s v|id|datos|n c m|cc ca acc]; simpl.
  - by apply crear_conexion_en_paralelo_sii.
  - split; [by intros _ [] | intros _; by apply borrar_conexion_en_paralelo].
  - split; [by intros _ [] | intros _; by destruct datos].
  - split; [by intros _ []|]. intros _.
    unfold crear_alumno. by destruct (Dict.has c (alumnos self)).
  - split; [by intros _ []|]. intros _. unfold actualizar_curso.
    destruct (Dict.get cc (cursos self)); [|done].
    destruct (Dict.get ca (alumnos self)); [|done].
    by repeat (destruct (String.eqb _ _)).
Qed.

Lemma correr_en_paralelo (ops : list operacion) :
  forall self, en_paralelo self -> sin_choque_fallido ops self ->
               en_paralelo (correr ops self).
Proof.
  induction ops as [|op ops IH]; intros self Hinv Hrun; [exact Hinv|].
  destruct Hrun as [Hop Hrun]. unfold correr. cbn [fold_left].
  apply IH; [|exact Hrun]. by apply ejecutar_en_paralelo_sii.
Qed.

Lemma id_nuevo_sin_choque (op : operacion) (self : SDNController) :
  id_nuevo op self -> ~ choque_fallido op self.
Proof.
  destruct op; simpl; try (by intros _ []).
  intros Hn [[c Hc] _]. congruence.
Qed.

(** C3, as the code has it.  From a state in which the Connection
    Registry and the Installed Flow Set have the same keys, every
    top-level operation leads to such a state again, with one exception
    and no other: a [crear_conexion] whose connection draws the id of a
    registered one and which fails after registering its own.  Hence the
    two tables have the same keys (an id is registered exactly when a
    flow list is recorded under it) after every run from the empty
    controller that has no such call, and in particular in every state of
    a session whose new connections all draw unregistered ids. *)
Theorem tablas_en_paralelo :
  (forall op self,
      en_paralelo self ->
      en_paralelo (snd (ejecutar op self)) <-> ~ choque_fallido op self)
  /\ (forall ops,
        sin_choque_fallido ops init ->
        dom (conexiones (correr ops init))
        = dom (conexion_flujos (correr ops init))
        /\ forall id, is_Some (conexiones (correr ops init) !! id)
                      <-> is_Some (conexion_flujos (correr ops init) !! id))
  /\ (forall self, alcanzable self -> en_paralelo self).
Proof.
  split; [exact ejecutar_en_paralelo_sii|]. split.
  - intros ops Hrun.
    pose proof (correr_en_paralelo ops init en_paralelo_init Hrun) as Hinv.
    split; [exact Hinv|].
    intros id. rewrite <- !elem_of_dom. unfold en_paralelo in Hinv.
    by rewrite Hinv.
  - intros self Hreach. induction Hreach as [|self op _ IH Hid].
    + apply en_paralelo_init.
    + apply ejecutar_en_paralelo_sii; [exact IH|].
      by apply id_nuevo_sin_choque.
Qed.

Lemma tablas_en_paralelo_witness :
  sin_choque_fallido Ejemplo.sesion_con_id_repetido init
  /\ is_Some (conexiones (correr Ejemplo.sesion init) !! "1a2b3c4d")
  /\ dom (conexiones (correr Ejemplo.sesion_con_id_repetido init))
     = dom (conexion_flujos (correr Ejemplo.sesion_con_id_repetido init)).
Proof.
  assert (H : sin_choque_fallido Ejemplo.sesion_con_id_repetido init).
  { cbn [Ejemplo.sesion_con_id_repetido Ejemplo.sesion app sin_choque_fallido
         choque_fallido].
    split; [tauto|]. split.
    { intros [_ Hs]. vm_compute in Hs. discriminate Hs. }
    split; [|exact I].
    intros [_ Hs]. vm_compute in Hs. discriminate Hs. }
  split; [exact H|]. split; [vm_compute; by eexists|].
  apply (proj1 (proj2 tablas_en_paralelo) Ejemplo.sesion_con_id_repetido H).
Defined.

(** C3 as stated fails.  After the session, HTTP is open under
    "1a2b3c4d" and the tables are in lockstep.  The student asks again;
    this time the controller reports the student's host on port 0, and the
    new connection draws "1a2b3c4d": it overwrites the registry entry,
    the attachment-point guard rejects port 0, and
    [del self.conexiones[conexion.id]] leaves the id out of the registry
    while its flow list stays recorded. *)
Lemma tablas_desparejadas_por_id_repetido :
  let self := correr Ejemplo.sesion init in
  let r := crear_conexion Ejemplo.con_puerto_0 "U1" "S1" "http" self in
  dom (conexiones self) = dom (conexion_flujos self)
  /\ is_Some (conexiones self !! "1a2b3c4d")
  /\ fst (crear_conexion_salida Ejemplo.con_puerto_0 "U1" "S1" "http" self)
     = SinPuntoAlumno
  /\ fst r = false
  /\ conexiones (snd r) !! "1a2b3c4d" = None
  /\ is_Some (conexion_flujos (snd r) !! "1a2b3c4d")
  /\ dom (conexiones (snd r)) <> dom (conexion_flujos (snd r)).
Proof.
  cbv zeta.
  assert (Hreg : conexiones
                   (snd (crear_conexion Ejemplo.con_puerto_0 "U1" "S1" "http"
                                        (correr Ejemplo.sesion init)))
                   !! "1a2b3c4d" = None) by (vm_compute; reflexivity).
  assert (Hflu : is_Some
                   (conexion_flujos
                      (snd (crear_conexion Ejemplo.con_puerto_0 "U1" "S1"
                                           "http"
                                           (correr Ejemplo.sesion init)))
                      !! "1a2b3c4d")) by (vm_compute; by eexists).
  split.
  { apply (correr_en_paralelo Ejemplo.sesion init en_paralelo_init).
    cbn [Ejemplo.sesion sin_choque_fallido choque_fallido].
    split; [tauto|]. split; [|exact I].
    intros [[c Hc] _]. vm_compute in Hc. discriminate Hc. }
  split; [vm_compute; by eexists|].
  split; [vm_compute; reflexivity|].
  split; [vm_compute; reflexivity|].
  split; [exact Hreg|]. split; [exact Hflu|].
  intros Heq. apply elem_of_dom in Hflu. rewrite <- Heq in Hflu.
  apply elem_of_dom in Hflu as [c Hc]. congruence.
Qed.

(** ** Authorization *)

Lemma buscar_servicio_nombre (nombre_servicio : string)
    (servicios : list Servicio) (servicio : Servicio) :
  buscar_servicio nombre_servicio servicios = Some servicio ->
  servicio ∈ servicios
  /\ Py.lower (servicio_nombre servicio) = Py.lower nombre_servicio.
Proof.
  induction servicios as [|svc servicios IH]; simpl; [done|].
  destruct (String.eqb_spec (Py.lower (servicio_nombre svc))
                            (Py.lower nombre_servicio)) as [He|_].
  - intros [= <-]. split; [constructor | exact He].
  - intros H. apply IH in H as [Hin Hl]. split; [by constructor | exact Hl].
Qed.

Lemma permiso_cubre_spec (servidor : Servidor) (servicio : Servicio)
    (par : Servidor * list string) :
  permiso_cubre servidor servicio par = true <->
  servidor_nombre (fst par) = servidor_nombre servidor
  /\ exists p, p ∈ snd par
               /\ Py.lower p = Py.lower (servicio_nombre servicio).
Proof.
  unfold permiso_cubre. rewrite andb_true_iff, String.eqb_eq, mem_elem_of,
    list_elem_of_fmap.
  split; intros [Hn (p & H1 & H2)]; (split; [exact Hn|]); by exists p.
Qed.

(** The test the loop applies to a course is the policy's notion of
    covering, for the service found on the server. *)
Lemma curso_autoriza_cubre (codigo_alumno : string) (servidor : Servidor)
    (servicio : Servicio) (nombre_servicio : string) (curso : Curso) :
  Py.lower (servicio_nombre servicio) = Py.lower nombre_servicio ->
  curso_autoriza codigo_alumno servidor servicio curso = true <->
  curso_cubre codigo_alumno servidor nombre_servicio curso.
Proof.
  intros Hl. unfold curso_autoriza, curso_cubre.
  rewrite !andb_true_iff, String.eqb_eq, mem_elem_of, existsb_exists.
  split.
  - intros [[He Hm] ([srv permitidos] & Hin & Hp)].
    apply permiso_cubre_spec in Hp as [Hn (p & Hp1 & Hp2)]. simpl in *.
    split; [exact He|]. split; [exact Hm|].
    exists srv, permitidos. split; [by apply list_elem_of_In|].
    split; [exact Hn|]. exists p. split; [exact Hp1|]. congruence.
  - intros (He & Hm & srv & permitidos & Hin & Hn & p & Hp1 & Hp2).
    split; [by split|]. exists (srv, permitidos).
    split; [by apply list_elem_of_In|].
    apply permiso_cubre_spec. simpl. split; [exact Hn|].
    exists p. split; [exact Hp1|]. congruence.
Qed.

(** The search returns the first course, in dictionary order, that passes
    the test. *)
Lemma buscar_curso_autorizador_primero (codigo_alumno : string)
    (servidor : Servidor) (servicio : Servicio)
    (cs : list (string * Curso)) (curso : Curso) :
  buscar_curso_autorizador codigo_alumno servidor servicio cs = Some curso <->
  exists antes despues,
    Dict.values cs = antes ++ curso :: despues
    /\ curso_autoriza codigo_alumno servidor servicio curso = true
    /\ Forall (fun c => curso_autoriza codigo_alumno servidor servicio c = false)
              antes.
Proof.
  induction cs as [|[k c] cs IH]; simpl.
  - split; [done|]. intros (antes & despues & H & _). by destruct antes.
  - destruct (curso_autoriza codigo_alumno servidor servicio c) eqn:Hc.
    + split.
      * intros [= <-]. exists [], (Dict.values cs). by repeat split.
      * intros (antes & despues & H & Hok & Hno).
        destruct antes as [|c' antes]; simpl in H.
        -- by injection H as ->.
        -- injection H as <- _. apply Forall_cons in Hno as [Hno _]. congruence.
    + rewrite IH. split.
      * intros (antes & despues & H & Hok & Hno).
        exists (c :: antes), despues. unfold Dict.values in *. simpl.
        rewrite H. split; [done|]. split; [done|]. by constructor.
      * intros (antes & despues & H & Hok & Hno).
        destruct antes as [|c' antes]; simpl in H.
        -- injection H as -> _. congruence.
        -- injection H as <- H. apply Forall_cons in Hno as [_ Hno].
           by exists antes, despues.
Qed.

Lemma buscar_curso_autorizador_ninguno (codigo_alumno : string)
    (servidor : Servidor) (servicio : Servicio) (cs : list (string * Curso)) :
  buscar_curso_autorizador codigo_alumno servidor servicio cs = None <->
  Forall (fun c => curso_autoriza codigo_alumno servidor servicio c = false)
         (Dict.values cs).
Proof.
  induction cs as [|[k c] cs IH]; simpl.
  - split; [constructor | done].
  - unfold Dict.values in *. simpl. rewrite Forall_cons.
    destruct (curso_autoriza codigo_alumno servidor servicio c).
    + split; [done | by intros [? _]].
    + rewrite IH. split; [by split | by intros [_ ?]].
Qed.

(** The part of [crear_conexion] after the authorization never leaves
    through the not-authorized exit. *)
Lemma crear_conexion_salida_autorizado (w : entorno)
    (codigo_alumno nombre_servidor nombre_servicio : string)
    (self : SDNController) (alumno : Alumno) (servidor : Servidor)
    (servicio : Servicio) (curso : Curso) :
  Dict.get codigo_alumno (alumnos self) = Some alumno ->
  Dict.get nombre_servidor (servidores self) = Some servidor ->
  buscar_servicio nombre_servicio (servidor_servicios servidor) = Some servicio ->
  buscar_curso_autorizador codigo_alumno servidor servicio (cursos self)
  = Some curso ->
  fst (crear_conexion_salida w codigo_alumno nombre_servidor nombre_servicio
                             self) <> NoAutorizado.
Proof.
  intros Ha Hs Hv Hc. unfold crear_conexion_salida.
  rewrite Ha, Hs, Hv, Hc. cbn zeta.
  destruct (punto_valido (get_attachment_point (resp_alumno w) _));
    cbn [negb fst]; [|done].
  destruct (punto_valido (get_attachment_point (resp_servidor w) _));
    cbn [negb fst]; [|done].
  destruct (get_route _ _ _ _ _); cbn [fst]; [done|].
  by destruct (build_route _ _ _ _) as [[|] ?].
Qed.

(** C4. For a user, a server and a service of that server that exist:
    the authorization loop reports a course exactly when that course is
    the first one, in course-insertion order, that covers the request; it
    reports some course if and only if a covering course exists; and with
    no covering course [crear_conexion] leaves through the not-authorized
    exit, returns [False] and changes nothing, so no connection is
    created (with one, it never leaves through that exit). *)
Theorem autorizacion_primer_curso_que_cubre
    (codigo_alumno nombre_servidor nombre_servicio : string)
    (self : SDNController) (alumno : Alumno) (servidor : Servidor)
    (servicio : Servicio) :
  Dict.get codigo_alumno (alumnos self) = Some alumno ->
  Dict.get nombre_servidor (servidores self) = Some servidor ->
  buscar_servicio nombre_servicio (servidor_servicios servidor) = Some servicio ->
  let cubre := curso_cubre codigo_alumno servidor nombre_servicio in
  let hallado :=
    buscar_curso_autorizador codigo_alumno servidor servicio (cursos self) in
  (forall curso,
      hallado = Some curso <->
      exists antes despues,
        Dict.values (cursos self) = antes ++ curso :: despues
        /\ cubre curso /\ Forall (fun c => ~ cubre c) antes)
  /\ (is_Some hallado <->
      exists curso, curso ∈ Dict.values (cursos self) /\ cubre curso)
  /\ (forall w,
        (exists curso, curso ∈ Dict.values (cursos self) /\ cubre curso) ->
        fst (crear_conexion_salida w codigo_alumno nombre_servidor
                                   nombre_servicio self) <> NoAutorizado)
  /\ (forall w,
        ~ (exists curso, curso ∈ Dict.values (cursos self) /\ cubre curso) ->
        crear_conexion_salida w codigo_alumno nombre_servidor nombre_servicio
                              self = (NoAutorizado, self)
        /\ crear_conexion w codigo_alumno nombre_servidor nombre_servicio self
           = (false, self)).
Proof.
  intros Ha Hs Hv cubre hallado.
  pose proof (buscar_servicio_nombre _ _ _ Hv) as [_ Hl].
  assert (Hiff : forall c,
    curso_autoriza codigo_alumno servidor servicio c = true <-> cubre c).
  { intros c. by apply curso_autoriza_cubre. }
  assert (Hneg : forall c,
    curso_autoriza codigo_alumno servidor servicio c = false <-> ~ cubre c).
  { intros c. rewrite <- Hiff. by destruct (curso_autoriza _ _ _ c). }
  assert (Hfirst : forall curso,
    hallado = Some curso <->
    exists antes despues,
      Dict.values (cursos self) = antes ++ curso :: despues
      /\ cubre curso /\ Forall (fun c => ~ cubre c) antes).
  { intros curso. unfold hallado. rewrite buscar_curso_autorizador_primero.
    split; intros (antes & despues & H & Hok & Hno);
      exists antes, despues; (split; [exact H|]);
      (split; [by apply Hiff|]);
      (eapply Forall_impl; [exact Hno|]); intros c; apply Hneg. }
  assert (Hsome : is_Some hallado <->
    exists curso, curso ∈ Dict.values (cursos self) /\ cubre curso).
  { split.
    - intros [curso Hc]. apply Hfirst in Hc as (antes & despues & H & Hok & _).
      exists curso. split; [|exact Hok]. rewrite H.
      apply elem_of_app. right. constructor.
    - intros (curso & Hin & Hok).
      destruct hallado as [c|] eqn:Hh; [by eexists|].
      apply buscar_curso_autorizador_ninguno in Hh.
      rewrite Forall_forall in Hh. specialize (Hh curso Hin).
      apply Hneg in Hh. contradiction. }
  split; [exact Hfirst|]. split; [exact Hsome|]. split.
  - intros w Hex. apply Hsome in Hex as [curso Hc].
    by eapply crear_conexion_salida_autorizado.
  - intros w Hno.
    assert (Hh : hallado = None).
    { destruct hallado as [c|] eqn:Hh; [|done].
      exfalso. apply Hno, Hsome. by eexists. }
    unfold crear_conexion, crear_conexion_salida.
    unfold hallado in Hh. by rewrite Ha, Hs, Hv, Hh.
Qed.

Lemma autorizacion_primer_curso_que_cubre_witness :
  Dict.get "U1" (alumnos Ejemplo.catalogo) = Some Ejemplo.u1
  /\ Dict.get "S1" (servidores Ejemplo.catalogo) = Some Ejemplo.s1
  /\ buscar_servicio "http" (servidor_servicios Ejemplo.s1) = Some Ejemplo.http
  /\ (is_Some (buscar_curso_autorizador "U1" Ejemplo.s1 Ejemplo.http
                 (cursos Ejemplo.catalogo)) <->
      exists curso, curso ∈ Dict.values (cursos Ejemplo.catalogo)
                    /\ curso_cubre "U1" Ejemplo.s1 "http" curso).
Proof.
  split; [reflexivity|]. split; [reflexivity|]. split; [reflexivity|].
  pose proof (autorizacion_primer_curso_que_cubre "U1" "S1" "http"
                Ejemplo.catalogo Ejemplo.u1 Ejemplo.s1 Ejemplo.http
                eq_refl eq_refl eq_refl) as (_ & H & _).
  exact H.
Defined.

(** ** Attachment points *)

Lemma buscar_en_mac_map_valido (mac_norm : string)
    (tabla : list (string * (string * Z))) (ap : string * Z) :
  forallb (fun e => punto_valido (snd e)) tabla = true ->
  buscar_en_mac_map mac_norm tabla = Some ap -> punto_valido ap = true.
Proof.
  induction tabla as [|[k a] tabla IH]; simpl; [done|].
  intros [Ha Ht]%andb_true_iff.
  destruct (Py.contains mac_norm (normalizar_mac k)).
  - by intros [= <-].
  - by apply IH.
Qed.

Lemma punto_simulado_valido (mac : string) :
  punto_valido (punto_simulado mac) = true.
Proof.
  unfold punto_simulado.
  destruct (buscar_en_mac_map (normalizar_mac mac) mac_map) as [ap|] eqn:E.
  - eapply buscar_en_mac_map_valido; [|exact E]. reflexivity.
  - reflexivity.
Qed.

Lemma get_attachment_point_origen (r : response (list device)) (mac : string) :
  punto_valido (get_attachment_point r mac) = true
  \/ consultar_controlador r mac = Some (get_attachment_point r mac).
Proof.
  unfold get_attachment_point.
  destruct (consultar_controlador r mac) as [ap|].
  - by right.
  - left. apply punto_simulado_valido.
Qed.

(** An attachment point the controller supplies is the first attachment
    point of a listed device that carries the address. *)
Lemma consultar_controlador_dispositivo (r : response (list device))
    (mac : string) (ap : string * Z) :
  consultar_controlador r mac = Some ap ->
  exists devices dev resto,
    r = Reply 200 (Some devices)
    /\ dev ∈ devices
    /\ normalizar_mac mac ∈ map normalizar_mac (device_mac dev)
    /\ device_attachmentPoint dev = ap :: resto.
Proof.
  destruct r as [|code [devices|]]; simpl; try done.
  - destruct (Z.eqb_spec code 200) as [->|_]; [|done].
    intros H. exists devices.
    induction devices as [|d devices IH]; simpl in H; [done|].
    destruct (Py.mem _ _) eqn:Hm.
    + destruct (device_attachmentPoint d) as [|ap0 resto] eqn:Hap.
      * destruct (IH H) as (dev & resto & _ & Hin & Hmac & Hd).
        exists dev, resto. repeat split; try done. by constructor.
      * injection H as <-. exists d, resto.
        repeat split; try done; [constructor | by apply mem_elem_of].
    + destruct (IH H) as (dev & resto & _ & Hin & Hmac & Hd).
      exists dev, resto. repeat split; try done. by constructor.
  - by destruct (code =? 200).
Qed.

(** C9, as the code has it.  [get_attachment_point] always returns a
    pair.  When the controller supplies no attachment point for the
    address (the call fails or no listed device with that address has
    one), the pair comes from the static table or is the fixed default,
    and its switch id is non-empty and its port non-zero.  An attachment
    point the controller supplies is returned as it is, so
    [crear_conexion] leaves through one of its two attachment-point exits
    only when the controller itself reported, for the student or for the
    server, an attachment point with an empty switch id or port 0. *)
Theorem get_attachment_point_valido_sin_controlador :
  (forall r mac,
      consultar_controlador r mac = None ->
      get_attachment_point r mac = punto_simulado mac
      /\ punto_valido (get_attachment_point r mac) = true)
  /\ (forall r mac ap,
        consultar_controlador r mac = Some ap ->
        get_attachment_point r mac = ap)
  /\ (forall w codigo_alumno nombre_servidor nombre_servicio self,
        fst (crear_conexion_salida w codigo_alumno nombre_servidor
                                   nombre_servicio self) = SinPuntoAlumno ->
        exists alumno ap,
          Dict.get codigo_alumno (alumnos self) = Some alumno
          /\ consultar_controlador (resp_alumno w) (alumno_mac alumno) = Some ap
          /\ punto_valido ap = false)
  /\ (forall w codigo_alumno nombre_servidor nombre_servicio self,
        fst (crear_conexion_salida w codigo_alumno nombre_servidor
                                   nombre_servicio self) = SinPuntoServidor ->
        exists ap,
          consultar_controlador (resp_servidor w) servidor_mac = Some ap
          /\ punto_valido ap = false).
Proof.
  split; [|split; [|split]].
  - intros r mac H. unfold get_attachment_point. rewrite H.
    split; [done | apply punto_simulado_valido].
  - intros r mac ap H. unfold get_attachment_point. by rewrite H.
  - intros w a s v self. unfold crear_conexion_salida.
    destruct (Dict.get a (alumnos self)) as [alumno|]; [|done].
    destruct (Dict.get s (servidores self)) as [servidor|]; [|done].
    destruct (buscar_servicio _ _) as [servicio|]; [|done].
    destruct (buscar_curso_autorizador _ _ _ _) as [curso|]; [|done].
    cbn zeta.
    destruct (punto_valido (get_attachment_point (resp_alumno w) _)) eqn:Hp;
      cbn [negb fst].
    + destruct (punto_valido (get_attachment_point (resp_servidor w) _));
        cbn [negb fst]; [|done].
      destruct (get_route _ _ _ _ _); cbn [fst]; [done|].
      by destruct (build_route _ _ _ _) as [[|] ?].
    + intros _. exists alumno, (get_attachment_point (resp_alumno w)
                                                    (alumno_mac alumno)).
      split; [done|]. split; [|exact Hp].
      destruct (get_attachment_point_origen (resp_alumno w)
                  (alumno_mac alumno)) as [Hv|Hc]; [congruence | exact Hc].
  - intros w a s v self. unfold crear_conexion_salida.
    destruct (Dict.get a (alumnos self)) as [alumno|]; [|done].
    destruct (Dict.get s (servidores self)) as [servidor|]; [|done].
    destruct (buscar_servicio _ _) as [servicio|]; [|done].
    destruct (buscar_curso_autorizador _ _ _ _) as [curso|]; [|done].
    cbn zeta.
    destruct (punto_valido (get_attachment_point (resp_alumno w) _));
      cbn [negb fst]; [|done].
    destruct (punto_valido (get_attachment_point (resp_servidor w) _)) eqn:Hp;
      cbn [negb fst].
    + destruct (get_route _ _ _ _ _); cbn [fst]; [done|].
      by destruct (build_route _ _ _ _) as [[|] ?].
    + intros _. exists (get_attachment_point (resp_servidor w) servidor_mac).
      split; [|exact Hp].
      destruct (get_attachment_point_origen (resp_servidor w) servidor_mac)
        as [Hv|Hc]; [congruence | exact Hc].
Qed.

Lemma get_attachment_point_valido_sin_controlador_witness :
  fst (crear_conexion_salida Ejemplo.con_puerto_0 "U1" "S1" "http"
                             Ejemplo.catalogo) = SinPuntoAlumno
  /\ exists alumno ap,
       Dict.get "U1" (alumnos Ejemplo.catalogo) = Some alumno
       /\ consultar_controlador (resp_alumno Ejemplo.con_puerto_0)
                                (alumno_mac alumno) = Some ap
       /\ punto_valido ap = false.
Proof.
  split; [vm_compute; reflexivity|].
  destruct get_attachment_point_valido_sin_controlador as (_ & _ & H & _).
  apply (H Ejemplo.con_puerto_0 "U1" "S1" "http" Ejemplo.catalogo).
  vm_compute. reflexivity.
Defined.

(** C9 as stated fails: the controller reports the student's host on port
    0 of a switch; [get_attachment_point] returns that pair, whose port is
    falsy, and [crear_conexion] leaves through the attachment-point exit
    of the student, dropping the connection it had registered. *)
Lemma get_attachment_point_puerto_falso :
  get_attachment_point Ejemplo.dispositivos_puerto_0 "aa:bb:cc:dd:ee:01"
  = (Ejemplo.sw1, 0)
  /\ Py.truthy_int
       (snd (get_attachment_point Ejemplo.dispositivos_puerto_0
                                  "aa:bb:cc:dd:ee:01")) = false
  /\ crear_conexion_salida Ejemplo.con_puerto_0 "U1" "S1" "http"
                           Ejemplo.catalogo
     = (SinPuntoAlumno, descartar "1a2b3c4d" Ejemplo.catalogo).
Proof. repeat split; vm_compute; reflexivity. Qed.

(** ** Flow names *)

Lemma append_cons (a : ascii) (s t : string) :
  String a s +:+ t = String a (s +:+ t).
Proof. reflexivity. Qed.

Lemma append_asociativa (s t u : string) : (s +:+ t) +:+ u = s +:+ t +:+ u.
Proof. induction s as [|a s IH]; [done|]. rewrite !append_cons. by rewrite IH. Qed.

Lemma tiene_append (c : ascii) (s t : string) :
  tiene c (s +:+ t) = tiene c s || tiene c t.
Proof.
  induction s as [|a s IH]; [done|].
  rewrite append_cons. simpl. rewrite IH. by rewrite orb_assoc.
Qed.

Lemma append_inj_length (s s' t t' : string) :
  String.length s = String.length s' ->
  s +:+ t = s' +:+ t' -> s = s' /\ t = t'.
Proof.
  revert s'. induction s as [|a s IH]; intros [|a' s']; simpl; try done.
  intros [= Hl]. rewrite !append_cons. intros [= -> H].
  destruct (IH s' Hl H) as [-> ->]. done.
Qed.

Lemma append_separador_inj (c : ascii) (s s' t t' : string) :
  tiene c t = false -> tiene c t' = false ->
  s +:+ String c t = s' +:+ String c t' -> s = s' /\ t = t'.
Proof.
  intros Ht Ht'. revert s'.
  induction s as [|a s IH]; intros [|a' s']; rewrite ?append_cons.
  - cbn. by intros [= ->].
  - cbn. intros [= <- ->]. rewrite tiene_append in Ht. simpl in Ht.
    rewrite Ascii.eqb_refl in Ht. simpl in Ht. by rewrite orb_true_r in Ht.
  - cbn. intros [= -> <-]. rewrite tiene_append in Ht'. simpl in Ht'.
    rewrite Ascii.eqb_refl in Ht'. simpl in Ht'. by rewrite orb_true_r in Ht'.
  - intros [= -> H]. destruct (IH s' H) as [-> ->]. done.
Qed.

Lemma string_of_uint_sin_guion (d : Decimal.uint) :
  tiene "_" (NilEmpty.string_of_uint d) = false.
Proof. induction d; simpl; done. Qed.

Lemma str_int_sin_guion (z : Z) : tiene "_" (Py.str_int z) = false.
Proof.
  unfold Py.str_int.
  assert (H : forall d, tiene "_" (NilZero.string_of_uint d) = false).
  { intros d. destruct d; try apply string_of_uint_sin_guion. reflexivity. }
  destruct (Z.to_int z); simpl; [apply H|]. apply H.
Qed.

Lemma str_int_inj (p q : Z) : Py.str_int p = Py.str_int q -> p = q.
Proof.
  unfold Py.str_int. intros H.
  assert (Hn : forall z, Z.to_int z <> Decimal.Pos Decimal.Nil
                         /\ Z.to_int z <> Decimal.Neg Decimal.Nil).
  { intros [|x|x]; simpl; split; try discriminate;
      intros [= E]; by apply Unsigned.to_uint_nonnil in E. }
  apply (f_equal NilZero.int_of_string) in H.
  rewrite !NilZero.isi in H by apply Hn.
  injection H as H. by apply DecimalZ.to_int_inj.
Qed.

Lemma tres_campos_inj (sw sw' a a' b b' : string) :
  tiene "_" a = false -> tiene "_" a' = false ->
  tiene "_" b = false -> tiene "_" b' = false ->
  sw +:+ "_" +:+ a +:+ "_" +:+ b = sw' +:+ "_" +:+ a' +:+ "_" +:+ b' ->
  sw = sw' /\ a = a' /\ b = b'.
Proof.
  intros Ha Ha' Hb Hb' H.
  assert (E : forall x y z,
    x +:+ "_" +:+ y +:+ "_" +:+ z = (x +:+ String "_" y) +:+ String "_" z).
  { intros x y z. by rewrite append_asociativa. }
  rewrite !E in H.
  apply append_separador_inj in H as [H ->]; [|done..].
  apply append_separador_inj in H as [-> ->]; done.
Qed.

Lemma flow_name_inj (prefijo id id' sw sw' : string) (p q p' q' : Z) :
  String.length id = String.length id' ->
  flow_name prefijo id sw p q = flow_name prefijo id' sw' p' q' ->
  id = id' /\ sw = sw' /\ p = p' /\ q = q'.
Proof.
  intros Hl H. unfold flow_name in H.
  apply (inj (String.app prefijo)) in H.
  apply append_inj_length in H as [-> H]; [|exact Hl].
  apply (inj (String.app "_")) in H.
  apply tres_campos_inj in H as (-> & Hp & Hq);
    try apply str_int_sin_guion.
  apply str_int_inj in Hp as ->. apply str_int_inj in Hq as ->. done.
Qed.

Lemma flow_name_forward_reverse (id id' sw sw' : string) (p q p' q' : Z) :
  flow_name_forward id sw p q <> flow_name_reverse id' sw' p' q'.
Proof.
  unfold flow_name_forward, flow_name_reverse, flow_name.
  cbv [String.append]. discriminate.
Qed.

Lemma instalar_saltos_forma (r : response (list device)) (conexion : Conexion)
    (ruta : list hop) (pendientes : list hop) :
  forall (i : nat) (acc flujos : list flow_entry),
    instalar_saltos r conexion ruta i pendientes acc = Some flujos ->
    exists resto,
      flujos = acc ++ resto
      /\ length resto = (4 * length pendientes)%nat
      /\ forall (k : nat) sw out,
           pendientes !! k = Some (sw, out) ->
           exists inp,
             puerto_de_entrada r conexion ruta (i + k) = Some inp
             /\ resto !! (k * 4)%nat
                = Some (FlowName (flow_name_forward (conexion_id conexion)
                                                    sw inp out))
             /\ resto !! (k * 4 + 1)%nat
                = Some (FlowName (flow_name_reverse (conexion_id conexion)
                                                    sw inp out))
             /\ resto !! (k * 4 + 2)%nat
                = Some (FlowDict (flow_arp_forward conexion sw inp out))
             /\ resto !! (k * 4 + 3)%nat
                = Some (FlowDict (flow_arp_reverse conexion sw inp out)).
Proof.
  induction pendientes as [|[sw0 out0] pendientes IH]; intros i acc flujos.
  - simpl. intros [= <-]. exists []. rewrite app_nil_r.
    split; [done|]. split; [done|]. intros k sw out Hk. done.
  - simpl. destruct (puerto_de_entrada r conexion ruta i) as [inp0|] eqn:Hp;
      simpl; [|done].
    unfold flujos_del_salto.
    destruct (Py.upper_method _) as [proto|]; simpl; [|done].
    intros H. apply IH in H as (resto & -> & Hlen & Hk).
    eexists (_ :: _ :: _ :: _ :: resto). split.
    { rewrite <- app_assoc. reflexivity. }
    split; [simpl; lia|].
    intros [|k] sw out Hlk.
    + injection Hlk as <- <-. exists inp0. rewrite Nat.add_0_r.
      split; [exact Hp|]. by repeat split.
    + simpl in Hlk.
      destruct (Hk k sw out Hlk) as (inp & Hi & H0 & H1 & H2 & H3).
      exists inp. replace (i + S k)%nat with (S i + k)%nat by lia.
      split; [exact Hi|]. split; [exact H0|]. split; [exact H1|].
      split; [exact H2 | exact H3].
Qed.

Lemma crear_conexion_true (w : entorno)
    (codigo_alumno nombre_servidor nombre_servicio : string)
    (self self' : SDNController) :
  crear_conexion w codigo_alumno nombre_servidor nombre_servicio self
  = (true, self') ->
  crear_conexion_salida w codigo_alumno nombre_servidor nombre_servicio self
  = (Configurada, self').
Proof.
  unfold crear_conexion.
  destruct (crear_conexion_salida _ _ _ _ _) as [[] st]; simpl; congruence.
Qed.

(** What a successful [crear_conexion] records.  Over a route of n hops
    the flow list under the connection id has exactly 4n elements.  For
    hop number i, with its ingress port (the student's port for the first
    hop, the previous hop's port otherwise), elements 4i and 4i+1 are the
    names of the forward and reverse data flows, built from the
    connection id, the switch and the two ports; elements 4i+2 and 4i+3
    are not names: they are the two ARP descriptors, whole.  Names of one
    kind are equal only when built from the same id (ids have one length:
    eight characters of a UUID), switch and ports, and a forward name is
    never a reverse name. *)
Lemma flujos_de_conexion_configurada (w : entorno)
    (codigo_alumno nombre_servidor nombre_servicio : string)
    (self self' : SDNController) :
  crear_conexion w codigo_alumno nombre_servidor nombre_servicio self
  = (true, self') ->
  exists conexion flujos,
    conexiones self' !! nuevo_id w = Some conexion
    /\ conexion_flujos self' !! nuevo_id w = Some flujos
    /\ conexion_id conexion = nuevo_id w
    /\ length flujos = (4 * length (conexion_ruta conexion))%nat
    /\ (forall (i : nat) sw out,
          conexion_ruta conexion !! i = Some (sw, out) ->
          exists inp,
            puerto_de_entrada (resp_instalar w) conexion
                              (conexion_ruta conexion) i = Some inp
            /\ flujos !! (4 * i)%nat
               = Some (FlowName (flow_name_forward (nuevo_id w) sw inp out))
            /\ flujos !! (4 * i + 1)%nat
               = Some (FlowName (flow_name_reverse (nuevo_id w) sw inp out))
            /\ flujos !! (4 * i + 2)%nat
               = Some (FlowDict (flow_arp_forward conexion sw inp out))
            /\ flujos !! (4 * i + 3)%nat
               = Some (FlowDict (flow_arp_reverse conexion sw inp out)))
    /\ (forall id' sw sw' p q p' q',
          String.length id' = String.length (nuevo_id w) ->
          (flow_name_forward (nuevo_id w) sw p q
           = flow_name_forward id' sw' p' q' <->
           nuevo_id w = id' /\ sw = sw' /\ p = p' /\ q = q')
          /\ (flow_name_reverse (nuevo_id w) sw p q
              = flow_name_reverse id' sw' p' q' <->
              nuevo_id w = id' /\ sw = sw' /\ p = p' /\ q = q')
          /\ flow_name_forward (nuevo_id w) sw p q
             <> flow_name_reverse id' sw' p' q').
Proof.
  intros H. apply crear_conexion_true in H.
  pose proof (crear_conexion_salida_estado w codigo_alumno nombre_servidor
                nombre_servicio self) as Hs.
  rewrite H in Hs. simpl in Hs.
  destruct Hs as (conexion & flujos & Hid & Hne & Hi & ->).
  exists conexion, flujos.
  cbn [conexiones conexion_flujos con_flujos con_conexiones].
  split; [apply lookup_insert_eq|]. split; [apply lookup_insert_eq|].
  split; [exact Hid|].
  apply instalar_saltos_forma in Hi as (resto & Hf & Hlen & Hk).
  simpl in Hf. subst resto. split; [exact Hlen|]. split.
  - intros i sw out Hl.
    destruct (Hk i sw out Hl) as (inp & Hp & H0 & H1 & H2 & H3).
    exists inp. rewrite Hid in H0, H1. rewrite (Nat.mul_comm 4 i).
    by repeat split.
  - intros id' sw sw' p q p' q' Hlen'. symmetry in Hlen'. split; [|split].
    + split; [by apply flow_name_inj | by intros (-> & -> & -> & ->)].
    + split; [|by intros (-> & -> & -> & ->)].
      intros Hn. apply flow_name_inj in Hn as (? & ? & ? & ?); done.
    + apply flow_name_forward_reverse.
Qed.

(** C5 fails on the code.  The catalog student opens HTTP on S1 with no
    controller listening.  The install succeeds over the one hop of the
    simulated route and records four elements under the connection id,
    but only the first two are rule identifiers: the third and the fourth
    are the dictionaries [flow_arp_forward] and [flow_arp_reverse], which
    [build_route] appends where it appends [flow_name_forward] and
    [flow_name_reverse] for the data flows and where it has just printed
    [flow_name_arp_forward] and [flow_name_arp_reverse]. *)
Theorem build_route_registra_descriptores :
  let r := crear_conexion Ejemplo.sin_controlador "U1" "S1" "http"
                          Ejemplo.catalogo in
  fst r = true
  /\ conexion_ruta <$> conexiones (snd r) !! "1a2b3c4d"
     = Some [("00:00:5e:c7:6e:c6:11:4c", 3)]
  /\ conexion_flujos (snd r) !! "1a2b3c4d"
     = Some
         [ FlowName
             "flow_alumno_to_servidor_1a2b3c4d_00:00:5e:c7:6e:c6:11:4c_3_3";
           FlowName
             "flow_servidor_to_alumno_1a2b3c4d_00:00:5e:c7:6e:c6:11:4c_3_3";
           FlowDict
             [ ("switch", "00:00:5e:c7:6e:c6:11:4c");
               ("name",
                "flow_arp_alumno_to_servidor_1a2b3c4d_00:00:5e:c7:6e:c6:11:4c_3_3");
               ("cookie", "0"); ("priority", "32768"); ("in_port", "3");
               ("eth_src", "aa:bb:cc:dd:ee:01"); ("eth_type", "0x0806");
               ("active", "true"); ("actions", "output=3") ];
           FlowDict
             [ ("switch", "00:00:5e:c7:6e:c6:11:4c");
               ("name",
                "flow_arp_servidor_to_alumno_1a2b3c4d_00:00:5e:c7:6e:c6:11:4c_3_3");
               ("cookie", "0"); ("priority", "32768"); ("in_port", "3");
               ("eth_type", "0x0806"); ("eth_dst", "aa:bb:cc:dd:ee:01");
               ("active", "true"); ("actions", "output=3") ] ]
  /\ (map es_nombre <$> conexion_flujos (snd r) !! "1a2b3c4d")
     = Some [true; true; false; false].
Proof.
  cbv zeta. split; [vm_compute; reflexivity|].
  split; [vm_compute; reflexivity|].
  split; vm_compute; reflexivity.
Qed.

(** The two ARP elements of a hop are the descriptors themselves:
    [build_route] appends [flow_arp_forward] and [flow_arp_reverse] where
    it has just printed [flow_name_arp_forward] and
    [flow_name_arp_reverse]. *)
Lemma elementos_arp_de_un_salto (conexion : Conexion) (switch_dpid : string)
    (in_port out_port : Z) (flujos : list flow_entry) :
  flujos_del_salto conexion switch_dpid in_port out_port = Some flujos ->
  flujos !! 2%nat
  = Some (FlowDict (flow_arp_forward conexion switch_dpid in_port out_port))
  /\ flujos !! 3%nat
     = Some (FlowDict (flow_arp_reverse conexion switch_dpid in_port out_port)).
Proof.
  unfold flujos_del_salto.
  destruct (Py.upper_method _); simpl; [|done]. by intros [= <-].
Qed.

(** ** Import and export *)

Section DictFacts.
Context {V : Type}.
Implicit Types (d : list (string * V)) (k : string) (v : V).

Lemma dict_get_None k d : Dict.get k d = None <-> k ∉ Dict.keys d.
Proof.
  induction d as [|[k' v'] d IH]; simpl.
  - split; [intros _; apply not_elem_of_nil | done].
  - rewrite not_elem_of_cons.
    destruct (String.eqb_spec k k') as [->|Hne].
    + split; [done | by intros [? _]].
    + rewrite IH. split; [by split | by intros [_ ?]].
Qed.

Lemma dict_get_elem_of k v d : Dict.get k d = Some v -> (k, v) ∈ d.
Proof.
  induction d as [|[k' v'] d IH]; simpl; [done|].
  destruct (String.eqb_spec k k') as [->|Hne].
  - intros [= ->]. constructor.
  - intros H. constructor. by apply IH.
Qed.

Lemma dict_set_nueva k v d :
  k ∉ Dict.keys d -> Dict.set k v d = d ++ [(k, v)].
Proof.
  induction d as [|[k' v'] d IH]; simpl; [done|].
  rewrite not_elem_of_cons. intros [Hne Hd].
  apply String.eqb_neq in Hne. rewrite Hne. by rewrite IH.
Qed.

(** Storing records under distinct new keys lists them in order. *)
Lemma fold_set_claves_nuevas {A} (clave : A -> string) (valor : A -> V)
    (l : list A) d :
  NoDup (map clave l) ->
  (forall x, x ∈ l -> clave x ∉ Dict.keys d) ->
  fold_left (fun d x => Dict.set (clave x) (valor x) d) l d
  = d ++ map (fun x => (clave x, valor x)) l.
Proof.
  revert d. induction l as [|x l IH]; intros d Hnd Hd; simpl.
  - by rewrite app_nil_r.
  - apply NoDup_cons in Hnd as [Hx Hnd].
    rewrite dict_set_nueva by (apply Hd; constructor).
    rewrite IH; [by rewrite <- app_assoc | done |].
    intros y Hy. unfold Dict.keys. rewrite map_app. simpl.
    rewrite elem_of_app, list_elem_of_singleton.
    intros [Hin | Heq].
    + eapply Hd; [|exact Hin]. by constructor.
    + apply Hx. rewrite <- Heq. apply list_elem_of_In, in_map.
      by apply list_elem_of_In.
Qed.
End DictFacts.

Lemma fold_left_igual {A B} (f g : A -> B -> A) (l : list B) (a : A) :
  (forall a b, f a b = g a b) -> fold_left f l a = fold_left g l a.
Proof.
  intros H. revert a. induction l as [|b l IH]; intros a; simpl; [done|].
  by rewrite H, IH.
Qed.



(** *** Servers *)

Lemma fold_agregar_servicio (l : list servicio_data) (servidor : Servidor) :
  fold_left
    (fun servidor svc_data =>
       agregar_servicio
         (mkServicio (sd_nombre svc_data) (sd_protocolo svc_data)
                     (sd_puerto svc_data))
         servidor)
    l servidor
  = mkServidor (servidor_nombre servidor) (servidor_ip servidor)
      (servidor_servicios servidor
       ++ map (fun svc_data =>
                 mkServicio (sd_nombre svc_data) (sd_protocolo svc_data)
                            (sd_puerto svc_data)) l).
Proof.
  revert servidor. induction l as [|x l IH]; intros servidor; simpl.
  - rewrite app_nil_r. by destruct servidor.
  - rewrite IH. simpl. by rewrite <- app_assoc.
Qed.

Lemma importar_servidor_nombre (sd : servidor_data) :
  servidor_nombre (importar_servidor sd) = vd_nombre sd.
Proof.
  unfold importar_servidor. destruct (vd_servicios sd); [|done].
  by rewrite fold_agregar_servicio.
Qed.


Lemma importar_servidores_lista (ss : list servidor_data) :
  NoDup (map vd_nombre ss) ->
  importar_servidores ss []
  = map (fun sd => (vd_nombre sd, importar_servidor sd)) ss.
Proof.
  intros Hnd. unfold importar_servidores.
  rewrite (fold_left_igual _
             (fun d sd => Dict.set (vd_nombre sd) (importar_servidor sd) d)).
  - rewrite (fold_set_claves_nuevas vd_nombre importar_servidor); [done..|].
    intros x _. apply not_elem_of_nil.
  - intros d sd. cbv zeta. by rewrite importar_servidor_nombre.
Qed.

(** *** Courses *)

Lemma fold_agregar_alumno_otros (l : list Py.value) (curso : Curso) :
  let c := fold_left
             (fun curso codigo_alumno =>
                agregar_alumno (Py.strip (Py.str codigo_alumno)) curso)
             l curso in
  curso_codigo c = curso_codigo curso
  /\ curso_nombre c = curso_nombre curso
  /\ curso_estado c = curso_estado curso
  /\ curso_servidores c = curso_servidores curso.
Proof.
  revert curso. induction l as [|v l IH]; intros curso; simpl; [done|].
  destruct (IH (agregar_alumno (Py.strip (Py.str v)) curso))
    as (-> & -> & -> & ->).
  unfold agregar_alumno. by destruct (negb _).
Qed.




Lemma importar_curso_codigo (servs : list (string * Servidor))
    (cdata : curso_data) :
  curso_codigo (importar_curso servs cdata) = cd_codigo cdata.
Proof.
  unfold importar_curso.
  set (c1 := match cd_alumnos cdata with
             | Some (_ :: _ as alumnos_lista) => _
             | _ => _
             end).
  assert (H1 : curso_codigo c1 = cd_codigo cdata).
  { unfold c1. destruct (cd_alumnos cdata) as [[|v l]|]; try done.
    by destruct (fold_agregar_alumno_otros (v :: l)
                   (mkCurso (cd_codigo cdata) (cd_nombre cdata)
                            (cd_estado cdata) [] [])) as (-> & _). }
  clearbody c1. destruct (cd_servidores cdata) as [permisos|]; [|done].
  revert c1 H1. induction permisos as [|pd permisos IH]; intros c1 H1; [done|].
  simpl. apply IH. by destruct (Dict.get _ _).
Qed.

Lemma importar_cursos_lista (servs : list (string * Servidor))
    (cs : list curso_data) :
  NoDup (map cd_codigo cs) ->
  importar_cursos servs cs []
  = map (fun cdata => (cd_codigo cdata, importar_curso servs cdata)) cs.
Proof.
  intros Hnd. unfold importar_cursos.
  rewrite (fold_left_igual _
             (fun d cdata =>
                Dict.set (cd_codigo cdata) (importar_curso servs cdata) d)).
  - rewrite (fold_set_claves_nuevas cd_codigo (importar_curso servs));
      [done..|].
    intros x _. apply not_elem_of_nil.
  - intros d cdata. cbv zeta. by rewrite importar_curso_codigo.
Qed.

Lemma importar_alumnos_lista (als : list alumno_data) :
  NoDup (map ad_codigo als) ->
  importar_alumnos als []
  = map (fun alu_data =>
           (ad_codigo alu_data,
            mkAlumno (ad_nombre alu_data) (ad_codigo alu_data)
                     (ad_mac alu_data))) als.
Proof.
  intros Hnd. unfold importar_alumnos.
  rewrite (fold_set_claves_nuevas ad_codigo
             (fun alu_data => mkAlumno (ad_nombre alu_data)
                                       (ad_codigo alu_data)
                                       (ad_mac alu_data))); [done..|].
  intros x _. apply not_elem_of_nil.
Qed.




(* ===================================================================== *)
(** * Further properties of the catalog, the lifecycle and the documents  *)
(* ===================================================================== *)

(** ** Course membership, continued *)

Lemma list_remove_app_final (x : string) (l : list string) :
  x ∉ l -> list_remove x (l ++ [x]) = l.
Proof.
  induction l as [|y l IH]; simpl.
  - intros _. by rewrite String.eqb_refl.
  - rewrite not_elem_of_cons. intros [Hne Hl].
    apply String.eqb_neq in Hne. rewrite Hne. by rewrite IH.
Qed.

Lemma list_remove_elem_of (x y : string) (l : list string) :
  y <> x -> y ∈ list_remove x l <-> y ∈ l.
Proof.
  intros Hne. induction l as [|z l IH]; simpl; [done|].
  destruct (String.eqb_spec x z) as [<-|Hxz].
  - rewrite elem_of_cons. split; [by right|]. by intros [?|?].
  - by rewrite !elem_of_cons, IH.
Qed.

Lemma list_remove_length (x : string) (l : list string) :
  x ∈ l -> S (length (list_remove x l)) = length l.
Proof.
  induction l as [|z l IH]; simpl.
  - intros H. by apply elem_of_nil in H.
  - destruct (String.eqb_spec x z) as [<-|Hxz]; [done|].
    rewrite elem_of_cons. intros [?|Hin]; [done|]. simpl. by rewrite IH.
Qed.

Lemma list_remove_NoDup (x : string) (l : list string) :
  NoDup l -> NoDup (list_remove x l) /\ x ∉ list_remove x l.
Proof.
  induction l as [|z l IH]; simpl.
  - intros _. split; [constructor | apply not_elem_of_nil].
  - rewrite NoDup_cons. intros [Hz Hnd].
    destruct (String.eqb_spec x z) as [<-|Hxz]; [done|].
    destruct (IH Hnd) as [IH1 IH2]. split.
    + apply NoDup_cons. split; [|done].
      intros Hin. apply Hz. by apply (list_remove_elem_of x z l).
    + rewrite not_elem_of_cons. done.
Qed.

(** X1. For a code that is not a member of the course, [remover_alumno]
    changes nothing, and it undoes [agregar_alumno]: adding the code and
    removing it again gives the course back. *)
Theorem remover_alumno_deshace_agregar_alumno (curso : Curso)
    (codigo_alumno : string) :
  codigo_alumno ∉ curso_alumnos curso ->
  remover_alumno codigo_alumno curso = curso
  /\ remover_alumno codigo_alumno (agregar_alumno codigo_alumno curso) = curso.
Proof.
  intros Hno. pose proof Hno as Hm. apply mem_not_elem_of in Hm. split.
  - unfold remover_alumno. by rewrite Hm.
  - unfold agregar_alumno. rewrite Hm. simpl.
    unfold remover_alumno. simpl.
    assert (Hin : Py.mem codigo_alumno (curso_alumnos curso ++ [codigo_alumno])
                  = true).
    { apply mem_elem_of, elem_of_app. right. constructor. }
    rewrite Hin, list_remove_app_final by done. by destruct curso.
Qed.

Lemma remover_alumno_deshace_agregar_alumno_witness :
  ("U2" ∉ curso_alumnos Ejemplo.c1)
  /\ remover_alumno "U2" (agregar_alumno "U2" Ejemplo.c1) = Ejemplo.c1.
Proof.
  assert (H : "U2" ∉ curso_alumnos Ejemplo.c1).
  { simpl. intros Hin. apply list_elem_of_In in Hin. simpl in Hin.
    destruct Hin as [Hin|[]]. discriminate Hin. }
  split; [exact H|].
  apply (remover_alumno_deshace_agregar_alumno Ejemplo.c1 "U2" H).
Defined.

(** X2. Removing a member takes out exactly one occurrence of the code
    (the first one): the list gets one shorter, the other codes stay, and
    if the list had no repetition the code is no longer a member. *)
Theorem remover_alumno_miembro (curso : Curso) (codigo_alumno : string) :
  codigo_alumno ∈ curso_alumnos curso ->
  let curso' := remover_alumno codigo_alumno curso in
  S (length (curso_alumnos curso')) = length (curso_alumnos curso)
  /\ (forall otro, otro <> codigo_alumno ->
                   otro ∈ curso_alumnos curso' <-> otro ∈ curso_alumnos curso)
  /\ (NoDup (curso_alumnos curso) ->
      (codigo_alumno ∉ curso_alumnos curso') /\ NoDup (curso_alumnos curso'))
  /\ curso_codigo curso' = curso_codigo curso
  /\ curso_estado curso' = curso_estado curso
  /\ curso_servidores curso' = curso_servidores curso.
Proof.
  intros Hin. pose proof Hin as Hm. apply mem_elem_of in Hm.
  cbv zeta. unfold remover_alumno. rewrite Hm. simpl.
  split; [by apply list_remove_length|].
  split; [intros otro Hne; by apply list_remove_elem_of|].
  split; [|done]. intros Hnd.
  destruct (list_remove_NoDup codigo_alumno _ Hnd). done.
Qed.

Lemma remover_alumno_miembro_witness :
  "U1" ∈ curso_alumnos Ejemplo.c1
  /\ S (length (curso_alumnos (remover_alumno "U1" Ejemplo.c1)))
     = length (curso_alumnos Ejemplo.c1).
Proof.
  assert (H : "U1" ∈ curso_alumnos Ejemplo.c1) by (simpl; constructor).
  split; [exact H|].
  apply (remover_alumno_miembro Ejemplo.c1 "U1" H).
Defined.

(** ** Dictionary updates *)

Section DictSet.
Context {V : Type}.
Implicit Types (d : list (string * V)) (k : string) (v : V).

Lemma dict_get_set_eq k v d : Dict.get k (Dict.set k v d) = Some v.
Proof.
  induction d as [|[k' v'] d IH]; simpl.
  - by rewrite String.eqb_refl.
  - destruct (String.eqb_spec k k') as [->|Hne]; simpl.
    + by rewrite String.eqb_refl.
    + apply String.eqb_neq in Hne. by rewrite Hne.
Qed.

Lemma dict_get_set_ne k k' v d :
  k' <> k -> Dict.get k' (Dict.set k v d) = Dict.get k' d.
Proof.
  intros Hne. induction d as [|[k0 v0] d IH]; simpl.
  - apply String.eqb_neq in Hne. by rewrite Hne.
  - destruct (String.eqb_spec k k0) as [->|Hk]; simpl.
    + apply String.eqb_neq in Hne. by rewrite Hne.
    + by rewrite IH.
Qed.

Lemma dict_keys_set_presente k v d :
  k ∈ Dict.keys d -> Dict.keys (Dict.set k v d) = Dict.keys d.
Proof.
  induction d as [|[k0 v0] d IH]; simpl.
  - intros H. by apply elem_of_nil in H.
  - destruct (String.eqb_spec k k0) as [->|Hk]; simpl; [done|].
    rewrite elem_of_cons. intros [?|Hin]; [done|]. by rewrite IH.
Qed.

Lemma dict_keys_set_NoDup k v d :
  NoDup (Dict.keys d) -> NoDup (Dict.keys (Dict.set k v d)).
Proof.
  intros Hnd. destruct (decide (k ∈ Dict.keys d)) as [Hin|Hno].
  - by rewrite dict_keys_set_presente.
  - rewrite dict_set_nueva by done. unfold Dict.keys in *.
    rewrite map_app. simpl. apply NoDup_app. split; [done|].
    split; [|apply NoDup_singleton].
    intros x Hx ->%list_elem_of_singleton. done.
Qed.

Lemma dict_set_elem_of k v k' v' d :
  (k', v') ∈ Dict.set k v d -> (k' = k /\ v' = v) \/ (k', v') ∈ d.
Proof.
  induction d as [|[k0 v0] d IH]; simpl.
  - intros [= -> ->]%list_elem_of_singleton. by left.
  - destruct (String.eqb_spec k k0) as [->|Hk].
    + rewrite !elem_of_cons. intros [[= -> ->]|Hin]; [by left | by right; right].
    + rewrite !elem_of_cons. intros [[= -> ->]|Hin]; [by right; left|].
      destruct (IH Hin) as [?|?]; [by left | by right; right].
Qed.

Lemma dict_get_elem_of_NoDup k v d :
  NoDup (Dict.keys d) -> (k, v) ∈ d -> Dict.get k d = Some v.
Proof.
  induction d as [|[k0 v0] d IH]; simpl.
  - intros _ H. by apply elem_of_nil in H.
  - intros [Hk Hnd]%NoDup_cons. rewrite elem_of_cons. intros [[= -> ->]|Hin].
    + by rewrite String.eqb_refl.
    + destruct (String.eqb_spec k k0) as [->|Hne]; [|by apply IH].
      exfalso. apply Hk. apply list_elem_of_In, in_map_iff.
      exists (k0, v). split; [done | by apply list_elem_of_In].
Qed.
End DictSet.

(** ** Catalog edits *)

(** X3. [crear_alumno] succeeds exactly when the code is not taken; it
    never drops or overwrites a student that was there; after a success
    the code looks up the new student, stored last; servers, courses and
    both connection tables are never touched. *)
Theorem crear_alumno_no_sobrescribe (nombre codigo mac : string)
    (self : SDNController) :
  let r := crear_alumno nombre codigo mac self in
  fst r = negb (Dict.has codigo (alumnos self))
  /\ (forall k a, Dict.get k (alumnos self) = Some a ->
                  Dict.get k (alumnos (snd r)) = Some a)
  /\ (Dict.has codigo (alumnos self) = true -> snd r = self)
  /\ (Dict.has codigo (alumnos self) = false ->
      alumnos (snd r)
      = alumnos self ++ [(codigo, mkAlumno nombre codigo mac)]
      /\ Dict.get codigo (alumnos (snd r)) = Some (mkAlumno nombre codigo mac))
  /\ servidores (snd r) = servidores self
  /\ cursos (snd r) = cursos self
  /\ conexiones (snd r) = conexiones self
  /\ conexion_flujos (snd r) = conexion_flujos self.
Proof.
  cbv zeta. unfold crear_alumno, Dict.has.
  destruct (Dict.get codigo (alumnos self)) as [a0|] eqn:Hg; simpl.
  - repeat split; done.
  - split; [done|]. split.
    + intros k a Hk. rewrite dict_get_set_ne; [done|]. congruence.
    + split; [done|]. split; [|done]. intros _.
      split; [|apply dict_get_set_eq].
      apply dict_set_nueva. by apply dict_get_None.
Qed.

(** X4. [actualizar_curso] returns [True] exactly when the course exists,
    the student exists and the action, whatever its letter case, is
    "agregar" or "eliminar"; otherwise it changes nothing.  In no case
    does it touch students, servers or the two connection tables: a
    connection installed for a student stays when the student leaves the
    course. *)
Theorem actualizar_curso_rechazos (codigo_curso codigo_alumno accion : string)
    (self : SDNController) :
  let r := actualizar_curso codigo_curso codigo_alumno accion self in
  (fst r = true <->
   is_Some (Dict.get codigo_curso (cursos self))
   /\ is_Some (Dict.get codigo_alumno (alumnos self))
   /\ (Py.lower accion = "agregar" \/ Py.lower accion = "eliminar"))
  /\ (fst r = false -> snd r = self)
  /\ alumnos (snd r) = alumnos self
  /\ servidores (snd r) = servidores self
  /\ conexiones (snd r) = conexiones self
  /\ conexion_flujos (snd r) = conexion_flujos self
  /\ Dict.keys (cursos (snd r)) = Dict.keys (cursos self).
Proof.
  cbv zeta. unfold actualizar_curso.
  destruct (Dict.get codigo_curso (cursos self)) as [curso|] eqn:Hc; simpl.
  2:{ split; [|done]. split; [done|]. by intros [[? [=]] _]. }
  assert (Hk : codigo_curso ∈ Dict.keys (cursos self)).
  { destruct (decide (codigo_curso ∈ Dict.keys (cursos self))); [done|].
    apply dict_get_None in n. congruence. }
  destruct (Dict.get codigo_alumno (alumnos self)) as [alumno|]; simpl.
  2:{ split; [|done]. split; [done|]. by intros (_ & [? [=]] & _). }
  destruct (String.eqb_spec (Py.lower accion) "agregar") as [Ha|Ha]; simpl.
  { split; [|by rewrite dict_keys_set_presente]. split; [|done].
    intros _. split; [by eexists|]. split; [by eexists | by left]. }
  destruct (String.eqb_spec (Py.lower accion) "eliminar") as [He|He]; simpl.
  { split; [|by rewrite dict_keys_set_presente]. split; [|done].
    intros _. split; [by eexists|]. split; [by eexists | by right]. }
  split; [|done]. split; [done|]. by intros (_ & _ & [?|?]).
Qed.

Lemma agregar_alumno_miembros (codigo x : string) (curso : Curso) :
  x ∈ curso_alumnos (agregar_alumno codigo curso)
  <-> x = codigo \/ x ∈ curso_alumnos curso.
Proof.
  unfold agregar_alumno.
  destruct (Py.mem codigo (curso_alumnos curso)) eqn:Hm; simpl.
  - apply mem_elem_of in Hm. split; [by right|]. by intros [->|?].
  - rewrite elem_of_app, list_elem_of_singleton. tauto.
Qed.

(** X5. A successful [actualizar_curso] rewrites the course under its key
    and no other: after "agregar" the members are the old ones and the
    student; after "eliminar" the other members stay and, the list having
    no repetition, the student is no longer one; state and grants of the
    course are kept. *)
Theorem actualizar_curso_efecto (codigo_curso codigo_alumno accion : string)
    (self : SDNController) (curso : Curso) :
  Dict.get codigo_curso (cursos self) = Some curso ->
  is_Some (Dict.get codigo_alumno (alumnos self)) ->
  Py.lower accion = "agregar" \/ Py.lower accion = "eliminar" ->
  exists curso',
    Dict.get codigo_curso
             (cursos (snd (actualizar_curso codigo_curso codigo_alumno accion
                                            self))) = Some curso'
    /\ (forall k, k <> codigo_curso ->
          Dict.get k (cursos (snd (actualizar_curso codigo_curso codigo_alumno
                                                    accion self)))
          = Dict.get k (cursos self))
    /\ curso_estado curso' = curso_estado curso
    /\ curso_servidores curso' = curso_servidores curso
    /\ (Py.lower accion = "agregar" ->
        forall x, x ∈ curso_alumnos curso'
                  <-> x = codigo_alumno \/ x ∈ curso_alumnos curso)
    /\ (Py.lower accion = "eliminar" ->
        (forall x, x <> codigo_alumno ->
                   x ∈ curso_alumnos curso' <-> x ∈ curso_alumnos curso)
        /\ (NoDup (curso_alumnos curso) ->
            codigo_alumno ∉ curso_alumnos curso')).
Proof.
  intros Hc [alumno Ha] Hacc. unfold actualizar_curso. rewrite Hc, Ha.
  destruct (String.eqb_spec (Py.lower accion) "agregar") as [Hag|Hag].
  - exists (agregar_alumno codigo_alumno curso). simpl.
    split; [apply dict_get_set_eq|].
    split; [intros k Hk; by apply dict_get_set_ne|].
    split; [unfold agregar_alumno; by destruct (negb _)|].
    split; [unfold agregar_alumno; by destruct (negb _)|].
    split; [intros _ x; apply agregar_alumno_miembros|].
    intros He. congruence.
  - destruct Hacc as [?|Hel]; [done|].
    apply String.eqb_eq in Hel. rewrite Hel.
    exists (remover_alumno codigo_alumno curso). simpl.
    split; [apply dict_get_set_eq|].
    split; [intros k Hk; by apply dict_get_set_ne|].
    split; [unfold remover_alumno; by destruct (Py.mem _ _)|].
    split; [unfold remover_alumno; by destruct (Py.mem _ _)|].
    split; [apply String.eqb_eq in Hel; congruence|]. intros _.
    unfold remover_alumno.
    destruct (Py.mem codigo_alumno (curso_alumnos curso)) eqn:Hm; simpl.
    + split; [intros x Hx; by apply list_remove_elem_of|].
      intros Hnd. by destruct (list_remove_NoDup codigo_alumno _ Hnd).
    + split; [done|]. intros _. by apply mem_not_elem_of.
Qed.

Lemma actualizar_curso_efecto_witness :
  Dict.get "C1" (cursos Ejemplo.catalogo) = Some Ejemplo.c1
  /\ is_Some (Dict.get "U1" (alumnos Ejemplo.catalogo))
  /\ exists curso',
       Dict.get "C1" (cursos (snd (actualizar_curso "C1" "U1" "Eliminar"
                                                    Ejemplo.catalogo)))
       = Some curso'
       /\ curso_estado curso' = curso_estado Ejemplo.c1.
Proof.
  split; [reflexivity|]. split; [by eexists|].
  destruct (actualizar_curso_efecto "C1" "U1" "Eliminar" Ejemplo.catalogo
              Ejemplo.c1 eq_refl (ex_intro _ Ejemplo.u1 eq_refl)
              (or_intror eq_refl))
    as (curso' & H1 & _ & H2 & _).
  exists curso'. split; [exact H1 | exact H2].
Defined.

Lemma crear_conexion_salida_politica (w : entorno)
    (codigo_alumno nombre_servidor nombre_servicio : string)
    (self : SDNController) :
  let r := crear_conexion_salida w codigo_alumno nombre_servidor
                                 nombre_servicio self in
  match Dict.get codigo_alumno (alumnos self) with
  | None => r = (SinAlumno, self)
  | Some alumno =>
      match Dict.get nombre_servidor (servidores self) with
      | None => r = (SinServidor, self)
      | Some servidor =>
          match buscar_servicio nombre_servicio
                                (servidor_servicios servidor) with
          | None => r = (SinServicio, self)
          | Some servicio =>
              match buscar_curso_autorizador codigo_alumno servidor servicio
                                             (cursos self) with
              | None => r = (NoAutorizado, self)
              | Some _ => pasa_politica (fst r) = true
              end
          end
      end
  end.
Proof.
  cbv zeta. unfold crear_conexion_salida.
  destruct (Dict.get codigo_alumno (alumnos self)) as [alumno|]; [|done].
  destruct (Dict.get nombre_servidor (servidores self)) as [servidor|]; [|done].
  destruct (buscar_servicio _ _) as [servicio|]; [|done].
  destruct (buscar_curso_autorizador _ _ _ _) as [curso|]; [|done].
  cbn zeta.
  destruct (punto_valido (get_attachment_point (resp_alumno w) _));
    cbn [negb fst]; [|done].
  destruct (punto_valido (get_attachment_point (resp_servidor w) _));
    cbn [negb fst]; [|done].
  destruct (get_route _ _ _ _ _); cbn [fst]; [done|].
  by destruct (build_route _ _ _ _) as [[|] ?].
Qed.

Lemma buscar_curso_autorizador_existe (codigo_alumno : string)
    (servidor : Servidor) (servicio : Servicio)
    (cs : list (string * Curso)) (k : string) (c : Curso) :
  (k, c) ∈ cs ->
  curso_autoriza codigo_alumno servidor servicio c = true ->
  is_Some (buscar_curso_autorizador codigo_alumno servidor servicio cs).
Proof.
  intros Hin Hc.
  destruct (buscar_curso_autorizador _ _ _ cs) as [c'|] eqn:E; [by eexists|].
  apply buscar_curso_autorizador_ninguno in E. rewrite Forall_forall in E.
  assert (Hv : c ∈ Dict.values cs).
  { apply list_elem_of_In, in_map_iff. exists (k, c).
    split; [done | by apply list_elem_of_In]. }
  specialize (E c Hv). congruence.
Qed.

(** X6. Enrolment opens the policy gate.  If the student, the server and
    the service exist, and a course being taught ("DICTANDO") grants that
    server a service of that name (letter case aside), then after
    [actualizar_curso] enrols the student in that course, [crear_conexion]
    for the student gets past the policy check, whatever the controller
    answers. *)
Theorem matricula_autoriza (w : entorno)
    (codigo_curso codigo_alumno nombre_servidor nombre_servicio : string)
    (self : SDNController) (curso : Curso) (servidor : Servidor)
    (servicio : Servicio) :
  is_Some (Dict.get codigo_alumno (alumnos self)) ->
  Dict.get nombre_servidor (servidores self) = Some servidor ->
  buscar_servicio nombre_servicio (servidor_servicios servidor) = Some servicio ->
  Dict.get codigo_curso (cursos self) = Some curso ->
  curso_estado curso = "DICTANDO" ->
  (exists srv permitidos p,
      (srv, permitidos) ∈ curso_servidores curso
      /\ servidor_nombre srv = servidor_nombre servidor
      /\ p ∈ permitidos /\ Py.lower p = Py.lower nombre_servicio) ->
  let self' := snd (actualizar_curso codigo_curso codigo_alumno "agregar" self) in
  fst (actualizar_curso codigo_curso codigo_alumno "agregar" self) = true
  /\ pasa_politica
       (fst (crear_conexion_salida w codigo_alumno nombre_servidor
                                   nombre_servicio self')) = true.
Proof.
  intros [alumno Ha] Hs Hv Hc Hest (srv & permitidos & p & Hin & Hn & Hp & Hl).
  cbv zeta. unfold actualizar_curso. rewrite Hc, Ha. simpl.
  split; [done|].
  pose proof (crear_conexion_salida_politica w codigo_alumno nombre_servidor
                nombre_servicio
                (con_cursos (Dict.set codigo_curso
                               (agregar_alumno codigo_alumno curso)
                               (cursos self)) self)) as H.
  cbv zeta in H. simpl in H. rewrite Ha, Hs, Hv in H.
  destruct (buscar_servicio_nombre _ _ _ Hv) as [_ Hlow].
  assert (Hcub : curso_autoriza codigo_alumno servidor servicio
                   (agregar_alumno codigo_alumno curso) = true).
  { apply (curso_autoriza_cubre _ _ _ nombre_servicio); [done|].
    split; [unfold agregar_alumno; by destruct (negb _)|].
    split; [apply agregar_alumno_miembros; by left|].
    exists srv, permitidos.
    split; [unfold agregar_alumno; by destruct (negb _)|].
    split; [done|]. by exists p. }
  destruct (buscar_curso_autorizador_existe codigo_alumno servidor servicio
              (Dict.set codigo_curso (agregar_alumno codigo_alumno curso)
                        (cursos self))
              codigo_curso (agregar_alumno codigo_alumno curso))
    as [c' Hc']; [|done|].
  - apply dict_get_elem_of, dict_get_set_eq.
  - by rewrite Hc' in H.
Qed.

Lemma dict_set_elem_of_NoDup {V} (k k' : string) (v v' : V)
    (d : list (string * V)) :
  NoDup (Dict.keys d) ->
  (k', v') ∈ Dict.set k v d ->
  (k' = k /\ v' = v) \/ (k' <> k /\ (k', v') ∈ d).
Proof.
  induction d as [|[k0 v0] d IH]; simpl.
  - intros _ [= -> ->]%list_elem_of_singleton. by left.
  - intros [Hk0 Hnd]%NoDup_cons.
    destruct (String.eqb_spec k k0) as [->|Hk].
    + rewrite !elem_of_cons. intros [[= -> ->]|Hin]; [by left|].
      right. split; [|by right]. intros ->. apply Hk0.
      apply list_elem_of_In, in_map_iff. exists (k0, v').
      split; [done | by apply list_elem_of_In].
    + rewrite !elem_of_cons. intros [[= -> ->]|Hin].
      * right. split; [done | by left].
      * destruct (IH Hnd Hin) as [?|[? ?]]; [by left | right; split; [done | by right]].
Qed.

(** X7. Leaving the only covering course closes the policy gate, and
    nothing is revoked.  If the course dictionary has no repeated key, the
    member list of the course no repetition, and no other course
    authorizes the student for the service, then after [actualizar_curso]
    removes the student from the course, [crear_conexion] for that student
    leaves through the not-authorized exit and changes nothing, while the
    connections installed before are all still registered with their
    flows. *)
Theorem baja_desautoriza (w : entorno)
    (codigo_curso codigo_alumno nombre_servidor nombre_servicio : string)
    (self : SDNController) (curso : Curso) (servidor : Servidor)
    (servicio : Servicio) :
  is_Some (Dict.get codigo_alumno (alumnos self)) ->
  Dict.get nombre_servidor (servidores self) = Some servidor ->
  buscar_servicio nombre_servicio (servidor_servicios servidor) = Some servicio ->
  Dict.get codigo_curso (cursos self) = Some curso ->
  NoDup (Dict.keys (cursos self)) ->
  NoDup (curso_alumnos curso) ->
  (forall k c, (k, c) ∈ cursos self -> k <> codigo_curso ->
               curso_autoriza codigo_alumno servidor servicio c = false) ->
  let self' := snd (actualizar_curso codigo_curso codigo_alumno "eliminar" self) in
  crear_conexion_salida w codigo_alumno nombre_servidor nombre_servicio self'
  = (NoAutorizado, self')
  /\ crear_conexion w codigo_alumno nombre_servidor nombre_servicio self'
     = (false, self')
  /\ conexiones self' = conexiones self
  /\ conexion_flujos self' = conexion_flujos self.
Proof.
  intros [alumno Ha] Hs Hv Hc Hkeys Hnd Hotros. cbv zeta.
  unfold actualizar_curso. rewrite Hc, Ha. simpl.
  set (self' := con_cursos _ self).
  assert (Hsal : crear_conexion_salida w codigo_alumno nombre_servidor
                   nombre_servicio self' = (NoAutorizado, self')).
  { pose proof (crear_conexion_salida_politica w codigo_alumno nombre_servidor
                  nombre_servicio self') as H.
    cbv zeta in H. simpl in H. rewrite Ha, Hs, Hv in H.
    assert (Hnone : buscar_curso_autorizador codigo_alumno servidor servicio
              (Dict.set codigo_curso (remover_alumno codigo_alumno curso)
                        (cursos self)) = None).
    { apply buscar_curso_autorizador_ninguno, Forall_forall.
      intros c Hcin. apply list_elem_of_In, in_map_iff in Hcin
        as ([k c0] & Heq & Hin). simpl in Heq. subst c0.
      apply list_elem_of_In in Hin.
      destruct (dict_set_elem_of_NoDup _ _ _ _ _ Hkeys Hin)
        as [[_ ->]|[Hne Hin']].
      - unfold curso_autoriza.
        assert (Hm : Py.mem codigo_alumno
                       (curso_alumnos (remover_alumno codigo_alumno curso))
                     = false).
        { apply mem_not_elem_of. unfold remover_alumno.
          destruct (Py.mem codigo_alumno (curso_alumnos curso)) eqn:Hm;
            simpl; [|by apply mem_not_elem_of].
          by destruct (list_remove_NoDup codigo_alumno _ Hnd). }
        rewrite Hm. by rewrite andb_false_r.
      - by apply (Hotros k c). }
    by rewrite Hnone in H. }
  split; [exact Hsal|]. split; [|done].
  unfold crear_conexion. by rewrite Hsal.
Qed.

(** ** Connection lifecycle, continued *)

Lemma descartar_id_libre (id : string) (self : SDNController) :
  conexiones self !! id = None -> descartar id self = self.
Proof.
  intros H. unfold descartar, con_conexiones. rewrite delete_id by done.
  by destruct self.
Qed.

(** X8. [crear_conexion] is all or nothing: when it returns [False], the
    controller state is exactly the one from before the call (the id drawn
    for the connection being a new one). *)
Theorem crear_conexion_fallida_sin_cambios (w : entorno)
    (codigo_alumno nombre_servidor nombre_servicio : string)
    (self : SDNController) :
  conexiones self !! nuevo_id w = None ->
  fst (crear_conexion w codigo_alumno nombre_servidor nombre_servicio self)
  = false ->
  snd (crear_conexion w codigo_alumno nombre_servidor nombre_servicio self)
  = self.
Proof.
  intros Hid. unfold crear_conexion. cbn [fst snd].
  pose proof (crear_conexion_salida_estado w codigo_alumno nombre_servidor
                nombre_servicio self) as H. cbv zeta in H.
  destruct (fst (crear_conexion_salida _ _ _ _ _)); simpl; intros Hf;
    try done; rewrite H; by apply descartar_id_libre.
Qed.

(** X9. Whatever its outcome, [crear_conexion] leaves students, servers
    and courses as they are, and neither table changes under an id other
    than the one drawn for the new connection. *)
Theorem crear_conexion_marco (w : entorno)
    (codigo_alumno nombre_servidor nombre_servicio : string)
    (self : SDNController) :
  let self' :=
    snd (crear_conexion w codigo_alumno nombre_servidor nombre_servicio self) in
  alumnos self' = alumnos self
  /\ servidores self' = servidores self
  /\ cursos self' = cursos self
  /\ forall id, id <> nuevo_id w ->
       conexiones self' !! id = conexiones self !! id
       /\ conexion_flujos self' !! id = conexion_flujos self !! id.
Proof.
  cbv zeta. unfold crear_conexion. cbn [snd].
  pose proof (crear_conexion_salida_estado w codigo_alumno nombre_servidor
                nombre_servicio self) as H. cbv zeta in H.
  assert (Hd : forall id, id <> nuevo_id w ->
            conexiones (descartar (nuevo_id w) self) !! id
            = conexiones self !! id).
  { intros id Hne. simpl. by rewrite lookup_delete_ne. }
  destruct (fst (crear_conexion_salida _ _ _ _ _));
    try (rewrite H; repeat split; try done; by apply Hd).
  destruct H as (conexion & flujos & _ & _ & _ & ->). simpl.
  repeat split; try done; by rewrite lookup_insert_ne.
Qed.

(** What a successful [crear_conexion] has checked and registered. *)
Lemma crear_conexion_configurada (w : entorno)
    (codigo_alumno nombre_servidor nombre_servicio : string)
    (self self' : SDNController) :
  crear_conexion w codigo_alumno nombre_servidor nombre_servicio self
  = (true, self') ->
  exists alumno servidor servicio curso flujos,
    Dict.get codigo_alumno (alumnos self) = Some alumno
    /\ Dict.get nombre_servidor (servidores self) = Some servidor
    /\ buscar_servicio nombre_servicio (servidor_servicios servidor)
       = Some servicio
    /\ buscar_curso_autorizador codigo_alumno servidor servicio (cursos self)
       = Some curso
    /\ punto_valido (get_attachment_point (resp_alumno w) (alumno_mac alumno))
       = true
    /\ punto_valido (get_attachment_point (resp_servidor w) servidor_mac)
       = true
    /\ let ap_a := get_attachment_point (resp_alumno w) (alumno_mac alumno) in
       let ap_s := get_attachment_point (resp_servidor w) servidor_mac in
       let ruta := get_route (resp_ruta w) (fst ap_a) (snd ap_a)
                             (fst ap_s) (snd ap_s) in
       let conexion := mkConexion (nuevo_id w) alumno servidor servicio ruta in
       ruta <> []
       /\ instalar_saltos (resp_instalar w) conexion ruta 0 ruta []
          = Some flujos
       /\ self' =
          con_flujos (<[nuevo_id w := flujos]> (conexion_flujos self))
            (con_conexiones (<[nuevo_id w := conexion]> (conexiones self))
                            self).
Proof.
  intros H. apply crear_conexion_true in H. revert H.
  unfold crear_conexion_salida.
  destruct (Dict.get codigo_alumno (alumnos self)) as [alumno|] eqn:Ha;
    [|done].
  destruct (Dict.get nombre_servidor (servidores self)) as [servidor|] eqn:Hs;
    [|done].
  destruct (buscar_servicio _ _) as [servicio|] eqn:Hv; [|done].
  destruct (buscar_curso_autorizador _ _ _ _) as [curso|] eqn:Hc; [|done].
  cbn zeta.
  destruct (punto_valido (get_attachment_point (resp_alumno w) _)) eqn:Hpa;
    cbn [negb]; [|done].
  destruct (punto_valido (get_attachment_point (resp_servidor w) _)) eqn:Hps;
    cbn [negb]; [|done].
  destruct (get_route _ _ _ _ _) as [|h ruta'] eqn:Hruta; [done|].
  destruct (build_route _ _ _ _) as [[|] self3] eqn:Hb; [|done].
  intros [= <-].
  apply build_route_true in Hb as (flujos & Hi & ->).
  exists alumno, servidor, servicio, curso, flujos.
  repeat (split; [done|]). cbv zeta. rewrite Hruta.
  split; [done|]. split; [exact Hi|].
  unfold con_flujos, con_conexiones, con_ruta. simpl.
  by rewrite insert_insert_eq.
Qed.

Lemma instalar_saltos_exito_protocolo (r : response (list device))
    (conexion : Conexion) (ruta : list hop) (flujos : list flow_entry) :
  ruta <> [] ->
  instalar_saltos r conexion ruta 0 ruta [] = Some flujos ->
  exists proto,
    servicio_protocolo (conexion_servicio conexion) = Py.VStr proto.
Proof.
  destruct ruta as [|[sw out] ruta']; [done|]. intros _.
  cbn [instalar_saltos puerto_de_entrada]. unfold flujos_del_salto.
  destruct (servicio_protocolo (conexion_servicio conexion)) as [proto| |];
    simpl; [by exists proto | done | done].
Qed.

(** X10. A connection is registered only after every check has passed:
    when [crear_conexion] returns [True], the student and the server are
    in the catalog, the service is one of that server whose name matches
    up to letter case and whose protocol is a string, a course authorizes
    the request, both attachment points have a non-empty switch id and a
    non-zero port, and the registered connection carries the id drawn for
    it, those catalog objects and the non-empty route [get_route] gave. *)
Theorem crear_conexion_registra (w : entorno)
    (codigo_alumno nombre_servidor nombre_servicio : string)
    (self self' : SDNController) :
  crear_conexion w codigo_alumno nombre_servidor nombre_servicio self
  = (true, self') ->
  exists alumno servidor servicio,
    Dict.get codigo_alumno (alumnos self) = Some alumno
    /\ Dict.get nombre_servidor (servidores self) = Some servidor
    /\ servicio ∈ servidor_servicios servidor
    /\ Py.lower (servicio_nombre servicio) = Py.lower nombre_servicio
    /\ (exists proto, servicio_protocolo servicio = Py.VStr proto)
    /\ is_Some (buscar_curso_autorizador codigo_alumno servidor servicio
                                         (cursos self))
    /\ punto_valido (get_attachment_point (resp_alumno w) (alumno_mac alumno))
       = true
    /\ punto_valido (get_attachment_point (resp_servidor w) servidor_mac)
       = true
    /\ exists ruta,
         ruta <> []
         /\ ruta = get_route (resp_ruta w)
                     (fst (get_attachment_point (resp_alumno w)
                                                (alumno_mac alumno)))
                     (snd (get_attachment_point (resp_alumno w)
                                                (alumno_mac alumno)))
                     (fst (get_attachment_point (resp_servidor w)
                                                servidor_mac))
                     (snd (get_attachment_point (resp_servidor w)
                                                servidor_mac))
         /\ conexiones self' !! nuevo_id w
            = Some (mkConexion (nuevo_id w) alumno servidor servicio ruta).
Proof.
  intros H. apply crear_conexion_configurada in H
    as (alumno & servidor & servicio & curso & flujos & Ha & Hs & Hv & Hc
        & Hpa & Hps & Hne & Hi & ->).
  exists alumno, servidor, servicio.
  destruct (buscar_servicio_nombre _ _ _ Hv) as [Hin Hl].
  repeat (split; [done|]). split.
  { by apply (instalar_saltos_exito_protocolo _ _ _ _ Hne Hi). }
  split; [by eexists|]. split; [done|]. split; [done|].
  eexists. split; [exact Hne|]. split; [reflexivity|].
  simpl. apply lookup_insert_eq.
Qed.

(** X11. Creating a connection and tearing it down again gives the
    controller state back: if nothing was registered or recorded under the
    id drawn for the connection and [crear_conexion] succeeded,
    [borrar_conexion] on that id returns [True] and the state from before
    the creation. *)
Theorem borrar_conexion_deshace_crear_conexion (w : entorno)
    (codigo_alumno nombre_servidor nombre_servicio : string)
    (self self' : SDNController) :
  conexiones self !! nuevo_id w = None ->
  conexion_flujos self !! nuevo_id w = None ->
  crear_conexion w codigo_alumno nombre_servidor nombre_servicio self
  = (true, self') ->
  borrar_conexion (nuevo_id w) self' = (true, self).
Proof.
  intros Hc Hf H. apply crear_conexion_true in H.
  pose proof (crear_conexion_salida_estado w codigo_alumno nombre_servidor
                nombre_servicio self) as Hs.
  rewrite H in Hs. simpl in Hs.
  destruct Hs as (conexion & flujos & _ & _ & _ & ->).
  unfold borrar_conexion. simpl. rewrite lookup_insert_eq.
  unfold eliminar_flujos. simpl. rewrite !lookup_insert_eq. simpl.
  unfold descartar, con_conexiones, con_flujos. simpl.
  rewrite !delete_insert_id by done. by destruct self.
Qed.

(** X12. [borrar_conexion] never touches the catalog, and neither table
    changes under an id other than the one torn down. *)
Theorem borrar_conexion_marco (id_conexion : string) (self : SDNController) :
  let self' := snd (borrar_conexion id_conexion self) in
  alumnos self' = alumnos self
  /\ servidores self' = servidores self
  /\ cursos self' = cursos self
  /\ forall id, id <> id_conexion ->
       conexiones self' !! id = conexiones self !! id
       /\ conexion_flujos self' !! id = conexion_flujos self !! id.
Proof.
  cbv zeta. unfold borrar_conexion.
  destruct (conexiones self !! id_conexion) as [c|]; [|done].
  unfold eliminar_flujos.
  destruct (conexion_flujos self !! id_conexion) as [f|]; simpl.
  - repeat split; try done; by rewrite lookup_delete_ne.
  - repeat split; try done. by rewrite lookup_delete_ne.
Qed.

(** ** Lookups that ignore spelling *)

Lemma buscar_servicio_minusculas (a b : string) (servicios : list Servicio) :
  Py.lower a = Py.lower b ->
  buscar_servicio a servicios = buscar_servicio b servicios.
Proof.
  intros H. induction servicios as [|svc servicios IH]; simpl; [done|].
  by rewrite H, IH.
Qed.

(** X13. The service name is matched without regard to letter case: two
    requests whose service names differ only in case go through
    [crear_conexion] with the same exit and the same resulting state. *)
Theorem crear_conexion_nombre_servicio_sin_caja (w : entorno)
    (codigo_alumno nombre_servidor a b : string) (self : SDNController) :
  Py.lower a = Py.lower b ->
  crear_conexion_salida w codigo_alumno nombre_servidor a self
  = crear_conexion_salida w codigo_alumno nombre_servidor b self
  /\ crear_conexion w codigo_alumno nombre_servidor a self
     = crear_conexion w codigo_alumno nombre_servidor b self.
Proof.
  intros H.
  assert (Hs : crear_conexion_salida w codigo_alumno nombre_servidor a self
               = crear_conexion_salida w codigo_alumno nombre_servidor b self).
  { unfold crear_conexion_salida.
    destruct (Dict.get codigo_alumno (alumnos self)); [|done].
    destruct (Dict.get nombre_servidor (servidores self)); [|done].
    by rewrite (buscar_servicio_minusculas a b _ H). }
  split; [exact Hs|]. unfold crear_conexion. by rewrite Hs.
Qed.

Lemma crear_conexion_nombre_servicio_sin_caja_witness :
  Py.lower "Http" = Py.lower "hTTP"
  /\ crear_conexion Ejemplo.sin_controlador "U1" "S1" "Http" Ejemplo.catalogo
     = crear_conexion Ejemplo.sin_controlador "U1" "S1" "hTTP" Ejemplo.catalogo.
Proof.
  split; [reflexivity|].
  apply (crear_conexion_nombre_servicio_sin_caja Ejemplo.sin_controlador
           "U1" "S1" "Http" "hTTP" Ejemplo.catalogo eq_refl).
Defined.

Lemma buscar_en_dispositivos_normalizada (mac mac' : string)
    (devices : list device) :
  normalizar_mac mac = normalizar_mac mac' ->
  buscar_en_dispositivos mac devices = buscar_en_dispositivos mac' devices.
Proof.
  intros H. induction devices as [|dev devices IH]; simpl; [done|].
  by rewrite H, IH.
Qed.

(** X14. An attachment point is looked up by the normalized address: two
    spellings of a hardware address that differ only in letter case and in
    ':' / '-' separators get the same answer from [get_attachment_point],
    from the controller as well as from the static table. *)
Theorem get_attachment_point_normaliza (r : response (list device))
    (mac mac' : string) :
  normalizar_mac mac = normalizar_mac mac' ->
  get_attachment_point r mac = get_attachment_point r mac'.
Proof.
  intros H. unfold get_attachment_point, consultar_controlador, punto_simulado.
  rewrite H. destruct r as [|code [devices|]]; try done.
  destruct (code =? 200); [|done].
  by rewrite (buscar_en_dispositivos_normalizada mac mac' devices H).
Qed.

Lemma get_attachment_point_normaliza_witness :
  normalizar_mac "FE-16-3E-2C-76-52" = normalizar_mac "fe:16:3e:2c:76:52"
  /\ get_attachment_point Raised "FE-16-3E-2C-76-52"
     = get_attachment_point Raised "fe:16:3e:2c:76:52".
Proof.
  split; [reflexivity|].
  apply (get_attachment_point_normaliza Raised "FE-16-3E-2C-76-52"
           "fe:16:3e:2c:76:52" eq_refl).
Defined.

(** X15. Among the devices the controller lists, the first one that
    carries the address and has an attachment point decides: devices
    before it that do not carry the address, or carry it without any
    attachment point, are passed over, and its first attachment point is
    the answer. *)
Theorem get_attachment_point_primer_dispositivo (mac : string)
    (antes despues : list device) (dev : device) (ap : string * Z)
    (resto : list (string * Z)) :
  Forall (fun d => normalizar_mac mac ∉ map normalizar_mac (device_mac d)
                   \/ device_attachmentPoint d = []) antes ->
  normalizar_mac mac ∈ map normalizar_mac (device_mac dev) ->
  device_attachmentPoint dev = ap :: resto ->
  get_attachment_point (Reply 200 (Some (antes ++ dev :: despues))) mac = ap.
Proof.
  intros Hantes Hmac Hap. unfold get_attachment_point. simpl.
  induction Hantes as [|d antes Hd _ IH]; simpl.
  - apply mem_elem_of in Hmac. by rewrite Hmac, Hap.
  - destruct Hd as [Hno|Hvacio].
    + apply mem_not_elem_of in Hno. by rewrite Hno.
    + rewrite Hvacio. by destruct (Py.mem _ _).
Qed.

(** X16. [build_route] succeeds exactly when the route is not empty and
    the protocol of the service is a string; what the controller answers
    to the attachment-point query of the first hop has no part in it.  On
    failure the state is untouched; on success nothing but the flow list
    of the connection changes. *)
Theorem build_route_exito (r : response (list device)) (ruta : list hop)
    (conexion : Conexion) (self : SDNController) :
  (fst (build_route r ruta conexion self) = true <->
   ruta <> []
   /\ exists proto,
        servicio_protocolo (conexion_servicio conexion) = Py.VStr proto)
  /\ (fst (build_route r ruta conexion self) = false ->
      snd (build_route r ruta conexion self) = self)
  /\ (forall id, id <> conexion_id conexion ->
        conexion_flujos (snd (build_route r ruta conexion self)) !! id
        = conexion_flujos self !! id)
  /\ conexiones (snd (build_route r ruta conexion self)) = conexiones self.
Proof.
  split; [|split; [|split]].
  - destruct ruta as [|h ruta'] eqn:Hr.
    { simpl. split; [done | by intros [? _]]. }
    rewrite <- Hr. assert (Hne : ruta <> []) by (by rewrite Hr).
    pose proof (build_route_falla r ruta conexion self Hne) as Hf.
    destruct (fst (build_route r ruta conexion self)).
    + split; [|done]. intros _. split; [done|].
      destruct (servicio_protocolo (conexion_servicio conexion)) as [p| |];
        [by exists p | |]; simpl in Hf; discriminate (proj2 Hf eq_refl).
    + split; [done|]. intros [_ [p Hp]]. rewrite Hp in Hf. simpl in Hf.
      discriminate (proj1 Hf eq_refl).
  - destruct (build_route r ruta conexion self) as [[|] s] eqn:Hb; [done|].
    intros _. by apply build_route_false in Hb.
  - intros id Hne. destruct (build_route r ruta conexion self) as [[|] s] eqn:Hb.
    + apply build_route_true in Hb as (f & _ & ->). simpl.
      by rewrite lookup_insert_ne.
    + by apply build_route_false in Hb as ->.
  - destruct (build_route r ruta conexion self) as [[|] s] eqn:Hb.
    + by apply build_route_true in Hb as (f & _ & ->).
    + by apply build_route_false in Hb as ->.
Qed.

(** ** The catalog stays coherent *)

Lemma fold_left_invariante {A B} (P : A -> Prop) (f : A -> B -> A)
    (l : list B) (a : A) :
  P a -> (forall a b, P a -> P (f a b)) -> P (fold_left f l a).
Proof.
  intros Ha Hf. revert a Ha. induction l as [|b l IH]; intros a Ha; simpl;
    [done|]. apply IH. by apply Hf.
Qed.

Lemma agregar_alumno_NoDup (codigo : string) (curso : Curso) :
  NoDup (curso_alumnos curso) ->
  NoDup (curso_alumnos (agregar_alumno codigo curso)).
Proof.
  intros Hnd. unfold agregar_alumno.
  destruct (Py.mem codigo (curso_alumnos curso)) eqn:Hm; simpl; [done|].
  apply mem_not_elem_of in Hm. apply NoDup_app. split; [done|].
  split; [|apply NoDup_singleton].
  intros x Hx ->%list_elem_of_singleton. done.
Qed.

Lemma remover_alumno_NoDup (codigo : string) (curso : Curso) :
  NoDup (curso_alumnos curso) ->
  NoDup (curso_alumnos (remover_alumno codigo curso)).
Proof.
  intros Hnd. unfold remover_alumno.
  destruct (Py.mem codigo (curso_alumnos curso)); simpl; [|done].
  by destruct (list_remove_NoDup codigo _ Hnd).
Qed.

Lemma diccionario_coherente_set {V} (nombre : V -> string) (v : V)
    (d : list (string * V)) :
  diccionario_coherente nombre d ->
  diccionario_coherente nombre (Dict.set (nombre v) v d).
Proof.
  intros [Hnd Hk]. split; [by apply dict_keys_set_NoDup|].
  intros k' v' Hin. apply dict_set_elem_of in Hin as [[-> ->]|Hin]; [done|].
  by apply Hk.
Qed.

Lemma diccionario_coherente_get {V} (nombre : V -> string)
    (d : list (string * V)) (k : string) (v : V) :
  diccionario_coherente nombre d -> Dict.get k d = Some v ->
  nombre v = k /\ Dict.get (nombre v) d = Some v.
Proof.
  intros [_ Hk] Hg. pose proof (Hk k v (dict_get_elem_of _ _ _ Hg)) as Hn.
  by rewrite Hn.
Qed.

Lemma importar_servidores_coherente (l : list servidor_data) :
  diccionario_coherente servidor_nombre (importar_servidores l []).
Proof.
  unfold importar_servidores. apply fold_left_invariante.
  - split; [constructor|]. intros k v H. by apply elem_of_nil in H.
  - intros d sd Hd. cbv zeta. by apply diccionario_coherente_set.
Qed.

Lemma importar_alumnos_coherente (l : list alumno_data) :
  diccionario_coherente alumno_codigo (importar_alumnos l []).
Proof.
  unfold importar_alumnos. apply fold_left_invariante.
  - split; [constructor|]. intros k v H. by apply elem_of_nil in H.
  - intros d ad Hd. cbv zeta.
    apply (diccionario_coherente_set alumno_codigo
             (mkAlumno (ad_nombre ad) (ad_codigo ad) (ad_mac ad)) d Hd).
Qed.

(** A course as the importer builds it. *)
Lemma importar_curso_coherente (servs : list (string * Servidor))
    (cdata : curso_data) :
  diccionario_coherente servidor_nombre servs ->
  let c := importar_curso servs cdata in
  NoDup (curso_alumnos c)
  /\ forall srv sp, (srv, sp) ∈ curso_servidores c ->
       Dict.get (servidor_nombre srv) servs = Some srv.
Proof.
  intros Hservs. cbv zeta. unfold importar_curso.
  set (P := fun c : Curso =>
              NoDup (curso_alumnos c)
              /\ forall srv sp, (srv, sp) ∈ curso_servidores c ->
                   Dict.get (servidor_nombre srv) servs = Some srv).
  assert (H0 : P (mkCurso (cd_codigo cdata) (cd_nombre cdata)
                          (cd_estado cdata) [] [])).
  { split; [constructor|]. intros srv sp H. by apply elem_of_nil in H. }
  assert (H1 : P match cd_alumnos cdata with
                 | Some ((_ :: _) as alumnos_lista) =>
                     fold_left
                       (fun curso codigo_alumno =>
                          agregar_alumno (Py.strip (Py.str codigo_alumno)) curso)
                       alumnos_lista
                       (mkCurso (cd_codigo cdata) (cd_nombre cdata)
                                (cd_estado cdata) [] [])
                 | _ => mkCurso (cd_codigo cdata) (cd_nombre cdata)
                                (cd_estado cdata) [] []
                 end).
  { destruct (cd_alumnos cdata) as [[|v l]|]; try done.
    apply fold_left_invariante; [done|].
    intros c v' [Hnd Hg]. split; [by apply agregar_alumno_NoDup|].
    unfold agregar_alumno. by destruct (negb _). }
  destruct (cd_servidores cdata) as [permisos|]; [|done].
  apply fold_left_invariante; [done|].
  intros c pd [Hnd Hg].
  destruct (Dict.get (pd_nombre pd) servs) as [srv0|] eqn:Hget; [|done].
  split; [done|]. simpl. intros srv sp Hin.
  apply elem_of_app in Hin as [Hin|Hin]; [by apply (Hg srv sp)|].
  apply list_elem_of_singleton in Hin. injection Hin as -> ->.
  by destruct (diccionario_coherente_get _ _ _ _ Hservs Hget).
Qed.

Lemma importar_cursos_coherente (servs : list (string * Servidor))
    (l : list curso_data) :
  diccionario_coherente servidor_nombre servs ->
  diccionario_coherente curso_codigo (importar_cursos servs l [])
  /\ forall k c, (k, c) ∈ importar_cursos servs l [] ->
       NoDup (curso_alumnos c)
       /\ forall srv sp, (srv, sp) ∈ curso_servidores c ->
            Dict.get (servidor_nombre srv) servs = Some srv.
Proof.
  intros Hservs. unfold importar_cursos.
  apply (fold_left_invariante
           (fun d => diccionario_coherente curso_codigo d
                     /\ forall k c, (k, c) ∈ d ->
                          NoDup (curso_alumnos c)
                          /\ forall srv sp, (srv, sp) ∈ curso_servidores c ->
                               Dict.get (servidor_nombre srv) servs = Some srv)).
  - split; [split; [constructor|]|]; intros k v H; by apply elem_of_nil in H.
  - intros d cdata [Hd Hc]. cbv zeta.
    split; [by apply diccionario_coherente_set|].
    intros k c Hin. apply dict_set_elem_of in Hin as [[-> ->]|Hin].
    + by apply importar_curso_coherente.
    + by apply (Hc k c).
Qed.

Lemma importar_documento_coherente (datos : documento)
    (self : SDNController) :
  catalogo_coherente (snd (importar_archivo (Some datos) self)).
Proof.
  simpl.
  set (servs := match doc_servidores datos with
                | Some l => importar_servidores l []
                | None => []
                end).
  assert (Hvacio : forall V (nombre : V -> string),
            diccionario_coherente nombre []).
  { intros V nombre. split; [constructor|].
    intros k v H. by apply elem_of_nil in H. }
  assert (Hservs : diccionario_coherente servidor_nombre servs).
  { unfold servs. destruct (doc_servidores datos);
      [apply importar_servidores_coherente | apply Hvacio]. }
  assert (Halus : diccionario_coherente alumno_codigo
            match doc_alumnos datos with
            | Some l => importar_alumnos l []
            | None => []
            end).
  { destruct (doc_alumnos datos);
      [apply importar_alumnos_coherente | apply Hvacio]. }
  assert (Hcurs :
    diccionario_coherente curso_codigo
      match doc_cursos datos with
      | Some l => importar_cursos servs l []
      | None => []
      end
    /\ forall k c,
         (k, c) ∈ match doc_cursos datos with
                  | Some l => importar_cursos servs l []
                  | None => []
                  end ->
         NoDup (curso_alumnos c)
         /\ forall srv sp, (srv, sp) ∈ curso_servidores c ->
              Dict.get (servidor_nombre srv) servs = Some srv).
  { destruct (doc_cursos datos); [by apply importar_cursos_coherente|].
    split; [apply Hvacio|]. intros k c H. by apply elem_of_nil in H. }
  destruct Hservs as [Hs1 Hs2], Halus as [Ha1 Ha2], Hcurs as [[Hc1 Hc2] Hc3].
  unfold catalogo_coherente. simpl.
  repeat (split; [done|]). intros k c Hin.
  split; [by apply Hc2|]. by apply (Hc3 k c).
Qed.

Lemma importar_archivo_coherente (datos : option documento)
    (self : SDNController) :
  catalogo_coherente self ->
  catalogo_coherente (snd (importar_archivo datos self)).
Proof.
  intros Hself. destruct datos as [datos|]; [|done].
  apply importar_documento_coherente.
Qed.

Lemma crear_alumno_coherente (nombre codigo mac : string)
    (self : SDNController) :
  catalogo_coherente self ->
  catalogo_coherente (snd (crear_alumno nombre codigo mac self)).
Proof.
  intros Hself. unfold crear_alumno.
  destruct (Dict.has codigo (alumnos self)); [done|]. simpl.
  destruct Hself as (Ha1 & Hs1 & Hc1 & Ha2 & Hs2 & Hc2).
  destruct (diccionario_coherente_set alumno_codigo
              (mkAlumno nombre codigo mac) (alumnos self)) as [H1 H2];
    [by split|].
  unfold catalogo_coherente. simpl. by repeat (split; [done|]).
Qed.

Lemma actualizar_curso_coherente (codigo_curso codigo_alumno accion : string)
    (self : SDNController) :
  catalogo_coherente self ->
  catalogo_coherente
    (snd (actualizar_curso codigo_curso codigo_alumno accion self)).
Proof.
  intros Hself. unfold actualizar_curso.
  destruct (Dict.get codigo_curso (cursos self)) as [curso|] eqn:Hg; [|done].
  destruct (Dict.get codigo_alumno (alumnos self)); [|done].
  destruct Hself as (Ha1 & Hs1 & Hc1 & Ha2 & Hs2 & Hc2).
  destruct (Hc2 _ _ (dict_get_elem_of _ _ _ Hg)) as (Hcod & Hnd & Hgr).
  assert (Hnuevo : forall c',
    curso_codigo c' = codigo_curso -> NoDup (curso_alumnos c') ->
    curso_servidores c' = curso_servidores curso ->
    catalogo_coherente
      (con_cursos (Dict.set codigo_curso c' (cursos self)) self)).
  { intros c' H1 H2 H3. unfold catalogo_coherente. simpl.
    split; [done|]. split; [done|].
    split; [by apply dict_keys_set_NoDup|].
    split; [done|]. split; [done|].
    intros k c Hin. apply dict_set_elem_of in Hin as [[-> ->]|Hin].
    - split; [done|]. split; [done|]. by rewrite H3.
    - by apply Hc2. }
  destruct (String.eqb (Py.lower accion) "agregar").
  { simpl. apply Hnuevo.
    - unfold agregar_alumno. by destruct (negb _).
    - by apply agregar_alumno_NoDup.
    - unfold agregar_alumno. by destruct (negb _). }
  destruct (String.eqb (Py.lower accion) "eliminar"); [|by simpl].
  simpl. apply Hnuevo.
  - unfold remover_alumno. by destruct (Py.mem _ _).
  - by apply remover_alumno_NoDup.
  - unfold remover_alumno. by destruct (Py.mem _ _).
Qed.

Lemma crear_conexion_catalogo (w : entorno)
    (codigo_alumno nombre_servidor nombre_servicio : string)
    (self : SDNController) :
  let self' :=
    snd (crear_conexion w codigo_alumno nombre_servidor nombre_servicio self) in
  alumnos self' = alumnos self
  /\ servidores self' = servidores self
  /\ cursos self' = cursos self.
Proof.
  cbv zeta. unfold crear_conexion. cbn [snd].
  pose proof (crear_conexion_salida_estado w codigo_alumno nombre_servidor
                nombre_servicio self) as H. cbv zeta in H.
  destruct (fst (crear_conexion_salida _ _ _ _ _)); try (by rewrite H).
  by destruct H as (conexion & flujos & _ & _ & _ & ->).
Qed.

Lemma borrar_conexion_catalogo (id_conexion : string) (self : SDNController) :
  let self' := snd (borrar_conexion id_conexion self) in
  alumnos self' = alumnos self
  /\ servidores self' = servidores self
  /\ cursos self' = cursos self.
Proof.
  cbv zeta. unfold borrar_conexion.
  destruct (conexiones self !! id_conexion) as [c|]; [|done].
  unfold eliminar_flujos.
  by destruct (conexion_flujos self !! id_conexion) as [f|].
Qed.

Lemma catalogo_coherente_ext (self self' : SDNController) :
  alumnos self' = alumnos self ->
  servidores self' = servidores self ->
  cursos self' = cursos self ->
  catalogo_coherente self -> catalogo_coherente self'.
Proof.
  unfold catalogo_coherente. by intros -> -> ->.
Qed.

Lemma alcanzable_catalogo_coherente (self : SDNController) :
  alcanzable self -> catalogo_coherente self.
Proof.
  induction 1 as [|self op _ IH Hid].
  - unfold catalogo_coherente. simpl.
    split; [constructor|]. split; [constructor|]. split; [constructor|].
    split; [intros ? ? Hin; by apply elem_of_nil in Hin|].
    split; intros ? ? Hin; by apply elem_of_nil in Hin.
  - destruct op as [w a s v|id|datos|n c m|cc ca acc]; simpl.
    + destruct (crear_conexion_catalogo w a s v self) as (H1 & H2 & H3).
      by apply (catalogo_coherente_ext self).
    + destruct (borrar_conexion_catalogo id self) as (H1 & H2 & H3).
      by apply (catalogo_coherente_ext self).
    + by apply importar_archivo_coherente.
    + by apply crear_alumno_coherente.
    + by apply actualizar_curso_coherente.
Qed.

Lemma sesion_alcanzable : alcanzable (correr Ejemplo.sesion init).
Proof.
  unfold Ejemplo.sesion, correr. cbn [fold_left].
  apply alcanzable_paso.
  - apply alcanzable_paso; [apply alcanzable_init | exact I].
  - vm_compute. reflexivity.
Qed.

(** X17. In every state a session can reach, each of the three catalog
    dictionaries has pairwise distinct keys, and the object found under a
    key carries that key as its code (students, courses) or name
    (servers). *)
Theorem claves_del_catalogo (self : SDNController) :
  alcanzable self ->
  NoDup (Dict.keys (alumnos self))
  /\ NoDup (Dict.keys (servidores self))
  /\ NoDup (Dict.keys (cursos self))
  /\ (forall k a, Dict.get k (alumnos self) = Some a -> alumno_codigo a = k)
  /\ (forall k s, Dict.get k (servidores self) = Some s ->
                  servidor_nombre s = k)
  /\ (forall k c, Dict.get k (cursos self) = Some c -> curso_codigo c = k).
Proof.
  intros H. apply alcanzable_catalogo_coherente in H
    as (Ha1 & Hs1 & Hc1 & Ha2 & Hs2 & Hc2).
  repeat (split; [done|]).
  split; [intros k a Hg; by apply Ha2, dict_get_elem_of|].
  split; [intros k s Hg; by apply Hs2, dict_get_elem_of|].
  intros k c Hg. by apply Hc2, dict_get_elem_of.
Qed.

Lemma claves_del_catalogo_witness :
  alcanzable (correr Ejemplo.sesion init)
  /\ NoDup (Dict.keys (alumnos (correr Ejemplo.sesion init))).
Proof.
  split; [exact sesion_alcanzable|].
  apply (claves_del_catalogo (correr Ejemplo.sesion init) sesion_alcanzable).
Defined.

(** X18. In every state a session can reach, no course lists a member
    twice. *)
Theorem miembros_sin_repeticion (self : SDNController) :
  alcanzable self ->
  forall k c, (k, c) ∈ cursos self -> NoDup (curso_alumnos c).
Proof.
  intros H k c Hin. apply alcanzable_catalogo_coherente in H
    as (_ & _ & _ & _ & _ & Hc2).
  by destruct (Hc2 k c Hin) as (_ & ? & _).
Qed.

Lemma miembros_sin_repeticion_witness :
  alcanzable (correr Ejemplo.sesion init)
  /\ forall k c, (k, c) ∈ cursos (correr Ejemplo.sesion init) ->
                 NoDup (curso_alumnos c).
Proof.
  split; [exact sesion_alcanzable|].
  apply (miembros_sin_repeticion (correr Ejemplo.sesion init)
           sesion_alcanzable).
Defined.

(** X19. In every state a session can reach, every grant of every course
    holds a server of the catalog: looking up the granted server's name in
    the server dictionary gives that very server. *)
Theorem permisos_apuntan_al_catalogo (self : SDNController) :
  alcanzable self ->
  forall k c srv sp,
    (k, c) ∈ cursos self -> (srv, sp) ∈ curso_servidores c ->
    Dict.get (servidor_nombre srv) (servidores self) = Some srv.
Proof.
  intros H k c srv sp Hin Hg. apply alcanzable_catalogo_coherente in H
    as (_ & _ & _ & _ & _ & Hc2).
  destruct (Hc2 k c Hin) as (_ & _ & Hgr). by apply (Hgr srv sp).
Qed.

Lemma permisos_apuntan_al_catalogo_witness :
  alcanzable (correr Ejemplo.sesion init)
  /\ forall k c srv sp,
       (k, c) ∈ cursos (correr Ejemplo.sesion init) ->
       (srv, sp) ∈ curso_servidores c ->
       Dict.get (servidor_nombre srv)
                (servidores (correr Ejemplo.sesion init)) = Some srv.
Proof.
  split; [exact sesion_alcanzable|].
  apply (permisos_apuntan_al_catalogo (correr Ejemplo.sesion init)
           sesion_alcanzable).
Defined.

(** ** Registered connections *)





(** ** Flow names of different kinds *)

(** X21. The four kinds of flow name never collide: whatever the
    connection ids, switches and ports, a forward, a reverse, an ARP
    forward and an ARP reverse name are four different strings. *)
Theorem flow_names_de_distinto_tipo (id1 id2 sw1 sw2 : string)
    (p1 q1 p2 q2 : Z) :
  flow_name_forward id1 sw1 p1 q1 <> flow_name_reverse id2 sw2 p2 q2
  /\ flow_name_forward id1 sw1 p1 q1 <> flow_name_arp_forward id2 sw2 p2 q2
  /\ flow_name_forward id1 sw1 p1 q1 <> flow_name_arp_reverse id2 sw2 p2 q2
  /\ flow_name_reverse id1 sw1 p1 q1 <> flow_name_arp_forward id2 sw2 p2 q2
  /\ flow_name_reverse id1 sw1 p1 q1 <> flow_name_arp_reverse id2 sw2 p2 q2
  /\ flow_name_arp_forward id1 sw1 p1 q1
     <> flow_name_arp_reverse id2 sw2 p2 q2.
Proof.
  unfold flow_name_forward, flow_name_reverse, flow_name_arp_forward,
    flow_name_arp_reverse, flow_name.
  repeat split; cbv [String.append]; discriminate.
Qed.

(** ** Repeated keys in a document *)



(** ** [strip] is idempotent *)

Lemma rev_app_append (s t : string) :
  String.rev_app s t = String.rev_app s "" +:+ t.
Proof.
  revert t. induction s as [|a s IH]; intros t; simpl; [done|].
  rewrite (IH (String a t)), (IH (String a "")).
  by rewrite append_asociativa.
Qed.

Lemma rev_app_rev_app (s t : string) :
  String.rev_app (String.rev_app s t) "" = String.rev_app t s.
Proof.
  revert t. induction s as [|a s IH]; intros t; simpl; [done|].
  by rewrite IH.
Qed.

Lemma rev_involutiva (s : string) : String.rev (String.rev s) = s.
Proof. unfold String.rev. by rewrite rev_app_rev_app. Qed.

Lemma rev_cons (a : ascii) (s : string) :
  String.rev (String a s) = String.rev s +:+ String a "".
Proof. unfold String.rev. simpl. apply rev_app_append. Qed.

Lemma rev_app_de_append (s t u : string) :
  String.rev_app (s +:+ t) u = String.rev_app t (String.rev_app s u).
Proof.
  revert u. induction s as [|a s IH]; intros u; [done|].
  rewrite append_cons. simpl. by rewrite IH.
Qed.

Lemma rev_final (a : ascii) (s : string) :
  String.rev (s +:+ String a "") = String a (String.rev s).
Proof. unfold String.rev. by rewrite rev_app_de_append. Qed.

Lemma lstrip_idempotente (s : string) : Py.lstrip (Py.lstrip s) = Py.lstrip s.
Proof.
  induction s as [|c s IH]; simpl; [done|].
  destruct (Py.isspace c) eqn:Hc; [done|]. simpl. by rewrite Hc.
Qed.

Lemma lstrip_final (c : ascii) (s : string) :
  Py.isspace c = false ->
  exists s', Py.lstrip (s +:+ String c "") = s' +:+ String c "".
Proof.
  intros Hc. induction s as [|a s IH].
  - exists "". change ("" +:+ String c "") with (String c "").
    simpl. by rewrite Hc.
  - rewrite append_cons. simpl. destruct (Py.isspace a); [done|].
    exists (String a s). by rewrite append_cons.
Qed.

Lemma lstrip_rstrip (s : string) :
  Py.lstrip s = s -> Py.lstrip (Py.rstrip s) = Py.rstrip s.
Proof.
  unfold Py.rstrip. destruct s as [|c s]; [done|]. simpl.
  destruct (Py.isspace c) eqn:Hc.
  - intros H. exfalso.
    assert (Hlen : forall t, (String.length (Py.lstrip t) <= String.length t)%nat).
    { induction t as [|a t IHt]; simpl; [lia|].
      destruct (Py.isspace a); simpl; lia. }
    specialize (Hlen s). rewrite H in Hlen. simpl in Hlen. lia.
  - intros _. rewrite rev_cons.
    destruct (lstrip_final c (String.rev s) Hc) as [s' ->].
    rewrite rev_final. simpl. by rewrite Hc.
Qed.

Lemma rstrip_idempotente (s : string) : Py.rstrip (Py.rstrip s) = Py.rstrip s.
Proof.
  unfold Py.rstrip. by rewrite rev_involutiva, lstrip_idempotente.
Qed.

Lemma strip_idempotente (s : string) : Py.strip (Py.strip s) = Py.strip s.
Proof.
  unfold Py.strip.
  rewrite (lstrip_rstrip (Py.lstrip s)) by apply lstrip_idempotente.
  apply rstrip_idempotente.
Qed.

(** ** Export followed by import *)

Lemma claves_por_nombre {V} (nombre : V -> string) (d : list (string * V)) :
  (forall k v, (k, v) ∈ d -> nombre v = k) ->
  map (fun kv : string * V => nombre (snd kv)) d = Dict.keys d.
Proof.
  intros H. unfold Dict.keys. apply map_ext_in. intros [k v] Hin. simpl.
  by apply H, list_elem_of_In.
Qed.

Lemma claves_exportadas {V A} (nombre : V -> string)
    (f : string * V -> A) (g : A -> string) (d : list (string * V)) :
  (forall k v, (k, v) ∈ d -> nombre v = k) ->
  (forall kv, g (f kv) = nombre (snd kv)) ->
  map g (map f d) = Dict.keys d.
Proof.
  intros Hk Hg. rewrite map_map. rewrite <- (claves_por_nombre nombre) by done.
  apply map_ext. intros kv. apply Hg.
Qed.

Lemma importar_exportar_servidor (s : Servidor) :
  importar_servidor
    (mkServidorData (servidor_nombre s) (servidor_ip s)
       (Some (map (fun servicio =>
                     mkServicioData (servicio_nombre servicio)
                                    (servicio_protocolo servicio)
                                    (servicio_puerto servicio))
                  (servidor_servicios s))))
  = s.
Proof.
  unfold importar_servidor. simpl. rewrite fold_agregar_servicio. simpl.
  rewrite map_map. destruct s as [n ip l]. simpl. f_equal.
  rewrite <- (map_id l) at 2. apply map_ext. by intros [].
Qed.

Lemma fold_agregar_alumno_limpios (l : list string) (curso : Curso) :
  NoDup l ->
  Forall (fun x => Py.strip x = x) l ->
  (forall x, x ∈ l -> x ∉ curso_alumnos curso) ->
  fold_left
    (fun curso codigo_alumno =>
       agregar_alumno (Py.strip (Py.str codigo_alumno)) curso)
    (map Py.VStr l) curso
  = mkCurso (curso_codigo curso) (curso_nombre curso) (curso_estado curso)
            (curso_alumnos curso ++ l) (curso_servidores curso).
Proof.
  revert curso. induction l as [|x l IH]; intros curso Hnd Hl Hnew; simpl.
  - rewrite app_nil_r. by destruct curso.
  - apply NoDup_cons in Hnd as [Hx Hnd]. apply Forall_cons in Hl as [Hsx Hl].
    rewrite Hsx. unfold agregar_alumno at 2.
    assert (Hm : Py.mem x (curso_alumnos curso) = false).
    { apply mem_not_elem_of, Hnew. constructor. }
    rewrite Hm. simpl. rewrite IH; [| done | done |].
    + simpl. by rewrite <- app_assoc.
    + intros y Hy. simpl. rewrite elem_of_app, list_elem_of_singleton.
      intros [Hin| ->]; [|done]. eapply Hnew; [|exact Hin]. by constructor.
Qed.

Lemma fold_agregar_servidor_catalogo (servs : list (string * Servidor))
    (permisos : list (Servidor * list string)) (curso : Curso) :
  (forall srv sp, (srv, sp) ∈ permisos ->
                  Dict.get (servidor_nombre srv) servs = Some srv) ->
  fold_left
    (fun curso srv_data =>
       match Dict.get (pd_nombre srv_data) servs with
       | Some servidor =>
           agregar_servidor servidor (pd_servicios_permitidos srv_data) curso
       | None => curso
       end)
    (map (fun '(srv, servicios_permitidos) =>
            mkPermisoData (servidor_nombre srv) servicios_permitidos)
         permisos)
    curso
  = mkCurso (curso_codigo curso) (curso_nombre curso) (curso_estado curso)
            (curso_alumnos curso) (curso_servidores curso ++ permisos).
Proof.
  revert curso. induction permisos as [|[srv sp] permisos IH];
    intros curso Hg; simpl.
  - rewrite app_nil_r. by destruct curso.
  - rewrite (Hg srv sp) by constructor. rewrite IH.
    + simpl. by rewrite <- app_assoc.
    + intros srv' sp' Hin. apply (Hg srv' sp'). by constructor.
Qed.

Lemma importar_exportar_curso (servs : list (string * Servidor)) (c : Curso) :
  NoDup (curso_alumnos c) ->
  Forall (fun x => Py.strip x = x) (curso_alumnos c) ->
  (forall srv sp, (srv, sp) ∈ curso_servidores c ->
                  Dict.get (servidor_nombre srv) servs = Some srv) ->
  importar_curso servs
    (mkCursoData (curso_codigo c) (curso_nombre c) (curso_estado c)
       (Some (map Py.VStr (curso_alumnos c)))
       (Some (map (fun '(srv, servicios_permitidos) =>
                     mkPermisoData (servidor_nombre srv) servicios_permitidos)
                  (curso_servidores c))))
  = c.
Proof.
  intros Hnd Hl Hg. unfold importar_curso. simpl.
  set (c0 := mkCurso (curso_codigo c) (curso_nombre c) (curso_estado c) [] []).
  replace (match map Py.VStr (curso_alumnos c) with
           | [] => c0
           | _ :: _ =>
               fold_left (fun curso codigo_alumno =>
                            agregar_alumno (Py.strip (Py.str codigo_alumno))
                                           curso)
                         (map Py.VStr (curso_alumnos c)) c0
           end)
    with (fold_left (fun curso codigo_alumno =>
                       agregar_alumno (Py.strip (Py.str codigo_alumno)) curso)
                    (map Py.VStr (curso_alumnos c)) c0)
    by (by destruct (curso_alumnos c)).
  rewrite fold_agregar_alumno_limpios; [| done | done |].
  - rewrite fold_agregar_servidor_catalogo by done. simpl. by destruct c.
  - intros x _. apply not_elem_of_nil.
Qed.

Lemma miembros_limpios_spec (self : SDNController) :
  miembros_limpios self = true <->
  forall k c, (k, c) ∈ cursos self ->
              Forall (fun x => Py.strip x = x) (curso_alumnos c).
Proof.
  unfold miembros_limpios. rewrite forallb_forall. split.
  - intros H k c Hin. apply Forall_forall. intros x Hx.
    specialize (H (k, c) (proj1 (list_elem_of_In _ _) Hin)). simpl in H.
    rewrite forallb_forall in H. apply String.eqb_eq, H.
    by apply list_elem_of_In.
  - intros H [k c] Hin. simpl. apply forallb_forall. intros x Hx.
    apply String.eqb_eq.
    specialize (H k c (proj2 (list_elem_of_In _ _) Hin)).
    rewrite Forall_forall in H. by apply H, list_elem_of_In.
Qed.

(** Importing the export of a coherent catalog whose member codes have
    no surrounding blanks rebuilds that catalog. *)
Lemma importar_exportar_catalogo (self otro : SDNController) :
  catalogo_coherente self ->
  miembros_limpios self = true ->
  let r := snd (importar_archivo (Some (exportar_archivo self)) otro) in
  alumnos r = alumnos self
  /\ servidores r = servidores self
  /\ cursos r = cursos self.
Proof.
  intros (Ha1 & Hs1 & Hc1 & Ha2 & Hs2 & Hc2) Hl. cbv zeta. simpl.
  pose proof (proj1 (miembros_limpios_spec self) Hl) as Hlimpios.
  clear Hl. rename Hlimpios into Hl.
  assert (Hs : importar_servidores
                 (map (fun '(_, servidor) =>
                         mkServidorData
                           (servidor_nombre servidor) (servidor_ip servidor)
                           (Some (map (fun servicio =>
                                         mkServicioData
                                           (servicio_nombre servicio)
                                           (servicio_protocolo servicio)
                                           (servicio_puerto servicio))
                                      (servidor_servicios servidor))))
                      (servidores self)) []
               = servidores self).
  { rewrite importar_servidores_lista.
    - rewrite map_map. rewrite <- (map_id (servidores self)) at 2.
      apply map_ext_in. intros [k s] Hin.
      rewrite importar_exportar_servidor. simpl.
      by rewrite (Hs2 k s (proj2 (list_elem_of_In _ _) Hin)).
    - rewrite (claves_exportadas servidor_nombre); [done | done | by intros [k s]]. }
  split; [|split].
  - rewrite importar_alumnos_lista.
    + rewrite map_map. rewrite <- (map_id (alumnos self)) at 2.
      apply map_ext_in. intros [k a] Hin. simpl.
      rewrite <- (Ha2 k a (proj2 (list_elem_of_In _ _) Hin)). by destruct a.
    + rewrite (claves_exportadas alumno_codigo); [done | done | by intros [k a]].
  - exact Hs.
  - rewrite Hs. rewrite importar_cursos_lista.
    + rewrite map_map. rewrite <- (map_id (cursos self)) at 2.
      apply map_ext_in. intros [k c] Hin. simpl.
      apply list_elem_of_In in Hin.
      destruct (Hc2 k c Hin) as (Hcod & Hnd & Hg).
      rewrite importar_exportar_curso; [by rewrite Hcod | done | | done].
      by apply (Hl k c).
    + rewrite (claves_exportadas curso_codigo);
        [done | intros k c Hin; by apply Hc2 | by intros [k c]].
Qed.

Lemma importar_curso_limpio (servs : list (string * Servidor))
    (cdata : curso_data) :
  Forall (fun x => Py.strip x = x)
         (curso_alumnos (importar_curso servs cdata)).
Proof.
  unfold importar_curso.
  set (P := fun c : Curso => Forall (fun x => Py.strip x = x) (curso_alumnos c)).
  assert (H1 : P match cd_alumnos cdata with
                 | Some ((_ :: _) as alumnos_lista) =>
                     fold_left
                       (fun curso codigo_alumno =>
                          agregar_alumno (Py.strip (Py.str codigo_alumno)) curso)
                       alumnos_lista
                       (mkCurso (cd_codigo cdata) (cd_nombre cdata)
                                (cd_estado cdata) [] [])
                 | _ => mkCurso (cd_codigo cdata) (cd_nombre cdata)
                                (cd_estado cdata) [] []
                 end).
  { destruct (cd_alumnos cdata) as [[|v l]|]; try by constructor.
    apply fold_left_invariante; [by constructor|].
    intros c v' Hc. unfold P, agregar_alumno.
    destruct (negb _); [|done]. simpl. apply Forall_app. split; [done|].
    apply Forall_singleton, strip_idempotente. }
  destruct (cd_servidores cdata) as [permisos|]; [|done].
  apply (fold_left_invariante P); [done|].
  intros c pd Hc. by destruct (Dict.get _ _).
Qed.

Lemma importar_documento_limpio (datos : documento) (self : SDNController) :
  miembros_limpios (snd (importar_archivo (Some datos) self)) = true.
Proof.
  apply miembros_limpios_spec. simpl.
  destruct (doc_cursos datos) as [l|];
    [|intros k c H; by apply elem_of_nil in H].
  unfold importar_cursos.
  apply (fold_left_invariante
           (fun d : list (string * Curso) =>
              forall k c, (k, c) ∈ d ->
                          Forall (fun x => Py.strip x = x) (curso_alumnos c))).
  - intros k c H. by apply elem_of_nil in H.
  - intros d cdata Hd k c Hin. cbv zeta in Hin.
    apply dict_set_elem_of in Hin as [[-> ->]|Hin].
    + apply importar_curso_limpio.
    + by apply (Hd k c).
Qed.

(** The export of a coherent catalog whose member codes have no
    surrounding blanks is a document the importer takes in as it is. *)
Lemma exportar_archivo_normal (self : SDNController) :
  catalogo_coherente self ->
  miembros_limpios self = true ->
  documento_normal (exportar_archivo self) = true.
Proof.
  intros (Ha1 & Hs1 & Hc1 & Ha2 & Hs2 & Hc2) Hl.
  pose proof (proj1 (miembros_limpios_spec self) Hl) as Hlimpios.
  unfold documento_normal, exportar_archivo. simpl.
  assert (Hnombres :
    map vd_nombre
        (map (fun '(_, servidor) =>
                mkServidorData
                  (servidor_nombre servidor) (servidor_ip servidor)
                  (Some (map (fun servicio =>
                                mkServicioData
                                  (servicio_nombre servicio)
                                  (servicio_protocolo servicio)
                                  (servicio_puerto servicio))
                             (servidor_servicios servidor))))
             (servidores self))
    = Dict.keys (servidores self)).
  { apply (claves_exportadas servidor_nombre); [done | by intros [k s]]. }
  rewrite Hnombres.
  rewrite (claves_exportadas alumno_codigo); [| done | by intros [k a]].
  rewrite (claves_exportadas curso_codigo);
    [| intros k c Hin; by apply Hc2 | by intros [k c]].
  repeat (apply andb_true_iff; split);
    try (by apply bool_decide_eq_true).
  - apply forallb_forall. intros sd Hin.
    apply in_map_iff in Hin as ([k s] & <- & _). done.
  - apply forallb_forall. intros cd Hin.
    apply in_map_iff in Hin as ([k c] & <- & Hin).
    apply list_elem_of_In in Hin.
    destruct (Hc2 k c Hin) as (_ & Hnd & Hg).
    unfold curso_data_normal. simpl.
    repeat (apply andb_true_iff; split).
    + apply forallb_forall. intros v Hv.
      apply in_map_iff in Hv as (x & <- & Hx). simpl.
      apply String.eqb_eq. specialize (Hlimpios k c Hin).
      rewrite Forall_forall in Hlimpios. by apply Hlimpios, list_elem_of_In.
    + apply bool_decide_eq_true. apply NoDup_fmap_2; [|done].
      by intros x y [= ->].
    + apply forallb_forall. intros pd Hpd.
      apply in_map_iff in Hpd as ([srv sp] & <- & Hin'). simpl.
      apply mem_elem_of. apply list_elem_of_In in Hin'.
      specialize (Hg srv sp Hin'). apply dict_get_elem_of in Hg.
      apply list_elem_of_In, in_map_iff. exists (servidor_nombre srv, srv).
      split; [done | by apply list_elem_of_In].
Qed.

Lemma exportar_archivo_catalogo (self self' : SDNController) :
  alumnos self' = alumnos self ->
  servidores self' = servidores self ->
  cursos self' = cursos self ->
  exportar_archivo self' = exportar_archivo self.
Proof. unfold exportar_archivo. by intros -> -> ->. Qed.

(** X23. Exporting a catalog and importing the exported document rebuilds
    the catalog: for every state a session can reach in which no member
    code has surrounding blanks, importing the export (into any
    controller) gives the same students, servers and courses, in the same
    order, and keeps the connections of the importing controller. *)
Theorem importar_exportar_reconstruye (self otro : SDNController) :
  alcanzable self ->
  miembros_limpios self = true ->
  let r := importar_archivo (Some (exportar_archivo self)) otro in
  fst r = true
  /\ alumnos (snd r) = alumnos self
  /\ servidores (snd r) = servidores self
  /\ cursos (snd r) = cursos self
  /\ conexiones (snd r) = conexiones otro
  /\ conexion_flujos (snd r) = conexion_flujos otro.
Proof.
  intros Hreach Hl. cbv zeta.
  destruct (importar_exportar_catalogo self otro
              (alcanzable_catalogo_coherente self Hreach) Hl)
    as (H1 & H2 & H3).
  by repeat split.
Qed.

Lemma importar_exportar_reconstruye_witness :
  alcanzable (correr Ejemplo.sesion init)
  /\ miembros_limpios (correr Ejemplo.sesion init) = true
  /\ cursos (snd (importar_archivo
                    (Some (exportar_archivo (correr Ejemplo.sesion init)))
                    init))
     = cursos (correr Ejemplo.sesion init).
Proof.
  assert (Hl : miembros_limpios (correr Ejemplo.sesion init) = true)
    by (vm_compute; reflexivity).
  split; [exact sesion_alcanzable|]. split; [exact Hl|].
  apply (importar_exportar_reconstruye (correr Ejemplo.sesion init) init
           sesion_alcanzable Hl).
Defined.

(** X24. Whatever document the importer was given, the document the
    exporter then writes is one the importer takes in as it is (all
    collections present, unique keys, clean member codes without
    repetition, grants to servers of the document), and importing and
    exporting that document again reproduces it exactly: one import
    normalizes, a second changes nothing. *)
Theorem exportar_importar_punto_fijo (datos : documento)
    (self : SDNController) :
  let exportado :=
    exportar_archivo (snd (importar_archivo (Some datos) self)) in
  documento_normal exportado = true
  /\ exportar_archivo (snd (importar_archivo (Some exportado) self))
     = exportado.
Proof.
  cbv zeta.
  pose proof (importar_documento_coherente datos self) as Hc.
  pose proof (importar_documento_limpio datos self) as Hl.
  split; [by apply exportar_archivo_normal|].
  destruct (importar_exportar_catalogo
              (snd (importar_archivo (Some datos) self)) self Hc Hl)
    as (H1 & H2 & H3).
  by apply exportar_archivo_catalogo.
Qed.

(** ** Listings *)

Lemma lineas_del_curso_listado (servicio servidor : string) (curso : Curso)
    (permisos : list (Servidor * list string)) :
  lineas_del_curso servicio servidor curso permisos
  = if existsb (fun par : Servidor * list string =>
                  String.eqb (servidor_nombre (fst par)) servidor
                  && Py.mem servicio (snd par)) permisos
    then ["- " +:+ Curso_str curso] else [].
Proof.
  induction permisos as [|[srv sp] permisos IH]; simpl; [done|].
  by destruct (String.eqb (servidor_nombre srv) servidor && Py.mem servicio sp).
Qed.

(** X25. With a service name and a server name, both non-empty,
    [listar_cursos] prints its header and then one line per course, in
    course-insertion order and however many of its grants match, for
    exactly the courses that grant a server of that name the service name
    as it is written.  The listing never promises more than the policy
    gives: a listed course that is being taught authorizes each of its
    members for a service of that name on a server of that name. *)
Theorem listar_cursos_filtrado (servicio servidor : string)
    (self : SDNController) :
  servicio <> "" -> servidor <> "" ->
  listar_cursos (Some servicio) (Some servidor) self
  = (salto_de_linea +:+ "Cursos que tienen acceso al servicio "
       +:+ servicio +:+ " en " +:+ servidor +:+ ":")
    :: map (fun curso => "- " +:+ Curso_str curso)
           (List.filter (curso_listado servicio servidor)
                        (Dict.values (cursos self)))
  /\ forall curso codigo_alumno srv svc,
       curso_listado servicio servidor curso = true ->
       curso_estado curso = "DICTANDO" ->
       codigo_alumno ∈ curso_alumnos curso ->
       servidor_nombre srv = servidor ->
       servicio_nombre svc = servicio ->
       curso_autoriza codigo_alumno srv svc curso = true.
Proof.
  intros Hsv Hsr. split.
  - destruct servicio as [|a servicio]; [done|].
    destruct servidor as [|b servidor]; [done|].
    unfold listar_cursos. f_equal.
    induction (cursos self) as [|[k c] cs IH]; simpl; [done|].
    rewrite IH, lineas_del_curso_listado. unfold curso_listado at 2.
    by destruct (existsb _ (curso_servidores c)).
  - intros curso codigo_alumno srv svc Hl Hest Hm Hsrv Hsvc.
    unfold curso_autoriza. rewrite Hest. simpl.
    apply mem_elem_of in Hm. rewrite Hm. simpl.
    unfold curso_listado in Hl. rewrite existsb_exists in *.
    destruct Hl as ([s sp] & Hin & Hp). exists (s, sp). split; [done|].
    apply andb_true_iff in Hp as [Hn Hp]. simpl in *.
    unfold permiso_cubre. simpl. rewrite Hsrv, Hn. simpl.
    apply mem_elem_of. apply mem_elem_of in Hp.
    apply list_elem_of_fmap. exists servicio. by rewrite Hsvc.
Qed.

Lemma listar_cursos_filtrado_witness :
  "http" <> "" /\ "S1" <> ""
  /\ listar_cursos (Some "http") (Some "S1") Ejemplo.catalogo
     = [salto_de_linea
          +:+ "Cursos que tienen acceso al servicio http en S1:";
        "- Curso: Redes (C1), Estado: DICTANDO"].
Proof.
  assert (H1 : "http" <> "") by discriminate.
  assert (H2 : "S1" <> "") by discriminate.
  split; [exact H1|]. split; [exact H2|].
  destruct (listar_cursos_filtrado "http" "S1" Ejemplo.catalogo H1 H2)
    as [H _].
  rewrite H. reflexivity.
Defined.

(** ** Instances of the properties above *)

Lemma matricula_autoriza_witness :
  is_Some (Dict.get "U2" (alumnos Ejemplo.catalogo_u2))
  /\ Dict.get "C1" (cursos Ejemplo.catalogo_u2) = Some Ejemplo.c1
  /\ pasa_politica
       (fst (crear_conexion_salida Ejemplo.sin_controlador "U2" "S1" "http"
               (snd (actualizar_curso "C1" "U2" "agregar" Ejemplo.catalogo_u2))))
     = true.
Proof.
  assert (H1 : is_Some (Dict.get "U2" (alumnos Ejemplo.catalogo_u2)))
    by (by eexists).
  split; [exact H1|]. split; [reflexivity|].
  apply (matricula_autoriza Ejemplo.sin_controlador "C1" "U2" "S1" "http"
           Ejemplo.catalogo_u2 Ejemplo.c1 Ejemplo.s1 Ejemplo.http
           H1 eq_refl eq_refl eq_refl eq_refl).
  exists Ejemplo.s1, ["http"; "dns"], "http".
  split; [simpl; constructor|]. split; [reflexivity|].
  split; [constructor | reflexivity].
Defined.

Lemma baja_desautoriza_witness :
  Dict.get "C1" (cursos Ejemplo.catalogo) = Some Ejemplo.c1
  /\ NoDup (curso_alumnos Ejemplo.c1)
  /\ crear_conexion Ejemplo.sin_controlador "U1" "S1" "http"
       (snd (actualizar_curso "C1" "U1" "eliminar" Ejemplo.catalogo))
     = (false, snd (actualizar_curso "C1" "U1" "eliminar" Ejemplo.catalogo)).
Proof.
  assert (Hnd : NoDup (curso_alumnos Ejemplo.c1)).
  { simpl. apply NoDup_singleton. }
  split; [reflexivity|]. split; [exact Hnd|].
  apply (baja_desautoriza Ejemplo.sin_controlador "C1" "U1" "S1" "http"
           Ejemplo.catalogo Ejemplo.c1 Ejemplo.s1 Ejemplo.http).
  - by eexists.
  - reflexivity.
  - reflexivity.
  - reflexivity.
  - simpl. apply NoDup_singleton.
  - exact Hnd.
  - intros k c Hin Hne. simpl in Hin.
    apply list_elem_of_singleton in Hin. injection Hin as -> _. done.
Defined.

Lemma crear_conexion_fallida_sin_cambios_witness :
  conexiones Ejemplo.catalogo !! nuevo_id Ejemplo.sin_controlador = None
  /\ fst (crear_conexion Ejemplo.sin_controlador "U1" "S1" "ssh"
                         Ejemplo.catalogo) = false
  /\ snd (crear_conexion Ejemplo.sin_controlador "U1" "S1" "ssh"
                         Ejemplo.catalogo) = Ejemplo.catalogo.
Proof.
  assert (H1 : conexiones Ejemplo.catalogo
               !! nuevo_id Ejemplo.sin_controlador = None)
    by (vm_compute; reflexivity).
  assert (H2 : fst (crear_conexion Ejemplo.sin_controlador "U1" "S1" "ssh"
                                   Ejemplo.catalogo) = false)
    by (vm_compute; reflexivity).
  split; [exact H1|]. split; [exact H2|].
  apply (crear_conexion_fallida_sin_cambios Ejemplo.sin_controlador
           "U1" "S1" "ssh" Ejemplo.catalogo H1 H2).
Defined.

Lemma crear_conexion_registra_witness :
  crear_conexion Ejemplo.sin_controlador "U1" "S1" "http" Ejemplo.catalogo
  = (true, Ejemplo.conectado)
  /\ exists alumno servidor servicio,
       Dict.get "U1" (alumnos Ejemplo.catalogo) = Some alumno
       /\ Dict.get "S1" (servidores Ejemplo.catalogo) = Some servidor
       /\ servicio ∈ servidor_servicios servidor.
Proof.
  assert (H : crear_conexion Ejemplo.sin_controlador "U1" "S1" "http"
                             Ejemplo.catalogo = (true, Ejemplo.conectado))
    by (vm_compute; reflexivity).
  split; [exact H|].
  destruct (crear_conexion_registra _ _ _ _ _ _ H)
    as (alumno & servidor & servicio & H1 & H2 & H3 & _).
  exists alumno, servidor, servicio.
  split; [exact H1|]. split; [exact H2 | exact H3].
Defined.

Lemma borrar_conexion_deshace_crear_conexion_witness :
  conexiones Ejemplo.catalogo !! nuevo_id Ejemplo.sin_controlador = None
  /\ conexion_flujos Ejemplo.catalogo !! nuevo_id Ejemplo.sin_controlador
     = None
  /\ crear_conexion Ejemplo.sin_controlador "U1" "S1" "http" Ejemplo.catalogo
     = (true, Ejemplo.conectado)
  /\ borrar_conexion (nuevo_id Ejemplo.sin_controlador) Ejemplo.conectado
     = (true, Ejemplo.catalogo).
Proof.
  assert (H1 : conexiones Ejemplo.catalogo
               !! nuevo_id Ejemplo.sin_controlador = None)
    by (vm_compute; reflexivity).
  assert (H2 : conexion_flujos Ejemplo.catalogo
               !! nuevo_id Ejemplo.sin_controlador = None)
    by (vm_compute; reflexivity).
  assert (H3 : crear_conexion Ejemplo.sin_controlador "U1" "S1" "http"
                              Ejemplo.catalogo = (true, Ejemplo.conectado))
    by (vm_compute; reflexivity).
  split; [exact H1|]. split; [exact H2|]. split; [exact H3|].
  apply (borrar_conexion_deshace_crear_conexion Ejemplo.sin_controlador
           "U1" "S1" "http" Ejemplo.catalogo Ejemplo.conectado H1 H2 H3).
Defined.

Lemma get_attachment_point_primer_dispositivo_witness :
  device_attachmentPoint Ejemplo.en_puerto_4 = [(Ejemplo.sw1, 4)]
  /\ get_attachment_point
       (Reply 200 (Some ([Ejemplo.sin_punto] ++ Ejemplo.en_puerto_4 :: [])))
       "aa:bb:cc:dd:ee:01"
     = (Ejemplo.sw1, 4).
Proof.
  split; [reflexivity|].
  apply (get_attachment_point_primer_dispositivo "aa:bb:cc:dd:ee:01"
           [Ejemplo.sin_punto] [] Ejemplo.en_puerto_4 (Ejemplo.sw1, 4) []).
  - apply Forall_singleton. by right.
  - apply mem_elem_of. reflexivity.
  - reflexivity.
Defined.
